(** * Viu extractors (youtube_dl/extractor/viu.py)

    A shallow embedding of the four extractor classes of viu.py
    (ViuIE, ViuPlaylistIE, ViuOTTIE, ViuTVIE and their base ViuBaseIE)
    and the properties of the specification that are about them.

    Conventions.
    - Decoded JSON documents are the type [json]; a JSON object is an
      association list in the iteration order of the Python dict.
      Numbers are integers: no statement below depends on fractions.
    - Python exceptions are the type [exn]; code that may raise returns
      [result].  The semantics followed is that of Python 3: ordering
      [None] against a number raises TypeError, where Python 2 puts
      [None] first.  The statements below keep to keys that are
      integers, on which the two agree.
    - Strings are sequences of 8-bit characters.  The classes [[a-z]]
      and [[^/]] of the regular expressions are the same on every text;
      [\d] is read on ASCII text, where it is the digits 0 to 9 (Python 3
      also takes the decimal digits of other scripts), and the
      statements that depend on where a run of digits ends say that the
      text is ASCII.
    - Everything the extractors call on the host (InfoExtractor, the
      downloader, utils) and that viu.py does not define is a field of
      the class [Host]. *)

From Stdlib Require Import ZArith List String Ascii Bool Lia.
From Stdlib Require Import Permutation Sorted DecimalString.
Import ListNotations.

Open Scope string_scope.
Open Scope Z_scope.

(** ** Python values and exceptions *)

Module Py.

#[warnings="-register-all"]
Inductive json : Type :=
| JNull
| JBool (b : bool)
| JNum (z : Z)
| JStr (s : string)
| JArr (items : list json)
| JObj (fields : list (string * json)).

Inductive exn : Type :=
| ExtractorError (msg : string) (expected : bool) (video_id : json)
| KeyError (key : json)
| IndexError
| TypeError
| AttributeError
| HostError (what : string).

Inductive result (A : Type) : Type :=
| Ok (a : A)
| Raise (e : exn).

Arguments Ok {A} a.
Arguments Raise {A} e.

Definition bind {A B : Type} (c : result A) (k : A -> result B) : result B :=
  match c with
  | Ok a => k a
  | Raise e => Raise e
  end.

Definition is_ok {A : Type} (c : result A) : bool :=
  match c with Ok _ => true | Raise _ => false end.

(** [bool(v)] *)
Definition truthy (v : json) : bool :=
  match v with
  | JNull => false
  | JBool b => b
  | JNum z => negb (z =? 0)
  | JStr s => negb (s =? "")%string
  | JArr l => match l with [] => false | _ :: _ => true end
  | JObj l => match l with [] => false | _ :: _ => true end
  end.

(** [a or b], with [b] already evaluated (used where [b] cannot raise) *)
Definition py_or (a b : json) : json := if truthy a then a else b.

(** [v == s] for a string literal [s] *)
Definition str_is (v : json) (s : string) : bool :=
  match v with
  | JStr t => (t =? s)%string
  | _ => false
  end.

Fixpoint assoc {V : Type} (k : string) (kv : list (string * V)) : option V :=
  match kv with
  | [] => None
  | (k', v) :: rest => if (k' =? k)%string then Some v else assoc k rest
  end.

(** [d.get(k, dflt)]: only dicts have the method *)
Definition dict_get (d : json) (k : string) (dflt : json) : result json :=
  match d with
  | JObj kv => Ok (match assoc k kv with Some v => v | None => dflt end)
  | _ => Raise AttributeError
  end.

(** [d[k]] for a string key *)
Definition getitem (d : json) (k : string) : result json :=
  match d with
  | JObj kv =>
      match assoc k kv with
      | Some v => Ok v
      | None => Raise (KeyError (JStr k))
      end
  | _ => Raise TypeError
  end.

(** [d[0]] *)
Definition getitem0 (d : json) : result json :=
  match d with
  | JArr [] => Raise IndexError
  | JArr (x :: _) => Ok x
  | JStr EmptyString => Raise IndexError
  | JStr (String c _) => Ok (JStr (String c EmptyString))
  | JObj _ => Raise (KeyError (JNum 0))
  | _ => Raise TypeError
  end.

Fixpoint chars (s : string) : list json :=
  match s with
  | EmptyString => []
  | String c rest => JStr (String c EmptyString) :: chars rest
  end.

(** the elements [for x in v] visits *)
Definition iterate (v : json) : result (list json) :=
  match v with
  | JArr l => Ok l
  | JObj kv => Ok (map (fun p => JStr (fst p)) kv)
  | JStr s => Ok (chars s)
  | _ => Raise TypeError
  end.

(** [d.items()] *)
Definition items (d : json) : result (list (string * json)) :=
  match d with
  | JObj kv => Ok kv
  | _ => Raise AttributeError
  end.

(** [d[k] = v] on a dict held as an association list *)
Fixpoint dict_set {V : Type} (k : string) (v : V) (kv : list (string * V))
  : list (string * V) :=
  match kv with
  | [] => [(k, v)]
  | (k', v') :: rest =>
      if (k' =? k)%string then (k', v) :: rest else (k', v') :: dict_set k v rest
  end.

(** [d.update(e)] *)
Definition dict_update {V : Type} (d e : list (string * V)) : list (string * V) :=
  fold_left (fun acc p => dict_set (fst p) (snd p) acc) e d.

Definition of_opt_int (o : option Z) : json :=
  match o with Some z => JNum z | None => JNull end.

End Py.

Export Py.

Declare Scope py_scope.
Delimit Scope py_scope with py.
Notation "x <- c ;; k" := (bind c (fun x => k))
  (at level 61, c at next level, right associativity) : py_scope.
Open Scope py_scope.

(** ** Strings: the fragments of [str] and [re] the extractors use *)

Module Str.

Definition in_range (lo hi : nat) (c : ascii) : bool :=
  (Nat.leb lo (nat_of_ascii c) && Nat.leb (nat_of_ascii c) hi)%bool.

(** the class [[a-z]] *)
Definition is_lower (c : ascii) : bool := in_range 97 122 c.
(** the class [[A-Z]] *)
Definition is_upper (c : ascii) : bool := in_range 65 90 c.
(** the class [\d] on ASCII text: the digits 0 to 9.  On other text
    Python 3 also takes the decimal digits of other scripts; see
    [is_ascii] *)
Definition is_digit (c : ascii) : bool := in_range 48 57 c.
(** a character of ASCII *)
Definition is_ascii (c : ascii) : bool := Nat.leb (nat_of_ascii c) 127.

Definition upper_char (c : ascii) : ascii :=
  if is_lower c then ascii_of_nat (nat_of_ascii c - 32) else c.
Definition lower_char (c : ascii) : ascii :=
  if is_upper c then ascii_of_nat (nat_of_ascii c + 32) else c.

Fixpoint map_chars (f : ascii -> ascii) (s : string) : string :=
  match s with
  | EmptyString => EmptyString
  | String c rest => String (f c) (map_chars f rest)
  end.

(** [s.upper()] and [s.lower()], on ASCII letters (the country code
    that is upper-cased is [[a-z]{2}]) *)
Definition upper (s : string) : string := map_chars upper_char s.
Definition lower (s : string) : string := map_chars lower_char s.

(** what is left of [s] after the literal [p], when [s] starts with it *)
Fixpoint drop_prefix (p s : string) : option string :=
  match p with
  | EmptyString => Some s
  | String a p' =>
      match s with
      | EmptyString => None
      | String b s' => if Ascii.eqb a b then drop_prefix p' s' else None
      end
  end.

(** an optional literal, [(?:p)?] *)
Definition drop_optional (p s : string) : string :=
  match drop_prefix p s with
  | Some rest => rest
  | None => s
  end.

(** the longest prefix of [s] in the class [cls], and the rest: [cls*] *)
Fixpoint span (cls : ascii -> bool) (s : string) : string * string :=
  match s with
  | EmptyString => (EmptyString, EmptyString)
  | String c rest =>
      if cls c then let (m, r) := span cls rest in (String c m, r)
      else (EmptyString, s)
  end.

(** [cls+] *)
Definition span1 (cls : ascii -> bool) (s : string) : option (string * string) :=
  match span cls s with
  | (EmptyString, _) => None
  | (m, r) => Some (m, r)
  end.

(** exactly [n] characters of the class [cls]: [cls{n}] *)
Fixpoint take_class (cls : ascii -> bool) (n : nat) (s : string)
  : option (string * string) :=
  match n with
  | O => Some (EmptyString, s)
  | S n' =>
      match s with
      | EmptyString => None
      | String c rest =>
          if cls c then
            match take_class cls n' rest with
            | Some (m, r) => Some (String c m, r)
            | None => None
            end
          else None
      end
  end.

Definition not_char (x : ascii) (c : ascii) : bool := negb (Ascii.eqb c x).

(** [s.split(sep)] for a one-character separator *)
Fixpoint split_on (sep : ascii) (s : string) : list string :=
  match s with
  | EmptyString => [EmptyString]
  | String c rest =>
      if Ascii.eqb c sep then EmptyString :: split_on sep rest
      else match split_on sep rest with
           | [] => [String c EmptyString]
           | w :: ws => String c w :: ws
           end
  end.

(** [str(z)] *)
Definition of_Z (z : Z) : string := NilZero.string_of_int (Z.to_int z).

End Str.

(** ** The host *)

Record request : Type := {
  req_url : string;
  req_query : list (string * json);
  req_headers : list (string * json);
  req_data : option json
}.

(** What viu.py takes from InfoExtractor, the downloader and utils. *)
Class Host : Type := {
  (** [str(v)] for a list or a dict *)
  py_repr : json -> string;
  (** [str.strip] *)
  str_strip : string -> string;
  (** [utils.int_or_none] *)
  int_or_none : json -> option Z;
  (** [utils.determine_ext] *)
  determine_ext : json -> result json;
  (** [self._downloader.params] *)
  downloader_params : list (string * json);
  (** [self.geo_verification_headers()] *)
  geo_verification_headers : list (string * json);
  (** [self._request_webpage(...).info()[name]], a header of the response *)
  request_webpage_header : request -> string -> result json;
  (** [self._download_json] *)
  download_json : request -> result json;
  (** [self._extract_m3u8_formats(url, video_id, ext, entry_protocol=, fatal=)];
      [None] for a keyword the call leaves out *)
  extract_m3u8_formats :
    json -> json -> string -> option string -> option bool -> result json;
  (** [self._extract_mpd_formats(url, video_id, fatal=)] *)
  extract_mpd_formats : json -> json -> option bool -> result json;
  (** [self._sort_formats(formats)]: the list as it is afterwards *)
  sort_formats : json -> result json;
  (** ['%018x' % random.randrange(16 ** 18)] *)
  random_cookie : string;
  (** [datetime.now().strftime('%Y%m%d%H%M%S')] *)
  caller_reference_no : string
}.

(** [str(v)], [compat_str(v)] and the conversion [%s] *)
Definition py_str `{Host} (v : json) : string :=
  match v with
  | JNull => "None"
  | JBool true => "True"
  | JBool false => "False"
  | JNum z => Str.of_Z z
  | JStr s => s
  | _ => py_repr v
  end.

(** ** Results: what [_real_extract] returns *)

(** a URL, with the data [smuggle_url] attached to it, if any *)
Record url : Type := {
  url_text : string;
  url_smuggled : option json
}.

Definition plain_url (s : string) : url :=
  {| url_text := s; url_smuggled := None |}.

(** Modelled from the spec: [utils.smuggle_url] and [utils.unsmuggle_url]
    are not part of viu.py.  The spec has the suppress flag carried by
    the reference itself; here the smuggled data is a component of the
    URL, set by [smuggle_url] and read back by [unsmuggle_url]. *)
Definition smuggle_url (u : string) (data : json) : url :=
  {| url_text := u; url_smuggled := Some data |}.

Definition unsmuggle_url (u : url) (default : json) : string * json :=
  match url_smuggled u with
  | Some data => (url_text u, data)
  | None => (url_text u, default)
  end.

(** [{'url': ..., 'ext': ...}] *)
Record subtitle_track : Type := {
  sub_url : json;
  sub_ext : string
}.

(** the dict [subtitles]: language to tracks, in insertion order *)
Definition subtitle_map (K : Type) : Type := list (K * list subtitle_track).

Section Setdefault.
Context {K : Type} (eqb : K -> K -> bool).

Fixpoint sub_lookup (k : K) (m : subtitle_map K) : option (list subtitle_track) :=
  match m with
  | [] => None
  | (k', ts) :: rest => if eqb k' k then Some ts else sub_lookup k rest
  end.

(** [m.setdefault(k, []).append(t)] *)
Fixpoint setdefault_append (k : K) (t : subtitle_track) (m : subtitle_map K)
  : subtitle_map K :=
  match m with
  | [] => [(k, [t])]
  | (k', ts) :: rest =>
      if eqb k' k then (k', (ts ++ [t])%list) :: rest
      else (k', ts) :: setdefault_append k t rest
  end.
End Setdefault.

(** [self.url_result(url, ie, video_id, video_title)]; a video id or
    title that is [None] is a key the dict does not have *)
Record url_result : Type := {
  ref_url : url;
  ref_ie : string;
  ref_video_id : json;
  ref_video_title : json
}.

(** the info dict of a single video *)
Record info_dict (K : Type) : Type := {
  id : json;
  title : json;
  description : json;
  series : json;
  episode : json;
  episode_number : option Z;
  duration : option Z;
  thumbnail : option json;
  formats : json;
  subtitles : subtitle_map K;
  (** the keys only ViuTVIE sets: programme_slug, slug, tags *)
  extra : list (string * json)
}.

Arguments id {K}.
Arguments title {K}.
Arguments formats {K}.
Arguments subtitles {K}.
Arguments extra {K}.

(** the dict of a playlist; [None] for a key the dict does not have *)
Record playlist : Type := {
  entries : list url_result;
  playlist_id : option json;
  playlist_title : option json;
  playlist_description : option json
}.

(** [v] under [if v:] *)
Definition if_truthy (v : json) : option json :=
  if truthy v then Some v else None.

(** [self.playlist_result(entries, playlist_id, playlist_title, playlist_description)]
    of InfoExtractor: the id, the title and the description are set
    only when they are truthy *)
Definition playlist_result (entries : list url_result)
    (playlist_id playlist_title playlist_description : json) : playlist :=
  {| entries := entries;
     playlist_id := if_truthy playlist_id;
     playlist_title := if_truthy playlist_title;
     playlist_description := if_truthy playlist_description |}.

(** [ExtractorError(msg, expected=expected, video_id=video_id)] of utils,
    as the exception the [raise] ends in: with a video id the message is
    built as [video_id + ': ' + msg], which raises TypeError unless the
    id is text *)
Definition extractor_error (msg : string) (expected : bool) (video_id : json) : exn :=
  match video_id with
  | JNull | JStr _ => ExtractorError msg expected video_id
  | _ => TypeError
  end.

Inductive extraction (K : Type) : Type :=
| Video (info : info_dict K)
| Playlist (p : playlist).

Arguments Video {K} info.
Arguments Playlist {K} p.

Definition is_playlist {K : Type} (r : result (extraction K)) : bool :=
  match r with
  | Ok (Playlist _) => true
  | _ => false
  end.

(** ** Loops and sorting *)

(** [for x in xs: body], threading the variables the body updates;
    [continue] is [Ok s] *)
Fixpoint for_each {A S : Type} (body : S -> A -> result S) (xs : list A) (s : S)
  : result S :=
  match xs with
  | [] => Ok s
  | x :: rest => s' <- body s x ;; for_each body rest s'
  end.

(** the key of every element, in order, as [sorted] computes them first *)
Fixpoint keys_of {A K : Type} (key : A -> result K) (xs : list A)
  : result (list (K * A)) :=
  match xs with
  | [] => Ok []
  | x :: rest =>
      k <- key x ;;
      ks <- keys_of key rest ;;
      Ok ((k, x) :: ks)
  end.

Fixpoint insert_by {A : Type} (k : Z) (x : A) (l : list (Z * A)) : list (Z * A) :=
  match l with
  | [] => [(k, x)]
  | (k', y) :: rest =>
      if k <=? k' then (k, x) :: l else (k', y) :: insert_by k x rest
  end.

(** a stable sort on integer keys *)
Fixpoint stable_sort {A : Type} (l : list (Z * A)) : list (Z * A) :=
  match l with
  | [] => []
  | (k, x) :: rest => insert_by k x (stable_sort rest)
  end.

(** the keys as integers, when none of them is [None] *)
Fixpoint int_keys {A : Type} (l : list (option Z * A)) : option (list (Z * A)) :=
  match l with
  | [] => Some []
  | (Some k, x) :: rest =>
      match int_keys rest with
      | Some r => Some ((k, x) :: r)
      | None => None
      end
  | (None, _) :: _ => None
  end.

(** [sorted(xs, key=key)] for keys that are integers or [None]: a list
    of fewer than two elements is returned as it is, without a
    comparison; otherwise every key is compared, and comparing [None]
    raises TypeError *)
Definition sorted_by (key : json -> result (option Z)) (xs : list json)
  : result (list json) :=
  ks <- keys_of key xs ;;
  match ks with
  | [] | [_] => Ok xs
  | _ =>
      match int_keys ks with
      | Some iks => Ok (map snd (stable_sort iks))
      | None => Raise TypeError
      end
  end.

(** the keys of the subtitle dict of ViuOTTIE are JSON scalars *)
Definition hashable (v : json) : bool :=
  match v with
  | JArr _ | JObj _ => false
  | _ => true
  end.

Definition key_eqb (a b : json) : bool :=
  match a, b with
  | JNull, JNull => true
  | JStr s, JStr t => (s =? t)%string
  | JNum x, JNum y => x =? y
  | JBool x, JBool y => Bool.eqb x y
  | JBool x, JNum y => (if x then 1 else 0) =? y
  | JNum x, JBool y => x =? (if y then 1 else 0)
  | _, _ => false
  end.

(** [v.strip()] *)
Definition py_strip `{Host} (v : json) : result json :=
  match v with
  | JStr s => Ok (JStr (str_strip s))
  | _ => Raise AttributeError
  end.

(** ** ViuBaseIE *)

Section Extractors.
Context `{Host}.

Definition ViuBaseIE_real_initialize : result json :=
  request_webpage_header
    {| req_url := "https://www.viu.com/api/apps/v2/authenticate";
       req_query := [("acct", JStr "test"); ("appid", JStr "viu_desktop");
                     ("fmt", JStr "json"); ("iid", JStr "guest");
                     ("languageid", JStr "default"); ("platform", JStr "desktop");
                     ("userid", JStr "guest"); ("useridtype", JStr "guest");
                     ("ver", JStr "1.0")];
       req_headers := geo_verification_headers;
       req_data := None |}
    "X-VIU-AUTH".

(** lines 41-46: the request of [_call_api]; [kw_headers] is
    [kwargs.get('headers', {})] *)
Definition call_api_request (auth_token : json) (path : string)
    (query kw_headers : list (string * json)) : request :=
  let headers := geo_verification_headers in
  let headers := dict_update headers [("X-VIU-AUTH", auth_token)] in
  let headers := dict_update headers kw_headers in
  {| req_url := "https://www.viu.com/api/" ++ path;
     req_query := query;
     req_headers := headers;
     req_data := None |}.

(** lines 49-53: the envelope unwrapped, for the extractor named [ie_name] *)
Definition unwrap_envelope (ie_name : string) (envelope : json) : result json :=
  response <- getitem envelope "response" ;;
  status <- dict_get response "status" JNull ;;
  if negb (str_is status "success") then
    message <- getitem response "message" ;;
    Raise (ExtractorError (ie_name ++ " said: " ++ py_str message) true JNull)
  else Ok response.

(** [self._call_api(path, video_id, note, query=query)], for the
    extractor named [ie_name] holding [auth_token] *)
Definition call_api (ie_name : string) (auth_token : json) (path : string)
    (query kw_headers : list (string * json)) : result json :=
  envelope <- download_json (call_api_request auth_token path query kw_headers) ;;
  unwrap_envelope ie_name envelope.

(** ** ViuIE *)

(** lines 99-112: the manifest URL *)
Definition ViuIE_m3u8_url (video_data : json) : result json :=
  urlpathd <- dict_get video_data "urlpathd" JNull ;;
  urlpath <- dict_get video_data "urlpath" JNull ;;
  let url_path := py_or urlpathd urlpath in
  tdirforwhole <- dict_get video_data "tdirforwhole" JNull ;;
  hls_file <- dict_get video_data "jwhlsfile" JNull ;;
  if (truthy url_path && truthy tdirforwhole && truthy hls_file)%bool then
    Ok (JStr (py_str url_path ++ "/" ++ py_str tdirforwhole ++ "/" ++ py_str hls_file))
  else getitem video_data "href".

(** [re.match(r'^subtitle_(?P<lang>[^_]+)_(?P<ext>(vtt|srt))', key)]:
    the groups lang and ext *)
Definition match_subtitle_key (key : string) : option (string * string) :=
  match Str.drop_prefix "subtitle_" key with
  | None => None
  | Some rest =>
      match Str.span1 (Str.not_char "_"%char) rest with
      | None => None
      | Some (lang, after) =>
          match Str.drop_prefix "_" after with
          | None => None
          | Some tail =>
              match Str.drop_prefix "vtt" tail with
              | Some _ => Some (lang, "vtt")
              | None =>
                  match Str.drop_prefix "srt" tail with
                  | Some _ => Some (lang, "srt")
                  | None => None
                  end
              end
          end
      end
  end.

(** lines 116-124: the body of the loop over [video_data.items()] *)
Definition ViuIE_subtitle_step (subtitles : subtitle_map string) (kv : string * json)
  : subtitle_map string :=
  match match_subtitle_key (fst kv) with
  | None => subtitles
  | Some (lang, ext) =>
      setdefault_append String.eqb lang {| sub_url := snd kv; sub_ext := ext |} subtitles
  end.

Definition ViuIE_subtitles (fields : list (string * json)) : subtitle_map string :=
  fold_left ViuIE_subtitle_step fields [].

(** lines 95-136: from the payload of clip/load to the info dict *)
Definition ViuIE_video (video_id : string) (response : json)
  : result (extraction string) :=
  item <- getitem response "item" ;;
  video_data <- getitem0 item ;;
  title <- getitem video_data "title" ;;
  m3u8_url <- ViuIE_m3u8_url video_data ;;
  formats <- extract_m3u8_formats m3u8_url (JStr video_id) "mp4" None None ;;
  formats <- sort_formats formats ;;
  fields <- items video_data ;;
  let subtitles := ViuIE_subtitles fields in
  description <- dict_get video_data "description" JNull ;;
  series <- dict_get video_data "moviealbumshowname" JNull ;;
  episodeno <- dict_get video_data "episodeno" JNull ;;
  duration <- dict_get video_data "duration" JNull ;;
  Ok (Video {| id := JStr video_id;
               title := title;
               description := description;
               series := series;
               episode := title;
               episode_number := int_or_none episodeno;
               duration := int_or_none duration;
               thumbnail := None;
               formats := formats;
               subtitles := subtitles;
               extra := [] |}).

(** [video_id] is [self._match_id(url)] *)
Definition ViuIE_real_extract (auth_token : json) (video_id : string)
  : result (extraction string) :=
  response <- call_api "Viu" auth_token "clip/load"
    [("appid", JStr "viu_desktop"); ("fmt", JStr "json"); ("id", JStr video_id)] [] ;;
  ViuIE_video video_id response.

(** ** ViuPlaylistIE *)

(** lines 163-169: the body of the loop over the items *)
Definition ViuPlaylistIE_entry_step (entries : list url_result) (item : json)
  : result (list url_result) :=
  item_id <- dict_get item "id" JNull ;;
  if negb (truthy item_id) then Ok entries
  else
    let item_id := py_str item_id in
    Ok (entries ++ [ {| ref_url := plain_url ("viu:" ++ item_id);
                        ref_ie := "Viu";
                        ref_video_id := JStr item_id;
                        ref_video_title := JNull |} ])%list.

(** lines 160-172: from the payload of container/load to the playlist *)
Definition ViuPlaylistIE_playlist (playlist_id : string) (response : json)
  : result (extraction string) :=
  playlist_data <- getitem response "container" ;;
  item <- dict_get playlist_data "item" (JArr []) ;;
  its <- iterate item ;;
  entries <- for_each ViuPlaylistIE_entry_step its [] ;;
  ptitle <- dict_get playlist_data "title" JNull ;;
  Ok (Playlist (playlist_result entries (JStr playlist_id) ptitle JNull)).

(** [playlist_id] is [self._match_id(url)] *)
Definition ViuPlaylistIE_real_extract (auth_token : json) (playlist_id : string)
  : result (extraction string) :=
  response <- call_api "viu:playlist" auth_token "container/load"
    [("appid", JStr "viu_desktop"); ("fmt", JStr "json");
     ("id", JStr ("playlist-" ++ playlist_id))] [] ;;
  ViuPlaylistIE_playlist playlist_id response.

End Extractors.

(** ** ViuOTTIE *)

Definition ViuOTTIE_AREA_ID : list (string * json) :=
  [("HK", JNum 1); ("SG", JNum 2); ("TH", JNum 4); ("PH", JNum 5)].

(** [re.match(ViuOTTIE._VALID_URL, url).groups()], for the pattern
    [https?://(?:www\.)?viu\.com/ott/(?P<country_code>[a-z]{2})/(?P<lang_code>[a-z]{2}-[a-z]{2})/vod/(?P<id>\d+)];
    [None] when the URL does not match *)
Definition ViuOTTIE_match_url (u : string) : option (string * string * string) :=
  match Str.drop_prefix "http" u with
  | None => None
  | Some r =>
  match Str.drop_prefix "://" (Str.drop_optional "s" r) with
  | None => None
  | Some r =>
  match Str.drop_prefix "viu.com/ott/" (Str.drop_optional "www." r) with
  | None => None
  | Some r =>
  match Str.take_class Str.is_lower 2 r with
  | None => None
  | Some (country_code, r) =>
  match Str.drop_prefix "/" r with
  | None => None
  | Some r =>
  match Str.take_class Str.is_lower 2 r with
  | None => None
  | Some (lang1, r) =>
  match Str.drop_prefix "-" r with
  | None => None
  | Some r =>
  match Str.take_class Str.is_lower 2 r with
  | None => None
  | Some (lang2, r) =>
  match Str.drop_prefix "/vod/" r with
  | None => None
  | Some r =>
  match Str.span1 Str.is_digit r with
  | None => None
  | Some (video_id, _) => Some (country_code, lang1 ++ "-" ++ lang2, video_id)
  end end end end end end end end end end.

(** [re.search(r'https?://[^/]+', url)]: the match, tried at the start
    of [u] and then at each later position *)
Definition origin_at (u : string) : option string :=
  match Str.drop_prefix "http" u with
  | None => None
  | Some r =>
      let scheme := match Str.drop_prefix "s" r with Some _ => "https" | None => "http" end in
      match Str.drop_prefix "://" (Str.drop_optional "s" r) with
      | None => None
      | Some r =>
          match Str.span1 (Str.not_char "/"%char) r with
          | None => None
          | Some (host, _) => Some (scheme ++ "://" ++ host)
          end
      end
  end.

Fixpoint search_origin (u : string) : option string :=
  match origin_at u with
  | Some m => Some m
  | None =>
      match u with
      | EmptyString => None
      | String _ rest => search_origin rest
      end
  end.

(** [re.search(r's(\d+)p', s)]: group 1 of the leftmost match *)
Definition height_at (s : string) : option string :=
  match Str.drop_prefix "s" s with
  | None => None
  | Some r =>
      match Str.span1 Str.is_digit r with
      | None => None
      | Some (digits, r) =>
          match Str.drop_prefix "p" r with
          | Some _ => Some digits
          | None => None
          end
      end
  end.

Fixpoint search_height (s : string) : option string :=
  match height_at s with
  | Some d => Some d
  | None =>
      match s with
      | EmptyString => None
      | String _ rest => search_height rest
      end
  end.

Section OTT.
Context `{Host}.

(** [self._downloader.params.get('noplaylist')] *)
Definition noplaylist : json :=
  match assoc "noplaylist" downloader_params with
  | Some v => v
  | None => JNull
  end.

(** lines 229-237: the query, with area_id when the table has the country *)
Definition ViuOTTIE_query (country_code video_id : string) : list (string * json) :=
  let query := [("r", JStr "vod/ajax-detail");
                ("platform_flag_label", JStr "web");
                ("product_id", JStr video_id)] in
  let area_id :=
    match assoc (Str.upper country_code) ViuOTTIE_AREA_ID with
    | Some a => a
    | None => JNull
    end in
  if truthy area_id then dict_set "area_id" area_id query else query.

(** lines 239-241: the request for the detail of the product *)
Definition ViuOTTIE_detail_request (country_code video_id : string) : request :=
  {| req_url := "http://www.viu.com/ott/" ++ country_code ++ "/index.php";
     req_query := ViuOTTIE_query country_code video_id;
     req_headers := [];
     req_data := None |}.

(** the key of [sorted] at line 253 *)
Definition ViuOTTIE_sort_key (x : json) : result (option Z) :=
  number <- dict_get x "number" (JNum 0) ;;
  Ok (int_or_none number).

(** the reference to one sibling, lines 258-264 *)
Definition ViuOTTIE_sibling_ref (country_code lang_code item_id : string)
    (video_title : json) : url_result :=
  {| ref_url := smuggle_url
       ("http://www.viu.com/ott/" ++ country_code ++ "/" ++ lang_code
          ++ "/vod/" ++ item_id ++ "/")
       (JObj [("force_noplaylist", JBool true)]);
     ref_ie := "ViuOTT";
     ref_video_id := JStr item_id;
     ref_video_title := video_title |}.

(** lines 254-264: the body of the loop over the sorted siblings *)
Definition ViuOTTIE_entry_step (country_code lang_code : string)
    (entries : list url_result) (entry : json) : result (list url_result) :=
  item_id <- dict_get entry "product_id" JNull ;;
  if negb (truthy item_id) then Ok entries
  else
    let item_id := py_str item_id in
    synopsis <- dict_get entry "synopsis" (JStr "") ;;
    video_title <- py_strip synopsis ;;
    Ok (entries ++ [ViuOTTIE_sibling_ref country_code lang_code item_id video_title])%list.

(** lines 289-298: one format per quality label *)
Definition ViuOTTIE_format_step (stream_sizes : json) (formats : list json)
    (kv : string * json) : result (list json) :=
  let (vid_format, stream_url) := kv in
  let height :=
    match search_height vid_format with
    | Some d => int_or_none (JStr d)
    | None => int_or_none JNull
    end in
  size <- dict_get stream_sizes vid_format JNull ;;
  Ok (formats ++ [JObj [("format_id", JStr vid_format);
                        ("url", stream_url);
                        ("height", of_opt_int height);
                        ("ext", JStr "mp4");
                        ("filesize", of_opt_int (int_or_none size))]])%list.

(** lines 302-309: one track per subtitle entry that has a url *)
Definition ViuOTTIE_subtitle_step (subtitles : subtitle_map json) (sub : json)
  : result (subtitle_map json) :=
  sub_url <- dict_get sub "url" JNull ;;
  if negb (truthy sub_url) then Ok subtitles
  else
    name <- dict_get sub "name" JNull ;;
    if hashable name then
      Ok (setdefault_append key_eqb name {| sub_url := sub_url; sub_ext := "srt" |}
            subtitles)
    else Raise TypeError.

(** lines 273-276: the message of [to_screen] is built, then printed *)
Definition ViuOTTIE_announce (video_data : json) : result unit :=
  if truthy noplaylist then
    _ <- dict_get video_data "series_id" JNull ;; Ok tt
  else Ok tt.

(** lines 273-324: the single video *)
Definition ViuOTTIE_single (url_s country_code video_id : string)
    (product_data video_data : json) : result (extraction json) :=
  _ <- ViuOTTIE_announce video_data ;;
  ccs_product_id <- getitem video_data "ccs_product_id" ;;
  match search_origin url_s with
  | None => Raise AttributeError
  | Some origin =>
      reply <- download_json
        {| req_url := "https://d1k2us671qcoau.cloudfront.net/distribute_web_"
                        ++ country_code ++ ".php";
           req_query := [("ccs_product_id", ccs_product_id)];
           req_headers := [("Referer", JStr url_s); ("Origin", JStr origin)];
           req_data := None |} ;;
      data <- getitem reply "data" ;;
      stream_data <- getitem data "stream" ;;
      stream_sizes <- dict_get stream_data "size" (JObj []) ;;
      urls <- dict_get stream_data "url" (JObj []) ;;
      url_items <- items urls ;;
      formats <- for_each (ViuOTTIE_format_step stream_sizes) url_items [] ;;
      formats <- sort_formats (JArr formats) ;;
      subs <- dict_get video_data "subtitle" (JArr []) ;;
      sub_list <- iterate subs ;;
      subtitles <- for_each ViuOTTIE_subtitle_step sub_list [] ;;
      synopsis <- getitem video_data "synopsis" ;;
      title <- py_strip synopsis ;;
      description <- dict_get video_data "description" JNull ;;
      series <- dict_get product_data "series" (JObj []) ;;
      series_name <- dict_get series "name" JNull ;;
      number <- dict_get video_data "number" JNull ;;
      duration <- dict_get stream_data "duration" JNull ;;
      cover <- dict_get video_data "cover_image_url" JNull ;;
      Ok (Video {| id := JStr video_id;
                   title := title;
                   description := description;
                   series := series_name;
                   episode := title;
                   episode_number := int_or_none number;
                   duration := int_or_none duration;
                   thumbnail := Some cover;
                   formats := formats;
                   subtitles := subtitles;
                   extra := [] |})
  end.

(** lines 249-270: the whole series as a playlist; [None] when the
    series has no sibling and the code falls through *)
Definition ViuOTTIE_series (country_code lang_code : string)
    (product_data video_data : json) : result (option playlist) :=
  series <- dict_get product_data "series" (JObj []) ;;
  product <- dict_get series "product" JNull ;;
  if truthy product then
    siblings <- iterate product ;;
    ordered <- sorted_by ViuOTTIE_sort_key siblings ;;
    entries <- for_each (ViuOTTIE_entry_step country_code lang_code) ordered [] ;;
    series_id <- dict_get video_data "series_id" JNull ;;
    name <- dict_get series "name" JNull ;;
    description <- dict_get series "description" JNull ;;
    Ok (Some (playlist_result entries series_id name description))
  else Ok None.

(** line 248: [noplaylist or idata.get('force_noplaylist')], as a truth value *)
Definition ViuOTTIE_suppressed (idata : json) : result bool :=
  if truthy noplaylist then Ok true
  else flag <- dict_get idata "force_noplaylist" JNull ;; Ok (truthy flag).

Definition ViuOTTIE_real_extract (u : url) : result (extraction json) :=
  let (url_s, idata) := unsmuggle_url u (JObj []) in
  match ViuOTTIE_match_url url_s with
  | None => Raise AttributeError
  | Some (country_code, lang_code, video_id) =>
      reply <- download_json (ViuOTTIE_detail_request country_code video_id) ;;
      product_data <- getitem reply "data" ;;
      video_data <- dict_get product_data "current_product" JNull ;;
      if negb (truthy video_data) then
        Raise (ExtractorError "This video is not available in your region." true JNull)
      else
        suppressed <- ViuOTTIE_suppressed idata ;;
        if negb suppressed then
          expanded <- ViuOTTIE_series country_code lang_code product_data video_data ;;
          match expanded with
          | Some p => Ok (Playlist p)
          | None => ViuOTTIE_single url_s country_code video_id product_data video_data
          end
        else ViuOTTIE_single url_s country_code video_id product_data video_data
  end.

End OTT.

(** ** ViuTVIE *)

Definition ViuTVIE_SUBTITLE_LANG : list (string * string) :=
  [("chinese", "TRD"); ("english", "GBR"); ("german", "DEU"); ("spanish", "ESP");
   ("french", "FRA"); ("italian", "ITA"); ("japanese", "JAP")].

(** [re.match(ViuTVIE._VALID_URL, url).groups()], for the pattern
    [https?://(?:www\.)?viu\.tv/encore/(?P<program_slug>[^/]+)(?:/(?P<episode_slug>[^/?]+))?] *)
Definition ViuTVIE_match_url (u : string) : option (string * option string) :=
  match Str.drop_prefix "http" u with
  | None => None
  | Some r =>
  match Str.drop_prefix "://" (Str.drop_optional "s" r) with
  | None => None
  | Some r =>
  match Str.drop_prefix "viu.tv/encore/" (Str.drop_optional "www." r) with
  | None => None
  | Some r =>
  match Str.span1 (Str.not_char "/"%char) r with
  | None => None
  | Some (program_slug, r) =>
      match Str.drop_prefix "/" r with
      | None => Some (program_slug, None)
      | Some r =>
          match Str.span1 (fun c => Str.not_char "/"%char c && Str.not_char "?"%char c)%bool r with
          | None => Some (program_slug, None)
          | Some (episode_slug, _) => Some (program_slug, Some episode_slug)
          end
      end
  end end end end.

(** [try: ... except TypeError: handler] *)
Definition except_TypeError {A : Type} (body : result A) (handler : result A)
  : result A :=
  match body with
  | Raise TypeError => handler
  | other => other
  end.

Section TV.
Context `{Host}.

(** [video_meta.get('title') or entry.get('episodeNameU3') or entry.get('ga_title')] *)
Definition ViuTVIE_title (video_meta entry : json) : result json :=
  t <- dict_get video_meta "title" JNull ;;
  if truthy t then Ok t
  else
    e <- dict_get entry "episodeNameU3" JNull ;;
    if truthy e then Ok e else dict_get entry "ga_title" JNull.

(** the key of [sorted] at line 370 *)
Definition ViuTVIE_sort_key (x : json) : result (option Z) :=
  number <- dict_get x "episodeNum" (JNum 0) ;;
  Ok (int_or_none number).

(** lines 371-383: the body of the loop over the sorted episodes *)
Definition ViuTVIE_entry_step (program_slug : string)
    (entries : list url_result) (entry : json) : result (list url_result) :=
  item_slug <- dict_get entry "slug" JNull ;;
  item_id <- dict_get entry "productId" JNull ;;
  if negb (truthy item_id) then Ok entries
  else
    let item_slug := py_str item_slug in
    video_meta <- dict_get entry "videoMeta" (JObj []) ;;
    title <- ViuTVIE_title video_meta entry ;;
    Ok (entries ++ [ {| ref_url := plain_url
                          ("http://viu.tv/encore/" ++ program_slug ++ "/" ++ item_slug);
                        ref_ie := "ViuTV";
                        ref_video_id := item_id;
                        ref_video_title := title |} ])%list.

(** line 392: [next((x for x in episodes if x.get('slug') == episode_slug), {})] *)
Fixpoint ViuTVIE_find_episode (episode_slug : string) (episodes : list json)
  : result json :=
  match episodes with
  | [] => Ok (JObj [])
  | x :: rest =>
      slug <- dict_get x "slug" JNull ;;
      if str_is slug episode_slug then Ok x
      else ViuTVIE_find_episode episode_slug rest
  end.

(** lines 423-431: the formats, by the extension of the manifest *)
Definition ViuTVIE_formats (manifest_url product_id : json) : result json :=
  ext <- determine_ext manifest_url ;;
  if str_is ext "m3u8" then
    extract_m3u8_formats manifest_url product_id "mp4" (Some "m3u8_native") (Some false)
  else if str_is ext "mpd" then
    extract_mpd_formats manifest_url product_id (Some false)
  else Ok (JArr []).

(** lines 437-444: the body of the loop over the subtitle languages *)
Definition ViuTVIE_subtitle_step (product_id : json) (subtitles : subtitle_map string)
    (lang : string) : subtitle_map string :=
  match assoc (Str.lower lang) ViuTVIE_SUBTITLE_LANG with
  | None => subtitles
  | Some key =>
      if (key =? "")%string then subtitles
      else
        setdefault_append String.eqb lang
          {| sub_url := JStr ("https://static.viu.tv/subtitle/" ++ py_str product_id
                                ++ "/" ++ py_str product_id ++ "-" ++ key ++ ".srt");
             sub_ext := "srt" |}
          subtitles
  end.

Definition ViuTVIE_subtitles (ep_data product_id : json)
  : result (subtitle_map string) :=
  product_subtitle <- dict_get ep_data "productSubtitle" (JStr "") ;;
  match product_subtitle with
  | JStr s =>
      Ok (fold_left (ViuTVIE_subtitle_step product_id) (Str.split_on ","%char s) [])
  | _ => Raise AttributeError
  end.

(** line 455: [[x.get('name') for x in tags if x.get('name')]] *)
Definition ViuTVIE_tag_step (names : list json) (x : json) : result (list json) :=
  name <- dict_get x "name" JNull ;;
  if truthy name then
    name <- dict_get x "name" JNull ;;
    Ok (names ++ [name])%list
  else Ok names.

(** lines 453-459: the tags, under [try ... except TypeError] *)
Definition ViuTVIE_tags (tags : json) : result json :=
  except_TypeError
    match tags with
    | JArr l => names <- for_each ViuTVIE_tag_step l [] ;; Ok (JArr names)
    | _ => Ok JNull
    end
    (Ok JNull).

(** lines 367-389: the programme as a playlist *)
Definition ViuTVIE_programme (program_slug : string) (product_data episodes program_title : json)
  : result (extraction string) :=
  eps <- iterate episodes ;;
  ordered <- sorted_by ViuTVIE_sort_key eps ;;
  entries <- for_each (ViuTVIE_entry_step program_slug) ordered [] ;;
  programme_id <- dict_get product_data "programmeId" JNull ;;
  synopsis <- dict_get product_data "synopsis" JNull ;;
  Ok (Playlist (playlist_result entries programme_id program_title synopsis)).

(** lines 416-477: past the request for the stream, [get_vod_data] being its reply *)
Definition ViuTVIE_stream (product_data ep_data product_id program_title get_vod_data : json)
  : result (extraction string) :=
  asset <- dict_get get_vod_data "asset" (JArr []) ;;
  assets <- iterate asset ;;
  let manifest_url := match assets with a :: _ => a | [] => JNull end in
  drm <- dict_get get_vod_data "drmToken" JNull ;;
  if negb (truthy manifest_url) then
    Raise (extractor_error "Cannot get stream info" true product_id)
  else
    formats <- ViuTVIE_formats manifest_url product_id ;;
    if (negb (truthy formats) && truthy drm)%bool then
      Raise (ExtractorError "This video is DRM protected." true JNull)
    else
      subtitles <- ViuTVIE_subtitles ep_data product_id ;;
      video_meta <- dict_get ep_data "videoMeta" (JObj []) ;;
      title <- ViuTVIE_title video_meta ep_data ;;
      tags <- dict_get video_meta "tags" JNull ;;
      tags <- ViuTVIE_tags tags ;;
      formats <- sort_formats formats ;;
      synopsis <- dict_get video_meta "program_synopsis" JNull ;;
      episode_num <- dict_get ep_data "episodeNum" JNull ;;
      total <- dict_get ep_data "totalDurationSec" JNull ;;
      avatar <- dict_get ep_data "avatar" JNull ;;
      programme_slug <- dict_get product_data "slug" JNull ;;
      slug <- dict_get ep_data "slug" JNull ;;
      Ok (Video {| id := product_id;
                   title := title;
                   description := synopsis;
                   series := program_title;
                   episode := title;
                   episode_number := int_or_none episode_num;
                   duration := int_or_none total;
                   thumbnail := Some avatar;
                   formats := formats;
                   subtitles := subtitles;
                   extra := [("programme_slug", programme_slug);
                             ("slug", slug);
                             ("tags", tags)] |}).

(** lines 392-414: the episode named by [episode_slug] *)
Definition ViuTVIE_episode (program_slug episode_slug : string)
    (product_data episodes program_title : json) : result (extraction string) :=
  eps <- iterate episodes ;;
  ep_data <- ViuTVIE_find_episode episode_slug eps ;;
  product_id <- dict_get ep_data "productId" JNull ;;
  if negb (truthy product_id) then
    Raise (ExtractorError ("Video " ++ program_slug ++ " does not exist") true JNull)
  else
    let payload :=
      JObj [("PIN", JStr "password");
            ("callerReferenceNo", JStr caller_reference_no);
            ("contentId", product_id);
            ("contentType", JStr "Vod");
            ("cookie", JStr random_cookie);
            ("deviceId", JStr random_cookie);
            ("deviceType", JStr "ANDROID_PHONE");
            ("format", JStr "HLS");
            ("mode", JStr "prod");
            ("productId", product_id)] in
    get_vod_data <- download_json
      {| req_url := "https://api.viu.now.com/p8/3/getVodURL";
         req_query := [];
         req_headers := [];
         req_data := Some payload |} ;;
    ViuTVIE_stream product_data ep_data product_id program_title get_vod_data.

Definition ViuTVIE_real_extract (u : string) : result (extraction string) :=
  match ViuTVIE_match_url u with
  | None => Raise AttributeError
  | Some (program_slug, episode_slug) =>
      reply <- download_json
        {| req_url := "https://api.viu.tv/production/programmes/" ++ program_slug;
           req_query := [];
           req_headers := [];
           req_data := None |} ;;
      product_data <- getitem reply "programme" ;;
      episodes <- getitem product_data "episodes" ;;
      meta <- dict_get product_data "programmeMeta" (JObj []) ;;
      series_title <- dict_get meta "seriesTitle" JNull ;;
      ptitle <- dict_get product_data "title" JNull ;;
      let program_title := py_or series_title ptitle in
      match episode_slug with
      | None => ViuTVIE_programme program_slug product_data episodes program_title
      | Some episode_slug =>
          ViuTVIE_episode program_slug episode_slug product_data episodes program_title
      end
  end.

End TV.

(** ** The words of the specification *)



(** every character of [s] is in the class [cls] *)
Fixpoint all_chars (cls : ascii -> bool) (s : string) : bool :=
  match s with
  | EmptyString => true
  | String c rest => (cls c && all_chars cls rest)%bool
  end.

(** [s] is empty or starts outside the class [cls] *)
Definition stops (cls : ascii -> bool) (s : string) : Prop :=
  match s with
  | EmptyString => True
  | String c _ => cls c = false
  end.

(** a language of a subtitle key: a text that is not empty and holds
    no underscore *)
Definition is_lang (lang : string) : bool :=
  (negb (lang =? "")%string && all_chars (Str.not_char "_"%char) lang)%bool.

(** the key begins with subtitle_<lang>_<ext>; anything may follow *)
Definition begins_subtitle (lang ext key : string) : bool :=
  (is_lang lang && String.prefix ("subtitle_" ++ lang ++ "_" ++ ext) key)%bool.

(** "keys matching the pattern subtitle_<lang>_<ext> where <ext> is vtt
    or srt", the match being one of the beginning of the key: the
    tracks of the language [lang], in the order of the fields *)
Definition spec_tracks (lang : string) (fields : list (string * json))
  : list subtitle_track :=
  flat_map
    (fun kv =>
       if begins_subtitle lang "vtt" (fst kv)
       then [ {| sub_url := snd kv; sub_ext := "vtt" |} ]
       else if begins_subtitle lang "srt" (fst kv)
       then [ {| sub_url := snd kv; sub_ext := "srt" |} ]
       else [])
    fields.

(** ** A host to run the extractors on *)

Module Demo.

(** the value of a text of digits, after the digits of value [acc] *)
Fixpoint digits_value (s : string) (acc : Z) : option Z :=
  match s with
  | EmptyString => Some acc
  | String c rest =>
      if Str.is_digit c
      then digits_value rest (10 * acc + Z.of_nat (nat_of_ascii c - 48))
      else None
  end.

(** [int(s)] for a text of the digits 0 to 9 with an optional sign;
    [None] stands for the ValueError of any other text (blanks and
    underscores, which [int] takes as well, are not read) *)
Definition int_of_text (s : string) : option Z :=
  match s with
  | EmptyString => None
  | String "-"%char (String c rest) =>
      match digits_value (String c rest) 0 with
      | Some n => Some (- n)
      | None => None
      end
  | String "+"%char (String c rest) => digits_value (String c rest) 0
  | _ => digits_value s 0
  end.

(** [int_or_none(v)]: [int(v)], and [None] where it raises *)
Definition demo_int_or_none (v : json) : option Z :=
  match v with
  | JNum z => Some z
  | JBool true => Some 1
  | JBool false => Some 0
  | JStr s => int_of_text s
  | _ => None
  end.

(** white space of ASCII, for [str.strip] *)
Definition is_space (c : ascii) : bool :=
  (Str.in_range 9 13 c || Str.in_range 28 32 c)%bool.

Fixpoint lstrip (s : string) : string :=
  match s with
  | EmptyString => EmptyString
  | String c rest => if is_space c then lstrip rest else s
  end.

Fixpoint rstrip (s : string) : string :=
  match s with
  | EmptyString => EmptyString
  | String c rest =>
      match rstrip rest with
      | EmptyString => if is_space c then EmptyString else String c EmptyString
      | kept => String c kept
      end
  end.

(** [s.strip()], on ASCII white space *)
Definition demo_strip (s : string) : string := rstrip (lstrip s).

(** [_sort_formats] of InfoExtractor refuses a list without formats;
    the order of the others is left as it is here *)
Definition demo_sort_formats (formats : json) : result json :=
  if truthy formats then Ok formats
  else Raise (ExtractorError "No video formats found" false JNull).

(** a host that answers every request by [reply] and extracts [found]
    from every manifest *)
Definition host (params : list (string * json)) (reply : request -> result json)
    (found : json) : Host :=
  {| py_repr := fun _ => "<repr>";
     str_strip := demo_strip;
     int_or_none := demo_int_or_none;
     determine_ext := fun _ => Ok (JStr "m3u8");
     downloader_params := params;
     geo_verification_headers := [];
     request_webpage_header := fun _ _ => Ok (JStr "token");
     download_json := reply;
     extract_m3u8_formats := fun _ _ _ _ _ => Ok found;
     extract_mpd_formats := fun _ _ _ => Ok found;
     sort_formats := demo_sort_formats;
     random_cookie := "0123456789abcdef01";
     caller_reference_no := "20200228102476" |}.

Definition always (doc : json) : request -> result json := fun _ => Ok doc.

(** two documents, told apart by the URL of the request *)
Definition by_url (u : string) (doc other : json) : request -> result json :=
  fun r => if (req_url r =? u)%string then Ok doc else Ok other.

End Demo.

(** ** Documents the statements below are run on *)

(** the payload of the failure below: a status, no message *)
Definition failed_without_message : json :=
  JObj [("response", JObj [("status", JStr "error")])].

(** an item whose tdirforwhole is present and empty *)
Definition item_with_empty_dir : list (string * json) :=
  [("title", JStr "Episode 1");
   ("urlpathd", JStr "http://cdn.example/p");
   ("tdirforwhole", JStr "");
   ("jwhlsfile", JStr "main.m3u8");
   ("href", JStr "http://cdn.example/raw.m3u8")].

(** an item with the three fields of the manifest *)
Definition item_with_manifest : list (string * json) :=
  [("title", JStr "Episode 1");
   ("urlpath", JStr "http://cdn.example/p");
   ("tdirforwhole", JStr "whole");
   ("jwhlsfile", JStr "main.m3u8");
   ("href", JStr "http://cdn.example/raw.m3u8")].

(** the field [k] of an object, [None] when it is missing or [v] is
    not an object: [v.get(k)] *)
Definition field (k : string) (v : json) : json :=
  match v with
  | JObj kv => match assoc k kv with Some x => x | None => JNull end
  | _ => JNull
  end.

Definition is_object (v : json) : bool :=
  match v with JObj _ => true | _ => false end.

(** the reference ViuPlaylistIE makes for the item of id [item_id] *)
Definition ViuPlaylistIE_ref `{Host} (item_id : json) : url_result :=
  {| ref_url := plain_url ("viu:" ++ py_str item_id);
     ref_ie := "Viu";
     ref_video_id := JStr (py_str item_id);
     ref_video_title := JNull |}.

(** a playlist of two items that both have an id, one of them 0 *)
Definition playlist_with_id_zero : json :=
  JObj [("response",
         JObj [("status", JStr "success");
               ("container",
                JObj [("title", JStr "The Good Wife");
                      ("item", JArr [JObj [("id", JNum 7)];
                                     JObj [("id", JNum 0)]])])])].

(** five items, two of them without id *)
Definition five_items : list json :=
  [JObj [("id", JStr "11")];
   JObj [("title", JStr "no id")];
   JObj [("id", JNum 13)];
   JObj [("id", JNull)];
   JObj [("id", JStr "15")]].

Definition container_of_five : list (string * json) :=
  [("title", JStr "The Good Wife"); ("item", JArr five_items)].

Definition playlist_of_five : json := JObj [("container", JObj container_of_five)].

(** [x.get('number', 0)] *)
Definition number_or_0 (x : json) : json :=
  match x with
  | JObj kv => match assoc "number" kv with Some v => v | None => JNum 0 end
  | _ => JNum 0
  end.

(** the number a sibling is sorted by, when it has one *)
Definition ViuOTTIE_number `{Host} (x : json) : Z :=
  match int_or_none (number_or_0 x) with
  | Some z => z
  | None => 0
  end.

(** the siblings in the order of their numbers, siblings of the same
    number in the order of the reply *)
Definition ViuOTTIE_ordered `{Host} (siblings : list json) : list json :=
  map snd (stable_sort (map (fun x => (ViuOTTIE_number x, x)) siblings)).

(** [x.get('synopsis', '')], when it is a string *)
Definition synopsis_text (x : json) : option string :=
  match x with
  | JObj kv =>
      match assoc "synopsis" kv with
      | Some (JStr s) => Some s
      | Some _ => None
      | None => Some ""
      end
  | _ => None
  end.

(** the reference ViuOTTIE makes for the sibling [x] *)
Definition ViuOTTIE_ref_of `{Host} (country_code lang_code : string) (x : json)
  : url_result :=
  ViuOTTIE_sibling_ref country_code lang_code (py_str (field "product_id" x))
    (JStr (str_strip (match synopsis_text x with Some s => s | None => "" end))).

(** a sibling the loop of ViuOTTIE goes through without raising: an
    object whose number is an integer for [int_or_none] (or missing)
    and, when it has a product id, whose synopsis is a string (or missing) *)
Definition sibling_ok `{Host} (x : json) : Prop :=
  is_object x = true
  /\ (exists z, int_or_none (number_or_0 x) = Some z)
  /\ (truthy (field "product_id" x) = true -> synopsis_text x <> None).

(** the data smuggled in the URL of every sibling *)
Definition suppress_data : json := JObj [("force_noplaylist", JBool true)].

(** the reply of index.php for a product in a series of [siblings] *)
Definition series_current : list (string * json) :=
  [("series_id", JStr "3916");
   ("ccs_product_id", JStr "c68776");
   ("synopsis", JStr "One")].

Definition series_of (siblings : list json) : list (string * json) :=
  [("name", JStr "Mom"); ("product", JArr siblings)].

Definition series_data (siblings : list json) : list (string * json) :=
  [("current_product", JObj series_current); ("series", JObj (series_of siblings))].

Definition series_reply (siblings : list json) : json :=
  JObj [("data", JObj (series_data siblings))].

(** two siblings, given out of order *)
Definition siblings_two : list json :=
  [JObj [("product_id", JStr "68777"); ("number", JNum 2); ("synopsis", JStr "Two")];
   JObj [("product_id", JNum 68776); ("synopsis", JStr "One")]].

(** two siblings, the second without product id *)
Definition siblings_one_without_id : list json :=
  [JObj [("product_id", JStr "68776"); ("number", JNum 1); ("synopsis", JStr "One")];
   JObj [("number", JNum 2); ("synopsis", JStr "Two")]].

(** the host of a product in a series of [siblings] *)
Definition series_host (siblings : list json) : Host :=
  Demo.host [] (Demo.always (series_reply siblings)) (JArr []).

Definition series_url : url :=
  plain_url "https://www.viu.com/ott/hk/zh-hk/vod/68776/%E6%99%82".

(** the order of the keys of [sorted] *)
Definition key_le {A : Type} (p q : Z * A) : Prop := fst p <= fst q.

(** an episode record the single-episode branch of ViuTVIE reads
    without raising: productSubtitle a string (or missing), videoMeta
    an object (or missing), its tags anything but a list that holds
    something else than objects *)
Definition tags_ok (tags : json) : Prop :=
  match tags with
  | JArr l => Forall (fun x => is_object x = true) l
  | _ => True
  end.

Definition episode_ok (ep_data : json) : Prop :=
  exists ep,
    ep_data = JObj ep
    /\ (assoc "productSubtitle" ep = None
        \/ exists s, assoc "productSubtitle" ep = Some (JStr s))
    /\ (assoc "videoMeta" ep = None
        \/ exists meta, assoc "videoMeta" ep = Some (JObj meta)
                        /\ tags_ok (field "tags" (JObj meta))).

(** the programme of one episode *)
Definition programme_reply (episode : json) : json :=
  JObj [("programme",
         JObj [("programmeId", JStr "201912050000001");
               ("title", JStr "Leap Day");
               ("slug", JStr "leap-day");
               ("episodes", JArr [episode])])].

Definition episode_with (more : list (string * json)) : json :=
  JObj ([("slug", JStr "leap-daye2si-hung-long-yan");
         ("productId", JStr "202002281024764");
         ("episodeNum", JNum 2)] ++ more).

(** replies of getVodURL: a manifest, with and without DRM token *)
Definition vod_plain : json :=
  JObj [("asset", JArr [JStr "https://cdn.viu.tv/a/index.m3u8"])].

Definition vod_drm : json :=
  JObj [("asset", JArr [JStr "https://cdn.viu.tv/a/index.m3u8"]);
        ("drmToken", JStr "AQAAAAEDK")].

Definition tv_host (episode vod found : json) : Host :=
  Demo.host []
    (Demo.by_url "https://api.viu.now.com/p8/3/getVodURL" vod (programme_reply episode))
    found.

Definition tv_url : string :=
  "https://viu.tv/encore/leap-day/leap-daye2si-hung-long-yan".

(** a format, as the host finds them in a manifest *)
Definition some_format : json :=
  JObj [("format_id", JStr "hls-720"); ("url", JStr "https://cdn.viu.tv/a/720.m3u8")].

(** ** More of the URL patterns *)

(** what is left of [s] before the literal [suf], when [s] ends with it *)
Fixpoint drop_suffix (suf s : string) : option string :=
  if (s =? suf)%string then Some EmptyString
  else match s with
       | EmptyString => None
       | String c rest =>
           match drop_suffix suf rest with
           | Some before => Some (String c before)
           | None => None
           end
       end.

(** [\d+], the digits only *)
Definition leading_digits (s : string) : option string :=
  match Str.span1 Str.is_digit s with
  | Some (digits, _) => Some digits
  | None => None
  end.

(** [re.match(ViuIE._VALID_URL, url).group('id')], what [_match_id]
    reads, for the pattern
    [(?:viu:|https?://[^/]+\.viu\.com/[a-z]{2}/media/)(?P<id>\d+)]:
    the host runs to the first slash and ends with .viu.com *)
Definition ViuIE_match_id (u : string) : option string :=
  match Str.drop_prefix "viu:" u with
  | Some r => leading_digits r
  | None =>
  match Str.drop_prefix "http" u with
  | None => None
  | Some r =>
  match Str.drop_prefix "://" (Str.drop_optional "s" r) with
  | None => None
  | Some r =>
  let (host, r) := Str.span (Str.not_char "/"%char) r in
  match drop_suffix ".viu.com" host with
  | None => None
  | Some EmptyString => None
  | Some _ =>
  match Str.drop_prefix "/" r with
  | None => None
  | Some r =>
  match Str.take_class Str.is_lower 2 r with
  | None => None
  | Some (_, r) =>
  match Str.drop_prefix "/media/" r with
  | None => None
  | Some r => leading_digits r
  end end end end end end end.

(** the tracks the loop of ViuIE adds under the language [lang] *)
Definition ViuIE_tracks (lang : string) (fields : list (string * json))
  : list subtitle_track :=
  flat_map
    (fun kv =>
       match match_subtitle_key (fst kv) with
       | Some (l, ext) =>
           if (l =? lang)%string then [ {| sub_url := snd kv; sub_ext := ext |} ]
           else []
       | None => []
       end)
    fields.

(** a text of ASCII characters *)
Definition ascii_text (s : string) : Prop := all_chars Str.is_ascii s = true.

(** a track of ViuIE: its extension is one of the two of the pattern *)
Definition vtt_or_srt (t : subtitle_track) : Prop :=
  sub_ext t = "vtt" \/ sub_ext t = "srt".

(** the number of tracks of a subtitle dict *)
Definition track_count {K : Type} (m : subtitle_map K) : nat :=
  List.length (List.concat (map snd m)).

(** the fields ViuIE takes a track from *)
Definition is_subtitle_field (kv : string * json) : bool :=
  match match_subtitle_key (fst kv) with
  | Some _ => true
  | None => false
  end.

(** a payload of clip/load with one item *)
Definition clip_payload : json := JObj [("item", JArr [JObj item_with_manifest])].

(** what ViuPlaylistIE makes of an item: a reference to ViuIE by the
    scheme viu:, whose id is the text after the scheme, and which ViuIE
    accepts with that id when the text is digits *)
Definition viu_reference (e : url_result) : Prop :=
  ref_ie e = "Viu"
  /\ ref_video_title e = JNull
  /\ url_smuggled (ref_url e) = None
  /\ exists text,
       url_text (ref_url e) = "viu:" ++ text
       /\ ref_video_id e = JStr text
       /\ (text <> EmptyString -> all_chars Str.is_digit text = true ->
           ViuIE_match_id (url_text (ref_url e)) = Some text).

(** a host on which --no-playlist is given *)
Definition noplaylist_host (siblings : list json) : Host :=
  Demo.host [("noplaylist", JBool true)] (Demo.always (series_reply siblings)) (JArr []).

(** a reply of index.php without current product *)
Definition region_reply : json := JObj [("data", JObj [("series", JObj [])])].

(** a reply of index.php for a product that is in no series *)
Definition lonely_data : list (string * json) :=
  [("current_product", JObj series_current)].

Definition lonely_reply : json := JObj [("data", JObj lonely_data)].

(** the four origins a URL of ViuOTTIE can have *)
Definition viu_origin (o : string) : Prop :=
  o = "http://viu.com" \/ o = "https://viu.com"
  \/ o = "http://www.viu.com" \/ o = "https://www.viu.com".

(** the URL of the reference to a sibling, line 260 *)
Definition ViuOTTIE_sibling_url (country_code lang_code item_id : string) : string :=
  "http://www.viu.com/ott/" ++ country_code ++ "/" ++ lang_code
    ++ "/vod/" ++ item_id ++ "/".

(** the reply of the stream endpoint, with two qualities *)
Definition stream_urls : list (string * json) :=
  [("s240p", JStr "https://cdn.example/240.m3u8");
   ("s720p", JStr "https://cdn.example/720.m3u8")].

(** the pattern of ViuOTTIE from the country code on:
    [(?P<country_code>[a-z]{2})/(?P<lang_code>[a-z]{2}-[a-z]{2})/vod/(?P<id>\d+)] *)
Definition ViuOTTIE_match_path (r : string) : option (string * string * string) :=
  match Str.take_class Str.is_lower 2 r with
  | None => None
  | Some (country_code, r) =>
  match Str.drop_prefix "/" r with
  | None => None
  | Some r =>
  match Str.take_class Str.is_lower 2 r with
  | None => None
  | Some (lang1, r) =>
  match Str.drop_prefix "-" r with
  | None => None
  | Some r =>
  match Str.take_class Str.is_lower 2 r with
  | None => None
  | Some (lang2, r) =>
  match Str.drop_prefix "/vod/" r with
  | None => None
  | Some r =>
  match Str.span1 Str.is_digit r with
  | None => None
  | Some (video_id, _) => Some (country_code, lang1 ++ "-" ++ lang2, video_id)
  end end end end end end end.

(** the values of a field over a list of formats *)
Definition fields_of (k : string) (formats : list json) : list json :=
  map (field k) formats.

(** the height ViuOTTIE gives the quality label [label] *)
Definition ViuOTTIE_height `{Host} (label : string) : json :=
  of_opt_int (match search_height label with
              | Some d => int_or_none (JStr d)
              | None => int_or_none JNull
              end).

(** ** ViuTVIE, in the words of its code *)

Definition is_video {K : Type} (r : result (extraction K)) : bool :=
  match r with
  | Ok (Video _) => true
  | _ => false
  end.

(** [x.get('episodeNum', 0)] *)
Definition episode_num_or_0 (x : json) : json :=
  match x with
  | JObj kv => match assoc "episodeNum" kv with Some v => v | None => JNum 0 end
  | _ => JNum 0
  end.

Definition ViuTVIE_number `{Host} (x : json) : Z :=
  match int_or_none (episode_num_or_0 x) with
  | Some z => z
  | None => 0
  end.

Definition ViuTVIE_ordered `{Host} (episodes : list json) : list json :=
  map snd (stable_sort (map (fun x => (ViuTVIE_number x, x)) episodes)).

(** [entry.get('videoMeta', {})] *)
Definition video_meta_of (x : json) : json :=
  match x with
  | JObj kv => match assoc "videoMeta" kv with Some v => v | None => JObj [] end
  | _ => JObj []
  end.

(** the title of an episode: the first truthy of the title of its
    videoMeta and its episodeNameU3, else its ga_title *)
Definition ViuTVIE_title_of (x : json) : json :=
  py_or (field "title" (video_meta_of x))
    (py_or (field "episodeNameU3" x) (field "ga_title" x)).

(** the URL of the reference to an episode, line 382 *)
Definition ViuTVIE_episode_url (program_slug item_slug : string) : string :=
  "http://viu.tv/encore/" ++ program_slug ++ "/" ++ item_slug.

(** the reference ViuTVIE makes for the episode [x] *)
Definition ViuTVIE_ref_of `{Host} (program_slug : string) (x : json) : url_result :=
  {| ref_url := plain_url (ViuTVIE_episode_url program_slug (py_str (field "slug" x)));
     ref_ie := "ViuTV";
     ref_video_id := field "productId" x;
     ref_video_title := ViuTVIE_title_of x |}.

(** an episode the loop of the programme goes through without raising *)
Definition listed_episode_ok `{Host} (x : json) : Prop :=
  is_object x = true
  /\ (exists z, int_or_none (episode_num_or_0 x) = Some z)
  /\ (truthy (field "productId" x) = true -> is_object (video_meta_of x) = true).

(** the class [[^/?]] *)
Definition slug_char (c : ascii) : bool :=
  (Str.not_char "/"%char c && Str.not_char "?"%char c)%bool.

(** the request of the programme, lines 356-358 *)
Definition ViuTVIE_programme_request (program_slug : string) : request :=
  {| req_url := "https://api.viu.tv/production/programmes/" ++ program_slug;
     req_query := [];
     req_headers := [];
     req_data := None |}.

(** the tracks ViuTVIE makes for the language [lang] out of the names
    [langs]: one per occurrence of [lang], when the table knows it *)
Definition ViuTVIE_tracks `{Host} (product_id : json) (lang : string) (langs : list string)
  : list subtitle_track :=
  flat_map
    (fun l =>
       if (l =? lang)%string then
         match assoc (Str.lower l) ViuTVIE_SUBTITLE_LANG with
         | Some key =>
             [ {| sub_url := JStr ("https://static.viu.tv/subtitle/" ++ py_str product_id
                                     ++ "/" ++ py_str product_id ++ "-" ++ key ++ ".srt");
                  sub_ext := "srt" |} ]
         | None => []
         end
       else [])
    langs.

(** the names of the tags that have one *)
Definition tag_names (l : list json) : list json :=
  map (field "name") (filter (fun x => truthy (field "name" x)) l).

(** a programme of two episodes, given out of order, and its host *)
Definition two_episodes : list json :=
  [JObj [("slug", JStr "ep-2"); ("productId", JStr "202002281024764"); ("episodeNum", JNum 2)];
   JObj [("slug", JStr "ep-1"); ("productId", JStr "202002211024763"); ("episodeNum", JNum 1);
         ("videoMeta", JObj [("title", JStr "One")])]].

Definition two_episodes_programme : list (string * json) :=
  [("programmeId", JStr "201912050000001");
   ("title", JStr "Leap Day");
   ("slug", JStr "leap-day");
   ("episodes", JArr two_episodes)].

Definition two_episodes_host : Host :=
  Demo.host [] (Demo.always (JObj [("programme", JObj two_episodes_programme)])) (JArr []).

(** a reply of getVodURL without manifest *)
Definition vod_empty : json := JObj [("asset", JArr [])].

(** the pattern of ViuTVIE from the programme slug on:
    [(?P<program_slug>[^/]+)(?:/(?P<episode_slug>[^/?]+))?] *)
Definition ViuTVIE_match_path (r : string) : option (string * option string) :=
  match Str.span1 (Str.not_char "/"%char) r with
  | None => None
  | Some (program_slug, r) =>
      match Str.drop_prefix "/" r with
      | None => Some (program_slug, None)
      | Some r =>
          match Str.span1 slug_char r with
          | None => Some (program_slug, None)
          | Some (episode_slug, _) => Some (program_slug, Some episode_slug)
          end
      end
  end.

(** a track of ViuOTTIE: srt, at a url that is not empty *)
Definition srt_track (t : subtitle_track) : Prop :=
  sub_ext t = "srt" /\ truthy (sub_url t) = true.

(** what the subtitle dict of ViuOTTIE holds under each name *)
Definition named_srt_tracks (p : json * list subtitle_track) : Prop :=
  hashable (fst p) = true /\ snd p <> [] /\ Forall srt_track (snd p).

(** subtitle entries of a product: one without url, two of one name *)
Definition three_subtitles : list json :=
  [JObj [("name", JStr "English"); ("url", JStr "https://cdn.example/en.srt")];
   JObj [("name", JStr "Thai")];
   JObj [("name", JStr "English"); ("url", JStr "https://cdn.example/en2.srt")]].

(** * Properties *)

(** ** Running the model on the URLs of the tests *)

Example ViuOTTIE_match_url_test :
  ViuOTTIE_match_url "http://www.viu.com/ott/sg/en-us/vod/3421/The%20Prime%20Minister%20and%20I"
  = Some ("sg", "en-us", "3421").
Proof. reflexivity. Qed.

Example ViuOTTIE_match_url_upper :
  ViuOTTIE_match_url "http://www.viu.com/ott/SG/en-us/vod/3421/" = None.
Proof. reflexivity. Qed.

Example ViuTVIE_match_url_test :
  ViuTVIE_match_url "https://viu.tv/encore/leap-day/leap-daye2si-hung-long-yan"
  = Some ("leap-day", Some "leap-daye2si-hung-long-yan").
Proof. reflexivity. Qed.

Example ViuTVIE_match_url_programme :
  ViuTVIE_match_url "https://viu.tv/encore/leap-day" = Some ("leap-day", None).
Proof. reflexivity. Qed.

Example search_height_720 : search_height "s720p" = Some "720".
Proof. reflexivity. Qed.

Example search_height_hd : search_height "hd" = None.
Proof. reflexivity. Qed.

Example search_origin_test :
  search_origin "http://www.viu.com/ott/sg/en-us/vod/3421/" = Some "http://www.viu.com".
Proof. reflexivity. Qed.

Example py_str_int : forall `{Host}, py_str (JNum 68776) = "68776".
Proof. reflexivity. Qed.

Example split_on_langs :
  Str.split_on ","%char "Chinese,English" = ["Chinese"; "English"].
Proof. reflexivity. Qed.

(** ** Characters *)







Lemma take_class_inv (cls : ascii -> bool) (n : nat) (s m r : string) :
  Str.take_class cls n s = Some (m, r) ->
  all_chars cls m = true /\ String.length m = n /\ s = m ++ r.
Proof.
  revert s m r; induction n as [|n IH]; intros s m r E; simpl in E.
  - inversion E; subst. repeat split.
  - destruct s as [|c s]; [discriminate|].
    destruct (cls c) eqn:Ec; [|discriminate].
    destruct (Str.take_class cls n s) as [[m' r']|] eqn:Et; [|discriminate].
    inversion E; subst. destruct (IH _ _ _ Et) as (Ha & Hl & ->).
    simpl. rewrite Ec, Ha, Hl. repeat split.
Qed.


(** ** ViuOTTIE: the area id *)



(** ** Strings: prefixes and spans *)

Lemma append_assoc3 (a b c : string) : (a ++ b) ++ c = a ++ b ++ c.
Proof. induction a as [|x a IH]; simpl; [reflexivity|now rewrite IH]. Qed.

Lemma prefix_app_iff (p s : string) :
  String.prefix p s = true <-> exists r, s = p ++ r.
Proof.
  revert s; induction p as [|a p IH]; intro s.
  - split; [intros _; now exists s|intros _; destruct s; reflexivity].
  - destruct s as [|b s]; simpl.
    + split; [discriminate|intros (r & E); discriminate E].
    + destruct (ascii_dec a b) as [->|Hab].
      * rewrite IH. split; intros (r & E); exists r; [now rewrite E|now inversion E].
      * split; [discriminate|intros (r & E); inversion E; subst; now elim Hab].
Qed.

Lemma drop_prefix_app (p s : string) : Str.drop_prefix p (p ++ s) = Some s.
Proof.
  induction p as [|a p IH]; simpl; [reflexivity|].
  now rewrite Ascii.eqb_refl.
Qed.

Lemma drop_prefix_inv (p s r : string) : Str.drop_prefix p s = Some r -> s = p ++ r.
Proof.
  revert s; induction p as [|a p IH]; simpl; intros s E.
  - now inversion E.
  - destruct s as [|b s]; [discriminate|].
    destruct (Ascii.eqb a b) eqn:Eab; [|discriminate].
    apply Ascii.eqb_eq in Eab; subst b. f_equal. now apply IH.
Qed.

Lemma span_inv (cls : ascii -> bool) (s m r : string) :
  Str.span cls s = (m, r) -> s = m ++ r /\ all_chars cls m = true /\ stops cls r.
Proof.
  revert m r; induction s as [|c s IH]; simpl; intros m r E.
  - inversion E; subst. repeat split.
  - destruct (cls c) eqn:Ec.
    + destruct (Str.span cls s) as [m' r'] eqn:Es.
      inversion E; subst. destruct (IH m' r eq_refl) as (-> & Hall & Hstop).
      simpl. rewrite Ec, Hall. repeat split; assumption.
    + inversion E; subst. simpl. repeat split. exact Ec.
Qed.

Lemma span_app (cls : ascii -> bool) (m r : string) :
  all_chars cls m = true -> stops cls r -> Str.span cls (m ++ r) = (m, r).
Proof.
  induction m as [|c m IH]; simpl; intros Hall Hstop.
  - destruct r as [|c r]; simpl in *; [reflexivity|]. now rewrite Hstop.
  - apply andb_true_iff in Hall as [Hc Hall]. rewrite Hc, (IH Hall Hstop). reflexivity.
Qed.

Lemma span1_inv (cls : ascii -> bool) (s m r : string) :
  Str.span1 cls s = Some (m, r) ->
  s = m ++ r /\ all_chars cls m = true /\ stops cls r /\ m <> "".
Proof.
  unfold Str.span1. destruct (Str.span cls s) as [m' r'] eqn:Es.
  destruct m' as [|c m']; [discriminate|].
  intro E; inversion E; subst.
  destruct (span_inv _ _ _ _ Es) as (? & ? & ?). repeat split; try assumption.
  discriminate.
Qed.

Lemma span1_app (cls : ascii -> bool) (m r : string) :
  m <> "" -> all_chars cls m = true -> stops cls r ->
  Str.span1 cls (m ++ r) = Some (m, r).
Proof.
  intros Hne Hall Hstop. unfold Str.span1. rewrite (span_app _ _ _ Hall Hstop).
  destruct m; [contradiction|reflexivity].
Qed.

(** ** ViuIE: the subtitles *)

(** the keys [re.match] accepts: subtitle_, a language without
    underscore, an underscore, vtt or srt, then anything *)
Lemma match_subtitle_key_iff (key lang ext : string) :
  match_subtitle_key key = Some (lang, ext) <->
  exists tail,
    key = "subtitle_" ++ lang ++ "_" ++ ext ++ tail
    /\ lang <> ""
    /\ all_chars (Str.not_char "_"%char) lang = true
    /\ (ext = "vtt" \/ ext = "srt").
Proof.
  unfold match_subtitle_key. split.
  - destruct (Str.drop_prefix "subtitle_" key) as [rest|] eqn:E1; [|discriminate].
    destruct (Str.span1 _ rest) as [[l after]|] eqn:E2; [|discriminate].
    destruct (Str.drop_prefix "_" after) as [tail|] eqn:E3; [|discriminate].
    apply drop_prefix_inv in E1, E3. apply span1_inv in E2 as (E2 & Hall & _ & Hne).
    destruct (Str.drop_prefix "vtt" tail) as [t|] eqn:E4.
    + intro E; inversion E; subst. apply drop_prefix_inv in E4. subst tail.
      exists t. repeat split; auto.
    + destruct (Str.drop_prefix "srt" tail) as [t|] eqn:E5; [|discriminate].
      intro E; inversion E; subst. apply drop_prefix_inv in E5. subst tail.
      exists t. repeat split; auto.
  - intros (tail & -> & Hne & Hall & Hext).
    rewrite drop_prefix_app.
    rewrite (span1_app _ lang ("_" ++ ext ++ tail) Hne Hall eq_refl).
    rewrite drop_prefix_app.
    destruct Hext as [-> | ->].
    + now rewrite drop_prefix_app.
    + reflexivity.
Qed.

Lemma sub_lookup_setdefault (k k' : string) (t : subtitle_track) (m : subtitle_map string) :
  sub_lookup String.eqb k (setdefault_append String.eqb k' t m)
  = if (k' =? k)%string
    then Some (match sub_lookup String.eqb k m with
               | Some ts => ts ++ [t]
               | None => [t]
               end)%list
    else sub_lookup String.eqb k m.
Proof.
  induction m as [|[k0 ts] m IH]; simpl.
  - destruct (k' =? k)%string; reflexivity.
  - destruct (k0 =? k')%string eqn:E0; simpl.
    + apply String.eqb_eq in E0; subst k0.
      destruct (k' =? k)%string; reflexivity.
    + destruct (k0 =? k)%string eqn:E1; [|exact IH].
      apply String.eqb_eq in E1; subst k0.
      rewrite String.eqb_sym, E0. reflexivity.
Qed.

Lemma ViuIE_subtitles_fold (fields : list (string * json)) (lang : string)
    (m : subtitle_map string) :
  sub_lookup String.eqb lang (fold_left ViuIE_subtitle_step fields m)
  = match sub_lookup String.eqb lang m, ViuIE_tracks lang fields with
    | None, [] => None
    | None, ts => Some ts
    | Some old, ts => Some (old ++ ts)%list
    end.
Proof.
  revert m; induction fields as [|[key value] fields IH]; intro m.
  - simpl. destruct (sub_lookup String.eqb lang m); [now rewrite app_nil_r|reflexivity].
  - cbn [fold_left]. rewrite IH. unfold ViuIE_subtitle_step, ViuIE_tracks.
    cbn [flat_map fst snd].
    destruct (match_subtitle_key key) as [[l ext]|]; [|reflexivity].
    rewrite sub_lookup_setdefault.
    destruct (l =? lang)%string; [|reflexivity].
    destruct (sub_lookup String.eqb lang m) as [old|]; cbn [app].
    + now rewrite <- app_assoc.
    + reflexivity.
Qed.

(** a key begins with subtitle_<lang>_<ext>, for one of the two
    extensions, exactly when [re.match] accepts it with these groups *)
Lemma begins_subtitle_iff (lang ext key : string) :
  ext = "vtt" \/ ext = "srt" ->
  begins_subtitle lang ext key = true <-> match_subtitle_key key = Some (lang, ext).
Proof.
  intro Hext. rewrite match_subtitle_key_iff. unfold begins_subtitle, is_lang.
  rewrite !andb_true_iff, negb_true_iff, prefix_app_iff, String.eqb_neq. split.
  - intros [[Hne Hall] (tail & ->)]. exists tail.
    rewrite !append_assoc3. repeat split; assumption.
  - intros (tail & -> & Hne & Hall & _). split; [now split|].
    exists tail. now rewrite !append_assoc3.
Qed.

Lemma ViuIE_tracks_spec (lang : string) (fields : list (string * json)) :
  ViuIE_tracks lang fields = spec_tracks lang fields.
Proof.
  unfold ViuIE_tracks, spec_tracks.
  induction fields as [|[key value] fields IH]; [reflexivity|].
  cbn [flat_map fst snd]. rewrite IH. f_equal.
  destruct (begins_subtitle lang "vtt" key) eqn:Ev.
  - apply begins_subtitle_iff in Ev; [|now left]. now rewrite Ev, String.eqb_refl.
  - destruct (begins_subtitle lang "srt" key) eqn:Es.
    + apply begins_subtitle_iff in Es; [|now right]. now rewrite Es, String.eqb_refl.
    + destruct (match_subtitle_key key) as [[l ext]|] eqn:Em; [|reflexivity].
      destruct (l =? lang)%string eqn:El; [|reflexivity].
      apply String.eqb_eq in El; subst l.
      pose proof Em as Em'.
      apply match_subtitle_key_iff in Em' as (tail & _ & _ & _ & [-> | ->]).
      * apply begins_subtitle_iff in Em; [congruence|now left].
      * apply begins_subtitle_iff in Em; [congruence|now right].
Qed.

(** C4, as the code has it.  ViuIE collects a subtitle track from
    exactly the fields whose key begins with subtitle_<lang>_<ext> -
    <lang> a text without underscore that is not empty, <ext> vtt or
    srt, and anything after it, [re.match] looking at the beginning of
    the key only - and groups the tracks by <lang> in the order of the
    fields; so subtitle_en_srt=A, subtitle_en_vtt=B, subtitle_fr_srt=C
    give en -> [A (srt), B (vtt)] and fr -> [C (srt)]; and these are
    the subtitles of the info dict ViuIE returns. *)
Theorem ViuIE_subtitles_grouped :
  (forall (fields : list (string * json)) (lang : string),
      sub_lookup String.eqb lang (ViuIE_subtitles fields)
      = match spec_tracks lang fields with
        | [] => None
        | ts => Some ts
        end)
  /\ (forall key lang ext : string,
         match_subtitle_key key = Some (lang, ext) <->
         (ext = "vtt" \/ ext = "srt") /\ begins_subtitle lang ext key = true)
  /\ (forall A B C : json,
         ViuIE_subtitles
           [("subtitle_en_srt", A); ("subtitle_en_vtt", B); ("subtitle_fr_srt", C)]
         = [("en", [ {| sub_url := A; sub_ext := "srt" |};
                     {| sub_url := B; sub_ext := "vtt" |} ]);
            ("fr", [ {| sub_url := C; sub_ext := "srt" |} ])])
  /\ (forall (H : Host) (video_id : string) (response : json) (info : info_dict string),
         ViuIE_video video_id response = Ok (Video info) ->
         exists fields rest,
           getitem response "item" = Ok (JArr (JObj fields :: rest))
           /\ subtitles info = ViuIE_subtitles fields).
Proof.
  split; [|split; [|split]].
  - intros fields lang. unfold ViuIE_subtitles.
    rewrite ViuIE_subtitles_fold, ViuIE_tracks_spec. reflexivity.
  - intros key lang ext. split.
    + intro Em. pose proof Em as Em'.
      apply match_subtitle_key_iff in Em' as (tail & _ & _ & _ & Hext).
      split; [exact Hext|]. now apply begins_subtitle_iff.
    + intros [Hext Hb]. now apply begins_subtitle_iff.
  - reflexivity.
  - intros H video_id response info. unfold ViuIE_video.
    destruct (getitem response "item") as [item|] eqn:Ei; [|discriminate].
    cbn [bind].
    destruct (getitem0 item) as [video_data|] eqn:E0; [|discriminate].
    cbn [bind].
    destruct (getitem video_data "title") as [t|] eqn:Et; [|discriminate].
    destruct video_data as [| | | | |fields]; try discriminate.
    destruct item as [| | |s|l|]; try discriminate.
    + destruct s; discriminate.
    + destruct l as [|x rest]; [discriminate|].
      inversion E0; subst x. cbn [bind].
      destruct (ViuIE_m3u8_url (JObj fields)) as [u|]; [|discriminate]. cbn [bind].
      destruct (extract_m3u8_formats _ _ _ _ _) as [f|]; [|discriminate]. cbn [bind].
      destruct (sort_formats f) as [f'|]; [|discriminate]. cbn [bind items dict_get].
      intro E; inversion E; subst; cbn [subtitles].
      exists fields, rest. split; reflexivity.
Qed.

(** C4, counterexample: two keys that go on after the extension, and
    so are not of the form subtitle_<lang>_<ext> with <ext> vtt or srt;
    [re.match] accepts them all the same, and their fields are
    collected as the vtt and the srt track of en. *)
Lemma ViuIE_subtitles_longer_keys :
  ViuIE_subtitles [("subtitle_en_vttx", JStr "X"); ("subtitle_en_srt_old", JStr "Y")]
  = [("en", [ {| sub_url := JStr "X"; sub_ext := "vtt" |};
              {| sub_url := JStr "Y"; sub_ext := "srt" |} ])].
Proof. reflexivity. Qed.

(** ** ViuBaseIE: the envelope *)

Lemma str_is_success_inv (v : json) : str_is v "success" = true -> v = JStr "success".
Proof.
  destruct v; simpl; try discriminate.
  intro E. apply String.eqb_eq in E. now subst.
Qed.

(** C5, as the code has it.  When the request succeeds and the envelope
    holds an object under response: a status equal to 'success' returns
    that object unchanged; any other status (or none) raises an expected
    ExtractorError whose text is the name of the extractor, ' said: ' and
    the message of the vendor, provided the object has a message, and a
    KeyError when it has none; an ExtractorError is raised only for a
    status that is not 'success'. *)
Theorem call_api_status (H : Host) (ie_name : string) (auth_token : json)
    (path : string) (query kw_headers : list (string * json))
    (envelope : json) (fields : list (string * json)) :
  download_json (call_api_request auth_token path query kw_headers) = Ok envelope ->
  getitem envelope "response" = Ok (JObj fields) ->
  let status := match assoc "status" fields with Some v => v | None => JNull end in
  let outcome := call_api ie_name auth_token path query kw_headers in
  (status = JStr "success" -> outcome = Ok (JObj fields))
  /\ (status <> JStr "success" ->
      forall message, assoc "message" fields = Some message ->
        outcome = Raise (ExtractorError (ie_name ++ " said: " ++ py_str message) true JNull))
  /\ (status <> JStr "success" ->
      forall text, assoc "message" fields = Some (JStr text) ->
        outcome = Raise (ExtractorError (ie_name ++ " said: " ++ text) true JNull))
  /\ (status <> JStr "success" -> assoc "message" fields = None ->
      outcome = Raise (KeyError (JStr "message")))
  /\ (forall msg expected video_id,
        outcome = Raise (ExtractorError msg expected video_id) ->
        status <> JStr "success" /\ expected = true).
Proof.
  intros Hd He status outcome.
  assert (Eo : outcome =
    if negb (str_is status "success") then
      message <- getitem (JObj fields) "message" ;;
      Raise (ExtractorError (ie_name ++ " said: " ++ py_str message) true JNull)
    else Ok (JObj fields)).
  { unfold outcome, call_api. rewrite Hd. cbn [bind]. unfold unwrap_envelope.
    rewrite He. reflexivity. }
  assert (Hs : str_is status "success" = false -> status <> JStr "success").
  { intros E ->. discriminate. }
  assert (Hn : status <> JStr "success" -> str_is status "success" = false).
  { intro Hne. destruct (str_is status "success") eqn:E; [|reflexivity].
    apply str_is_success_inv in E. contradiction. }
  split; [intro E; rewrite Eo, E; reflexivity|].
  split.
  { intros Hne message Hm. rewrite Eo, (Hn Hne). cbn [negb getitem]. now rewrite Hm. }
  split.
  { intros Hne text Hm. rewrite Eo, (Hn Hne). cbn [negb getitem]. now rewrite Hm. }
  split.
  { intros Hne Hm. rewrite Eo, (Hn Hne). cbn [negb getitem]. now rewrite Hm. }
  intros msg expected video_id Hout. rewrite Eo in Hout.
  destruct (str_is status "success") eqn:E; [discriminate|].
  split; [now apply Hs|].
  cbn [negb getitem] in Hout. destruct (assoc "message" fields); [|discriminate].
  cbn [bind] in Hout. now inversion Hout.
Qed.

(** C5, witness: an envelope with a message, on the demo host. *)
Lemma call_api_status_witness :
  @call_api (Demo.host [] (Demo.always
               (JObj [("response", JObj [("status", JStr "fail"); ("message", JStr "Geo blocked")])]))
               (JArr []))
    "Viu" (JStr "token") "clip/load" [] []
  = Raise (ExtractorError "Viu said: Geo blocked" true JNull).
Proof.
  refine (proj1 (proj2 (proj2
    (call_api_status
       (Demo.host [] (Demo.always
          (JObj [("response", JObj [("status", JStr "fail"); ("message", JStr "Geo blocked")])]))
          (JArr []))
       "Viu" (JStr "token") "clip/load" [] []
       (JObj [("response", JObj [("status", JStr "fail"); ("message", JStr "Geo blocked")])])
       [("status", JStr "fail"); ("message", JStr "Geo blocked")]
       eq_refl eq_refl))) _ "Geo blocked" eq_refl).
  simpl. discriminate.
Defined.

(** C5, counterexample: the status is not 'success' and the payload has
    no message; the call raises KeyError, not an ExtractorError. *)
Lemma call_api_without_message :
  @call_api (Demo.host [] (Demo.always failed_without_message) (JArr []))
    "Viu" (JStr "token") "clip/load" [] []
  = Raise (KeyError (JStr "message")).
Proof. reflexivity. Qed.

(** ** ViuIE: the manifest URL *)

(** C2, as the code has it.  With base the value of urlpathd when it is
    truthy and of urlpath otherwise: when base, tdirforwhole and
    jwhlsfile are all truthy (present and not empty) the manifest URL is
    their texts joined by '/', in that order; when one of them is
    missing or falsy (empty), the manifest URL is the value of href, as
    it is, provided the item has one. *)
Theorem ViuIE_m3u8_url_derivation (H : Host) (fields : list (string * json)) :
  let field k := match assoc k fields with Some v => v | None => JNull end in
  let base := if truthy (field "urlpathd") then field "urlpathd" else field "urlpath" in
  let all_there :=
    (truthy base && truthy (field "tdirforwhole") && truthy (field "jwhlsfile"))%bool in
  (all_there = true ->
     ViuIE_m3u8_url (JObj fields)
     = Ok (JStr (py_str base ++ "/" ++ py_str (field "tdirforwhole")
                   ++ "/" ++ py_str (field "jwhlsfile"))))
  /\ (forall path dir file : string,
        base = JStr path -> field "tdirforwhole" = JStr dir ->
        field "jwhlsfile" = JStr file ->
        path <> "" -> dir <> "" -> file <> "" ->
        ViuIE_m3u8_url (JObj fields) = Ok (JStr (path ++ "/" ++ dir ++ "/" ++ file)))
  /\ (all_there = false ->
      forall href, assoc "href" fields = Some href ->
        ViuIE_m3u8_url (JObj fields) = Ok href)
  /\ (all_there = false -> assoc "href" fields = None ->
      ViuIE_m3u8_url (JObj fields) = Raise (KeyError (JStr "href"))).
Proof.
  intros field base all_there.
  assert (E : ViuIE_m3u8_url (JObj fields) =
    if all_there
    then Ok (JStr (py_str base ++ "/" ++ py_str (field "tdirforwhole")
                     ++ "/" ++ py_str (field "jwhlsfile")))
    else getitem (JObj fields) "href") by reflexivity.
  repeat split.
  - intro Ha. now rewrite E, Ha.
  - intros path dir file Hb Hd Hf Hp Hdn Hfn. rewrite E.
    assert (Ha : all_there = true).
    { unfold all_there. rewrite Hb, Hd, Hf. simpl.
      apply String.eqb_neq in Hp, Hdn, Hfn. now rewrite Hp, Hdn, Hfn. }
    rewrite Ha, Hb, Hd, Hf. reflexivity.
  - intros Ha href Hh. rewrite E, Ha. cbn [getitem]. now rewrite Hh.
  - intros Ha Hh. rewrite E, Ha. cbn [getitem]. now rewrite Hh.
Qed.

(** C2, witness: urlpathd is missing, urlpath is the base. *)
Lemma ViuIE_m3u8_url_derivation_witness :
  @ViuIE_m3u8_url (Demo.host [] (Demo.always JNull) (JArr [])) (JObj item_with_manifest)
  = Ok (JStr "http://cdn.example/p/whole/main.m3u8").
Proof.
  exact (proj1 (ViuIE_m3u8_url_derivation
                  (Demo.host [] (Demo.always JNull) (JArr [])) item_with_manifest)
           eq_refl).
Defined.

(** C2, counterexample: base path, tdirforwhole and jwhlsfile are all
    present, tdirforwhole being the empty string; the manifest URL is
    href and not the three joined by '/'. *)
Lemma ViuIE_m3u8_url_empty_dir :
  @ViuIE_m3u8_url (Demo.host [] (Demo.always JNull) (JArr [])) (JObj item_with_empty_dir)
  = Ok (JStr "http://cdn.example/raw.m3u8").
Proof. reflexivity. Qed.

(** ** ViuIE: what the payload must hold *)

Lemma ViuIE_m3u8_url_unfold (H : Host) (fields : list (string * json)) :
  ViuIE_m3u8_url (JObj fields)
  = if (truthy (py_or (field "urlpathd" (JObj fields)) (field "urlpath" (JObj fields)))
        && truthy (field "tdirforwhole" (JObj fields))
        && truthy (field "jwhlsfile" (JObj fields)))%bool
    then Ok (JStr (py_str (py_or (field "urlpathd" (JObj fields))
                                 (field "urlpath" (JObj fields)))
                     ++ "/" ++ py_str (field "tdirforwhole" (JObj fields))
                     ++ "/" ++ py_str (field "jwhlsfile" (JObj fields))))
    else getitem (JObj fields) "href".
Proof. reflexivity. Qed.

Lemma field_missing (k : string) (kv : list (string * json)) :
  assoc k kv = None -> field k (JObj kv) = JNull.
Proof. intro E. unfold field. now rewrite E. Qed.

(** C10.  ViuIE returns an info dict only when the payload of clip/load
    holds a non-empty list under item whose first element is an object
    with a title and, if one of the fields of the manifest is missing,
    an href.  Without item it raises KeyError, on an empty item
    IndexError, without title KeyError, and without href (one of the
    manifest fields missing) KeyError: none of them the expected
    ExtractorError. *)
Theorem ViuIE_video_needs (H : Host) (video_id : string) (response : json) :
  (forall auth_token,
      ViuIE_real_extract auth_token video_id
      = (payload <- call_api "Viu" auth_token "clip/load"
           [("appid", JStr "viu_desktop"); ("fmt", JStr "json"); ("id", JStr video_id)] [] ;;
         ViuIE_video video_id payload))
  /\ (is_ok (ViuIE_video video_id response) = true ->
      exists fields first rest title,
        response = JObj fields
        /\ assoc "item" fields = Some (JArr (JObj first :: rest))
        /\ assoc "title" first = Some title
        /\ (assoc "tdirforwhole" first = None \/ assoc "jwhlsfile" first = None
            \/ (assoc "urlpathd" first = None /\ assoc "urlpath" first = None) ->
            exists href, assoc "href" first = Some href))
  /\ (forall fields, response = JObj fields ->
        (assoc "item" fields = None ->
         ViuIE_video video_id response = Raise (KeyError (JStr "item")))
        /\ (assoc "item" fields = Some (JArr []) ->
            ViuIE_video video_id response = Raise IndexError)
        /\ (forall first rest,
              assoc "item" fields = Some (JArr (JObj first :: rest)) ->
              (assoc "title" first = None ->
               ViuIE_video video_id response = Raise (KeyError (JStr "title")))
              /\ (assoc "title" first <> None ->
                  assoc "tdirforwhole" first = None \/ assoc "jwhlsfile" first = None
                  \/ (assoc "urlpathd" first = None /\ assoc "urlpath" first = None) ->
                  assoc "href" first = None ->
                  ViuIE_video video_id response = Raise (KeyError (JStr "href"))))).
Proof.
  assert (Hfalse : forall first,
    assoc "tdirforwhole" first = None \/ assoc "jwhlsfile" first = None
    \/ (assoc "urlpathd" first = None /\ assoc "urlpath" first = None) ->
    ViuIE_m3u8_url (JObj first) = getitem (JObj first) "href").
  { intros first Hm. rewrite ViuIE_m3u8_url_unfold.
    destruct Hm as [Hm | [Hm | [Hm1 Hm2]]].
    - rewrite (field_missing _ _ Hm). cbn [truthy]. now rewrite andb_false_r.
    - rewrite (field_missing _ _ Hm). cbn [truthy]. now rewrite andb_false_r.
    - rewrite (field_missing _ _ Hm1), (field_missing _ _ Hm2). reflexivity. }
  split; [reflexivity|split].
  - unfold ViuIE_video. intro Hok.
    destruct response as [| | | | |fields]; try discriminate.
    cbn [getitem] in Hok.
    destruct (assoc "item" fields) as [item|] eqn:Ei; [|discriminate].
    cbn [bind] in Hok.
    destruct item as [| | |s|l|]; try discriminate.
    { destruct s; discriminate. }
    destruct l as [|x rest]; [discriminate|].
    cbn [getitem0 bind] in Hok.
    destruct x as [| | | | |first]; try discriminate.
    cbn [getitem] in Hok.
    destruct (assoc "title" first) as [t|] eqn:Et; [|discriminate].
    cbn [bind] in Hok.
    exists fields, first, rest, t.
    split; [reflexivity|split; [exact Ei|split; [exact Et|]]].
    intro Hm. rewrite (Hfalse first Hm) in Hok. cbn [getitem] in Hok.
    destruct (assoc "href" first) as [h|]; [now exists h|discriminate].
  - intros fields ->. unfold ViuIE_video. cbn [getitem].
    split; [|split].
    + intros ->. reflexivity.
    + intros ->. reflexivity.
    + intros first rest ->. cbn [bind getitem0 getitem]. split.
      * intros ->. reflexivity.
      * intros Ht Hm Hh.
        destruct (assoc "title" first); [|contradiction].
        cbn [bind]. rewrite (Hfalse first Hm). cbn [getitem]. now rewrite Hh.
Qed.

(** ** ViuPlaylistIE *)

Lemma for_each_collect {A B : Type} (step : list B -> A -> result (list B))
    (keep : A -> bool) (f : A -> B) (xs : list A) :
  (forall acc x, In x xs ->
     step acc x = Ok (if keep x then acc ++ [f x] else acc)%list) ->
  forall acc, for_each step xs acc = Ok (acc ++ map f (filter keep xs))%list.
Proof.
  induction xs as [|x xs IH]; intros Hstep acc.
  - simpl. now rewrite app_nil_r.
  - cbn [for_each]. rewrite (Hstep acc x (or_introl eq_refl)). cbn [bind].
    rewrite IH by (intros a y Hy; apply Hstep; now right).
    cbn [filter]. destruct (keep x); [|reflexivity].
    cbn [map]. now rewrite <- app_assoc.
Qed.

Lemma filter_complement_length {A : Type} (keep : A -> bool) (xs : list A) :
  (List.length (filter keep xs)
   + List.length (filter (fun x => negb (keep x)) xs))%nat = List.length xs.
Proof.
  induction xs as [|x xs IH]; simpl; [reflexivity|].
  destruct (keep x); simpl; lia.
Qed.

(** C7, as the code has it.  For a reply whose items are objects,
    ViuPlaylistIE drops exactly the items whose id is missing or falsy
    (None, the empty string, 0, ...), raises nothing for them, and makes
    one reference per other item, in the order of the reply; so five
    items of which two are dropped give three references. *)
Theorem ViuPlaylistIE_drops_falsy_ids (H : Host) (playlist_id : string)
    (response : json) (container : list (string * json)) (its : list json) :
  getitem response "container" = Ok (JObj container) ->
  match assoc "item" container with Some v => v | None => JArr [] end = JArr its ->
  Forall (fun it => is_object it = true) its ->
  exists p,
    ViuPlaylistIE_playlist playlist_id response = Ok (Playlist p)
    /\ entries p
       = map (fun it => ViuPlaylistIE_ref (field "id" it))
           (filter (fun it => truthy (field "id" it)) its)
    /\ (List.length (entries p)
        + List.length (filter (fun it => negb (truthy (field "id" it))) its))%nat
       = List.length its
    /\ (List.length its = 5%nat ->
        List.length (filter (fun it => negb (truthy (field "id" it))) its) = 2%nat ->
        List.length (entries p) = 3%nat).
Proof.
  intros Hc Hi Hobj. unfold ViuPlaylistIE_playlist. rewrite Hc.
  cbn [bind dict_get]. rewrite Hi. cbn [iterate bind].
  rewrite (for_each_collect ViuPlaylistIE_entry_step
             (fun it => truthy (field "id" it))
             (fun it => ViuPlaylistIE_ref (field "id" it))).
  - cbn [bind app]. eexists. split; [reflexivity|]. cbn [entries playlist_result].
    split; [reflexivity|].
    rewrite length_map.
    pose proof (filter_complement_length (fun it => truthy (field "id" it)) its).
    split; [assumption|lia].
  - intros acc x Hx. rewrite Forall_forall in Hobj. specialize (Hobj x Hx).
    destruct x; try discriminate.
    unfold ViuPlaylistIE_entry_step. cbn [dict_get bind field].
    destruct (truthy _); reflexivity.
Qed.

(** C7, witness: five items, two without id (one missing, one None). *)
Lemma ViuPlaylistIE_drops_falsy_ids_witness :
  exists p,
    @ViuPlaylistIE_playlist (Demo.host [] (Demo.always JNull) (JArr []))
      "22461380" playlist_of_five = Ok (Playlist p)
    /\ List.length (entries p) = 3%nat.
Proof.
  assert (Hobj : Forall (fun it => is_object it = true) five_items)
    by (repeat constructor).
  destruct (ViuPlaylistIE_drops_falsy_ids
              (Demo.host [] (Demo.always JNull) (JArr [])) "22461380" playlist_of_five
              container_of_five five_items eq_refl eq_refl Hobj)
    as (p & Hp & _ & _ & H5).
  exists p. split; [exact Hp|]. apply H5; reflexivity.
Defined.

(** C7, counterexample: both items have an id, the second the number 0;
    the second is dropped and one reference is made. *)
Lemma ViuPlaylistIE_drops_id_zero :
  @ViuPlaylistIE_real_extract (Demo.host [] (Demo.always playlist_with_id_zero) (JArr []))
    (JStr "token") "22461380"
  = Ok (Playlist {| entries := [ {| ref_url := plain_url "viu:7";
                                    ref_ie := "Viu";
                                    ref_video_id := JStr "7";
                                    ref_video_title := JNull |} ];
                    playlist_id := Some (JStr "22461380");
                    playlist_title := Some (JStr "The Good Wife");
                    playlist_description := None |}).
Proof. reflexivity. Qed.

(** an item that is not an object is not skipped: [item.get] raises *)
Example ViuPlaylistIE_item_not_object :
  @ViuPlaylistIE_playlist (Demo.host [] (Demo.always JNull) (JArr [])) "22461380"
    (JObj [("container", JObj [("item", JArr [JObj [("id", JStr "11")]; JNull])])])
  = Raise AttributeError.
Proof. reflexivity. Qed.

(** ** Sorting *)

Lemma insert_by_perm {A : Type} (k : Z) (x : A) (l : list (Z * A)) :
  Permutation ((k, x) :: l) (insert_by k x l).
Proof.
  induction l as [|[k' y] l IH]; simpl; [apply Permutation_refl|].
  destruct (k <=? k'); [apply Permutation_refl|].
  eapply perm_trans; [apply perm_swap|]. now apply perm_skip.
Qed.

Lemma stable_sort_perm {A : Type} (l : list (Z * A)) : Permutation l (stable_sort l).
Proof.
  induction l as [|[k x] l IH]; simpl; [constructor|].
  eapply perm_trans; [apply perm_skip, IH|]. apply insert_by_perm.
Qed.

Lemma insert_by_sorted {A : Type} (k : Z) (x : A) (l : list (Z * A)) :
  StronglySorted key_le l -> StronglySorted key_le (insert_by k x l).
Proof.
  induction 1 as [|[k' y] l Hs IH Hall]; simpl.
  - repeat constructor.
  - destruct (k <=? k') eqn:E.
    + apply Z.leb_le in E. constructor.
      * now constructor.
      * constructor; [exact E|].
        eapply Forall_impl; [|exact Hall].
        intros [k2 z] Hle. unfold key_le in *. simpl in *. lia.
    + apply Z.leb_gt in E. constructor; [exact IH|].
      apply (Permutation_Forall (insert_by_perm k x l)).
      constructor; [unfold key_le; simpl; lia|exact Hall].
Qed.

Lemma stable_sort_sorted {A : Type} (l : list (Z * A)) :
  StronglySorted key_le (stable_sort l).
Proof.
  induction l as [|[k x] l IH]; simpl; [constructor|].
  now apply insert_by_sorted.
Qed.



Lemma keys_of_total {A K : Type} (key : A -> result K) (k : A -> K) (xs : list A) :
  (forall x, In x xs -> key x = Ok (k x)) ->
  keys_of key xs = Ok (map (fun x => (k x, x)) xs).
Proof.
  induction xs as [|x xs IH]; intro Hk; [reflexivity|].
  cbn [keys_of]. rewrite (Hk x (or_introl eq_refl)). cbn [bind].
  rewrite IH by (intros y Hy; apply Hk; now right). reflexivity.
Qed.

Lemma int_keys_some {A : Type} (k : A -> Z) (xs : list A) :
  int_keys (map (fun x => (Some (k x), x)) xs) = Some (map (fun x => (k x, x)) xs).
Proof.
  induction xs as [|x xs IH]; [reflexivity|]. cbn [map int_keys]. now rewrite IH.
Qed.

Lemma sorted_by_numeric (key : json -> result (option Z)) (k : json -> Z)
    (xs : list json) :
  (forall x, In x xs -> key x = Ok (Some (k x))) ->
  sorted_by key xs = Ok (map snd (stable_sort (map (fun x => (k x, x)) xs))).
Proof.
  intro Hk. unfold sorted_by.
  rewrite (keys_of_total key (fun x => Some (k x)) xs Hk). cbn [bind].
  destruct xs as [|x [|y xs]]; [reflexivity|reflexivity|].
  change (map (fun x0 => (Some (k x0), x0)) (x :: y :: xs))
    with ((Some (k x), x) :: (Some (k y), y) :: map (fun x0 => (Some (k x0), x0)) xs) at 1.
  cbv iota.
  now rewrite (int_keys_some k (x :: y :: xs)).
Qed.

Lemma filter_perm_length {A : Type} (f : A -> bool) (l l' : list A) :
  Permutation l l' -> List.length (filter f l) = List.length (filter f l').
Proof.
  induction 1 as [|x l l' _ IH|x y l|l l' l'' _ IH1 _ IH2]; simpl.
  - reflexivity.
  - destruct (f x); simpl; now rewrite IH.
  - destruct (f x), (f y); reflexivity.
  - now rewrite IH1.
Qed.

Lemma map_snd_keyed {A : Type} (k : A -> Z) (xs : list A) :
  map snd (map (fun x => (k x, x)) xs) = xs.
Proof. induction xs as [|x xs IH]; simpl; [reflexivity|now rewrite IH]. Qed.

Lemma keyed_sorted_fst {A : Type} (k : A -> Z) (l : list (Z * A)) :
  Forall (fun p => fst p = k (snd p)) l ->
  StronglySorted key_le l ->
  StronglySorted (fun a b => k a <= k b) (map snd l).
Proof.
  intros Hk Hs. induction Hs as [|p l Hs IH Hall]; simpl; [constructor|].
  inversion Hk as [|? ? Hp Hl]; subst.
  constructor; [now apply IH|].
  apply Forall_map. rewrite Forall_forall in *.
  intros q Hq. specialize (Hall q Hq). specialize (Hl q Hq).
  unfold key_le in Hall. rewrite Hp, Hl in Hall. exact Hall.
Qed.

(** ** ViuOTTIE: the series as a playlist *)

Lemma is_playlist_bind {A K : Type} (c : result A) (k : A -> result (extraction K)) :
  (forall a, is_playlist (k a) = false) -> is_playlist (bind c k) = false.
Proof. intro Hk. destruct c; [apply Hk|reflexivity]. Qed.

Lemma ViuOTTIE_single_is_video (H : Host) (url_s country_code video_id : string)
    (product_data video_data : json) :
  is_playlist (ViuOTTIE_single url_s country_code video_id product_data video_data)
  = false.
Proof.
  unfold ViuOTTIE_single.
  repeat first
    [ reflexivity
    | apply is_playlist_bind; intro
    | match goal with
      | |- is_playlist (match ?x with _ => _ end) = false => destruct x
      end ].
Qed.

(** a URL that carries a truthy force_noplaylist is never expanded *)
Lemma ViuOTTIE_suppressed_is_video (H : Host) (u : url) (data : list (string * json)) :
  url_smuggled u = Some (JObj data) ->
  truthy (field "force_noplaylist" (JObj data)) = true ->
  is_playlist (ViuOTTIE_real_extract u) = false.
Proof.
  intros Hs Hf. unfold ViuOTTIE_real_extract, unsmuggle_url. rewrite Hs.
  destruct (ViuOTTIE_match_url (url_text u)) as [[[cc lc] vid]|]; [|reflexivity].
  apply is_playlist_bind; intro reply.
  apply is_playlist_bind; intro product_data.
  apply is_playlist_bind; intro video_data.
  destruct (negb (truthy video_data)); [reflexivity|].
  assert (Es : ViuOTTIE_suppressed (JObj data) = Ok true).
  { unfold ViuOTTIE_suppressed. destruct (truthy noplaylist); [reflexivity|].
    cbn [dict_get bind]. unfold field in Hf. now rewrite Hf. }
  rewrite Es. cbn [bind negb]. apply ViuOTTIE_single_is_video.
Qed.

Lemma ViuOTTIE_ordered_perm (H : Host) (siblings : list json) :
  Permutation siblings (ViuOTTIE_ordered siblings).
Proof.
  unfold ViuOTTIE_ordered.
  rewrite <- (map_snd_keyed ViuOTTIE_number siblings) at 1.
  apply Permutation_map, stable_sort_perm.
Qed.

Lemma keyed_fst {A : Type} (k : A -> Z) (xs : list A) :
  Forall (fun p => fst p = k (snd p)) (map (fun x => (k x, x)) xs).
Proof. apply Forall_map. now apply Forall_forall. Qed.




Lemma ViuOTTIE_sort_key_ok (H : Host) (x : json) :
  sibling_ok x -> ViuOTTIE_sort_key x = Ok (Some (ViuOTTIE_number x)).
Proof.
  intros (Hobj & (z & Hz) & _). destruct x; try discriminate.
  unfold ViuOTTIE_sort_key, ViuOTTIE_number. cbn [dict_get bind].
  change (match assoc "number" fields with Some v => v | None => JNum 0 end)
    with (number_or_0 (JObj fields)).
  now rewrite Hz.
Qed.

Lemma ViuOTTIE_entry_step_ok (H : Host) (country_code lang_code : string)
    (acc : list url_result) (x : json) :
  sibling_ok x ->
  ViuOTTIE_entry_step country_code lang_code acc x
  = Ok (if truthy (field "product_id" x)
        then acc ++ [ViuOTTIE_ref_of country_code lang_code x]
        else acc)%list.
Proof.
  intros (Hobj & _ & Hsyn). destruct x as [| | | | |kv]; try discriminate.
  unfold ViuOTTIE_entry_step. cbn [dict_get bind field] in *.
  destruct (truthy (match assoc "product_id" kv with Some v => v | None => JNull end))
    eqn:Et; cbn [negb]; [|reflexivity].
  specialize (Hsyn eq_refl). unfold ViuOTTIE_ref_of, synopsis_text in *. cbn [field].
  destruct (assoc "synopsis" kv) as [[| | |s| |]|]; try contradiction; reflexivity.
Qed.

Section SeriesExpansion.

Context (H : Host) (u : url) (country_code lang_code video_id : string).
Context (reply : json) (product_data video_data series : list (string * json)).
Context (siblings : list json).

(** the URL is one of ViuOTTIE *)
Hypothesis Hurl :
  ViuOTTIE_match_url (url_text u) = Some (country_code, lang_code, video_id).
(** neither --no-playlist nor force_noplaylist is set: line 248 *)
Hypothesis Hflag : ViuOTTIE_suppressed (snd (unsmuggle_url u (JObj []))) = Ok false.
(** the detail of the product is downloaded and has a current product ... *)
Hypothesis Hreply :
  download_json (ViuOTTIE_detail_request country_code video_id) = Ok reply.
Hypothesis Hdata : getitem reply "data" = Ok (JObj product_data).
Hypothesis Hcurrent : assoc "current_product" product_data = Some (JObj video_data).
Hypothesis Hvideo : video_data <> [].
(** ... in a series with siblings *)
Hypothesis Hseries : assoc "series" product_data = Some (JObj series).
Hypothesis Hproduct : assoc "product" series = Some (JArr siblings).
Hypothesis Hsome : siblings <> [].
Hypothesis Hsiblings : Forall sibling_ok siblings.

Lemma ViuOTTIE_expands :
  ViuOTTIE_real_extract u
  = Ok (Playlist
          {| entries :=
               map (ViuOTTIE_ref_of country_code lang_code)
                 (filter (fun x => truthy (field "product_id" x))
                    (ViuOTTIE_ordered siblings));
             playlist_id := if_truthy (field "series_id" (JObj video_data));
             playlist_title := if_truthy (field "name" (JObj series));
             playlist_description := if_truthy (field "description" (JObj series)) |}).
Proof.
  unfold ViuOTTIE_real_extract.
  assert (Eu : unsmuggle_url u (JObj [])
               = (url_text u, snd (unsmuggle_url u (JObj [])))).
  { unfold unsmuggle_url. destruct (url_smuggled u); reflexivity. }
  rewrite Eu, Hurl, Hreply. cbn [bind]. rewrite Hdata. cbn [bind dict_get].
  rewrite Hcurrent.
  assert (Et : truthy (JObj video_data) = true)
    by (destruct video_data; [contradiction|reflexivity]).
  rewrite Et, Hflag. cbn [negb bind].
  unfold ViuOTTIE_series. cbn [dict_get bind]. rewrite Hseries. cbn [bind dict_get].
  rewrite Hproduct.
  assert (Ep : truthy (JArr siblings) = true)
    by (destruct siblings; [contradiction|reflexivity]).
  rewrite Ep. cbn [iterate bind].
  rewrite (sorted_by_numeric ViuOTTIE_sort_key ViuOTTIE_number siblings).
  - cbn [bind]. fold (ViuOTTIE_ordered siblings).
    rewrite (for_each_collect (ViuOTTIE_entry_step country_code lang_code)
               (fun x => truthy (field "product_id" x))
               (ViuOTTIE_ref_of country_code lang_code)).
    + reflexivity.
    + intros acc x Hx. apply ViuOTTIE_entry_step_ok.
      rewrite Forall_forall in Hsiblings. apply Hsiblings.
      eapply Permutation_in; [apply Permutation_sym, ViuOTTIE_ordered_perm|exact Hx].
  - intros x Hx. apply ViuOTTIE_sort_key_ok.
    rewrite Forall_forall in Hsiblings. now apply Hsiblings.
Qed.

(** C1, as the code has it.  Resolving a product of a series with
    expansion enabled returns a Playlist with one entry per sibling that
    has a (truthy) product id - as many entries as siblings when every
    sibling has one; every entry is a ViuOTT reference whose URL carries
    force_noplaylist = True, and resolving any entry, whatever the host
    answers, never returns a Playlist: the expansion stops at depth one. *)
Theorem ViuOTTIE_expansion_depth_one :
  exists p,
    ViuOTTIE_real_extract u = Ok (Playlist p)
    /\ List.length (entries p)
       = List.length (filter (fun x => truthy (field "product_id" x)) siblings)
    /\ (Forall (fun x => truthy (field "product_id" x) = true) siblings ->
        List.length (entries p) = List.length siblings)
    /\ Forall (fun e => ref_ie e = "ViuOTT"
                        /\ url_smuggled (ref_url e) = Some suppress_data)
         (entries p)
    /\ (forall (H' : Host) (e : url_result),
          In e (entries p) ->
          is_playlist (@ViuOTTIE_real_extract H' (ref_url e)) = false).
Proof.
  eexists. split; [apply ViuOTTIE_expands|]. cbn [entries].
  assert (Hall : Forall (fun e => ref_ie e = "ViuOTT"
                                  /\ url_smuggled (ref_url e) = Some suppress_data)
            (map (ViuOTTIE_ref_of country_code lang_code)
               (filter (fun x => truthy (field "product_id" x))
                  (ViuOTTIE_ordered siblings)))).
  { apply Forall_map, Forall_forall. intros x _. split; reflexivity. }
  assert (Hlen : List.length
            (map (ViuOTTIE_ref_of country_code lang_code)
               (filter (fun x => truthy (field "product_id" x))
                  (ViuOTTIE_ordered siblings)))
          = List.length (filter (fun x => truthy (field "product_id" x)) siblings)).
  { rewrite length_map. symmetry. apply filter_perm_length, ViuOTTIE_ordered_perm. }
  split; [exact Hlen|split; [|split; [exact Hall|]]].
  - intro Hids. rewrite Hlen. f_equal.
    clear -Hids. induction Hids as [|x l Hx _ IH]; [reflexivity|].
    cbn [filter]. rewrite Hx. now rewrite IH.
  - intros H' e He. rewrite Forall_forall in Hall. destruct (Hall e He) as [_ Hs].
    apply (ViuOTTIE_suppressed_is_video H' (ref_url e) _ Hs). reflexivity.
Qed.


End SeriesExpansion.

Lemma siblings_two_ok : Forall (@sibling_ok (series_host siblings_two)) siblings_two.
Proof.
  repeat (constructor;
          [split; [reflexivity|split; [eexists; reflexivity|intros _; discriminate]]|]).
  constructor.
Defined.

(** C1, witness: a series of two siblings, both with a product id. *)
Lemma ViuOTTIE_expansion_depth_one_witness :
  exists p,
    @ViuOTTIE_real_extract (series_host siblings_two) series_url = Ok (Playlist p)
    /\ List.length (entries p) = 2%nat
    /\ (forall (H' : Host) (e : url_result),
          In e (entries p) ->
          is_playlist (@ViuOTTIE_real_extract H' (ref_url e)) = false).
Proof.
  assert (Hv : series_current <> []) by discriminate.
  assert (Hs : siblings_two <> []) by discriminate.
  destruct (ViuOTTIE_expansion_depth_one (series_host siblings_two) series_url
              "hk" "zh-hk" "68776" (series_reply siblings_two)
              (series_data siblings_two) series_current (series_of siblings_two)
              siblings_two eq_refl eq_refl eq_refl eq_refl eq_refl Hv eq_refl eq_refl
              Hs siblings_two_ok)
    as (p & Hp & Hlen & _ & _ & Hstop).
  exists p. split; [exact Hp|]. split; [exact Hlen|exact Hstop].
Defined.


(** C1, counterexample: a series of two siblings, the second without
    product id, resolved with expansion enabled; the playlist has one
    entry, not two. *)
Lemma ViuOTTIE_sibling_without_id :
  @ViuOTTIE_real_extract (series_host siblings_one_without_id) series_url
  = Ok (Playlist
          {| entries :=
               [ {| ref_url := smuggle_url "http://www.viu.com/ott/hk/zh-hk/vod/68776/"
                                 suppress_data;
                    ref_ie := "ViuOTT";
                    ref_video_id := JStr "68776";
                    ref_video_title := JStr "One" |} ];
             playlist_id := Some (JStr "3916");
             playlist_title := Some (JStr "Mom");
             playlist_description := None |}).
Proof. reflexivity. Qed.

(** ** ViuTVIE: DRM and tags *)

Lemma ViuTVIE_title_ok (H : Host) (meta ep : list (string * json)) :
  exists t, ViuTVIE_title (JObj meta) (JObj ep) = Ok t.
Proof.
  unfold ViuTVIE_title. cbn [dict_get bind].
  destruct (truthy _); [eexists; reflexivity|].
  destruct (truthy _); eexists; reflexivity.
Qed.

Lemma ViuTVIE_tag_step_ok (acc : list json) (x : json) :
  is_object x = true ->
  ViuTVIE_tag_step acc x
  = Ok (if truthy (field "name" x) then acc ++ [field "name" x] else acc)%list.
Proof.
  destruct x; try discriminate. intros _.
  unfold ViuTVIE_tag_step. cbn [dict_get bind field].
  destruct (truthy _); reflexivity.
Qed.

(** what the coercion of the tags does on the shapes it handles: the
    names of a list of objects, None for anything that is not a list *)
Lemma ViuTVIE_tags_handled (tags : json) :
  tags_ok tags ->
  ViuTVIE_tags tags
  = Ok (match tags with
        | JArr l => JArr (map (field "name") (filter (fun x => truthy (field "name" x)) l))
        | _ => JNull
        end).
Proof.
  intro Hok. destruct tags as [| | | |l|]; try reflexivity.
  unfold ViuTVIE_tags.
  rewrite (for_each_collect ViuTVIE_tag_step
             (fun x => truthy (field "name" x)) (field "name")).
  - reflexivity.
  - intros acc x Hx. apply ViuTVIE_tag_step_ok.
    simpl in Hok. rewrite Forall_forall in Hok. now apply Hok.
Qed.

(** C3, as the code has it.  In the resolution of one episode, once
    getVodURL has given a manifest and the extraction of its formats an
    empty list: a truthy (non-empty) drmToken raises the expected
    ExtractorError 'This video is DRM protected.'; with a missing or
    falsy (empty) drmToken nothing is raised for DRM, and no info dict
    is returned either: the rest of the episode record is read (see
    [episode_ok]), then _sort_formats is run on the empty list, and the
    error it raises there - 'No video formats found', which is not an
    expected one - is the outcome. *)
Theorem ViuTVIE_drm_policy (H : Host)
    (product_data ep_data product_id program_title get_vod_data : json)
    (vod : list (string * json)) (manifest : json) (others : list json)
    (found : json) :
  get_vod_data = JObj vod ->
  iterate (field "asset" get_vod_data) = Ok (manifest :: others) ->
  truthy manifest = true ->
  ViuTVIE_formats manifest product_id = Ok found ->
  truthy found = false ->
  (truthy (field "drmToken" get_vod_data) = true ->
   ViuTVIE_stream product_data ep_data product_id program_title get_vod_data
   = Raise (ExtractorError "This video is DRM protected." true JNull))
  /\ (truthy (field "drmToken" get_vod_data) = false ->
      episode_ok ep_data ->
      forall e,
        sort_formats found = Raise e ->
        ViuTVIE_stream product_data ep_data product_id program_title get_vod_data
        = Raise e).
Proof.
  intros -> Hasset Hm Hf Hempty.
  assert (Ei : iterate (match assoc "asset" vod with Some v => v | None => JArr [] end)
               = Ok (manifest :: others)).
  { unfold field in Hasset. destruct (assoc "asset" vod); [exact Hasset|discriminate]. }
  unfold ViuTVIE_stream. cbn [dict_get bind field]. rewrite Ei. cbn [bind].
  rewrite Hm. cbn [negb]. rewrite Hf. cbn [bind]. rewrite Hempty. cbn [negb andb].
  split.
  - intro Hd. cbn [field] in Hd. now rewrite Hd.
  - intros Hd (ep & -> & Hsub & Hmeta) e Hsort. cbn [field] in Hd. rewrite Hd.
    assert (Es : exists subs, ViuTVIE_subtitles (JObj ep) product_id = Ok subs).
    { unfold ViuTVIE_subtitles. cbn [dict_get bind].
      destruct Hsub as [-> | (s & ->)]; eexists; reflexivity. }
    destruct Es as (subs & Es). rewrite Es. cbn [bind dict_get].
    destruct Hmeta as [-> | (meta & -> & Htags)].
    + destruct (ViuTVIE_title_ok H [] ep) as (t & Et). rewrite Et. cbn [bind dict_get assoc].
      change (ViuTVIE_tags JNull) with (@Ok json JNull). cbn [bind].
      rewrite Hsort. reflexivity.
    + destruct (ViuTVIE_title_ok H meta ep) as (t & Et). rewrite Et. cbn [bind dict_get].
      unfold field in Htags. rewrite (ViuTVIE_tags_handled _ Htags). cbn [bind].
      rewrite Hsort. reflexivity.
Qed.

(** C3, witness: a manifest without formats and no DRM token; the
    error is the one of _sort_formats. *)
Lemma ViuTVIE_drm_policy_witness :
  @ViuTVIE_real_extract
    (tv_host (episode_with [("productSubtitle", JStr "Chinese,English")]) vod_plain (JArr []))
    tv_url
  = Raise (ExtractorError "No video formats found" false JNull).
Proof.
  assert (Hep : episode_ok (episode_with [("productSubtitle", JStr "Chinese,English")])).
  { eexists. split; [reflexivity|]. split; [right; eexists; reflexivity|now left]. }
  exact (proj2 (ViuTVIE_drm_policy
                  (tv_host (episode_with [("productSubtitle", JStr "Chinese,English")])
                     vod_plain (JArr []))
                  (JObj [("programmeId", JStr "201912050000001");
                         ("title", JStr "Leap Day");
                         ("slug", JStr "leap-day");
                         ("episodes",
                          JArr [episode_with [("productSubtitle", JStr "Chinese,English")]])])
                  (episode_with [("productSubtitle", JStr "Chinese,English")])
                  (JStr "202002281024764") (JStr "Leap Day") vod_plain
                  [("asset", JArr [JStr "https://cdn.viu.tv/a/index.m3u8"])]
                  (JStr "https://cdn.viu.tv/a/index.m3u8") [] (JArr [])
                  eq_refl eq_refl eq_refl eq_refl eq_refl)
           eq_refl Hep _ eq_refl).
Defined.

(** C3, counterexample: an episode whose record is in order, a manifest
    in which no format is found, and no DRM token.  No info dict with
    empty formats is returned: _sort_formats refuses the empty list. *)
Lemma ViuTVIE_no_drm_no_formats :
  @ViuTVIE_real_extract (tv_host (episode_with []) vod_plain (JArr [])) tv_url
  = Raise (ExtractorError "No video formats found" false JNull).
Proof. reflexivity. Qed.

(** with a DRM token, the same episode raises the expected error *)
Example ViuTVIE_drm_no_formats :
  @ViuTVIE_real_extract (tv_host (episode_with []) vod_drm (JArr [])) tv_url
  = Raise (ExtractorError "This video is DRM protected." true JNull).
Proof. reflexivity. Qed.

(** a productSubtitle that is null: [None.split] raises AttributeError
    before the formats are sorted *)
Example ViuTVIE_null_subtitle :
  @ViuTVIE_real_extract
    (tv_host (episode_with [("productSubtitle", JNull)]) vod_plain (JArr []))
    tv_url
  = Raise AttributeError.
Proof. reflexivity. Qed.

(** C6: the tags ["drama"], a list that does not hold objects.  [x.get]
    raises AttributeError, which [except TypeError] does not catch: the
    coercion raises, and so does the resolution of the episode, whose
    manifest has a format and no DRM. *)
Theorem ViuTVIE_tags_list_of_strings :
  ViuTVIE_tags (JArr [JStr "drama"]) = Raise AttributeError
  /\ @ViuTVIE_real_extract
       (tv_host (episode_with [("videoMeta", JObj [("title", JStr "Episode 2");
                                                  ("tags", JArr [JStr "drama"])])])
          vod_plain (JArr [some_format]))
       tv_url
     = Raise AttributeError
  /\ is_ok (@ViuTVIE_real_extract
              (tv_host (episode_with [("videoMeta", JObj [("title", JStr "Episode 2");
                                                         ("tags", JStr "drama")])])
                 vod_plain (JArr [some_format]))
              tv_url)
     = true.
Proof. repeat split. Qed.

(** * More of viu.py *)

(** ** Dicts held as association lists *)

Lemma assoc_dict_set {V : Type} (k k' : string) (v : V) (d : list (string * V)) :
  assoc k (dict_set k' v d) = if (k' =? k)%string then Some v else assoc k d.
Proof.
  induction d as [|[k0 v0] d IH]; cbn [dict_set assoc].
  - destruct (k' =? k)%string; reflexivity.
  - destruct (k0 =? k')%string eqn:E0; cbn [assoc].
    + apply String.eqb_eq in E0; subst k0. destruct (k' =? k)%string; reflexivity.
    + rewrite IH. destruct (k0 =? k)%string eqn:E1; [|reflexivity].
      apply String.eqb_eq in E1; subst k0. rewrite String.eqb_sym, E0. reflexivity.
Qed.

Lemma assoc_not_in {V : Type} (k : string) (d : list (string * V)) :
  ~ In k (map fst d) -> assoc k d = None.
Proof.
  induction d as [|[k0 v0] d IH]; cbn [assoc map fst]; intro Hn; [reflexivity|].
  destruct (k0 =? k)%string eqn:E.
  - apply String.eqb_eq in E. exfalso. apply Hn. now left.
  - apply IH. intro Hi. apply Hn. now right.
Qed.

Lemma assoc_dict_update {V : Type} (k : string) (e d : list (string * V)) :
  NoDup (map fst e) ->
  assoc k (dict_update d e)
  = match assoc k e with Some v => Some v | None => assoc k d end.
Proof.
  unfold dict_update. revert d.
  induction e as [|[k1 v1] e IH]; intros d Hnd; [reflexivity|].
  cbn [fold_left fst snd map] in *. inversion Hnd as [|? ? Hnot Hrest]; subst.
  rewrite (IH _ Hrest), assoc_dict_set. cbn [assoc].
  destruct (k1 =? k)%string eqn:E; [|reflexivity].
  apply String.eqb_eq in E; subst k1. now rewrite (assoc_not_in k e Hnot).
Qed.

(** ** ViuBaseIE: the request and the reply of _call_api *)

(** X1.  The headers of every request of [_call_api]: a header the
    caller passes wins, then X-VIU-AUTH is the token of the session,
    and every other header is the one of geo_verification_headers; the
    URL is the API root followed by the path and the query is the
    caller's. *)
Theorem call_api_request_headers (H : Host) (auth_token : json) (path : string)
    (query kw_headers : list (string * json)) (name : string) :
  NoDup (map fst kw_headers) ->
  assoc name (req_headers (call_api_request auth_token path query kw_headers))
  = match assoc name kw_headers with
    | Some v => Some v
    | None =>
        if ("X-VIU-AUTH" =? name)%string then Some auth_token
        else assoc name geo_verification_headers
    end
  /\ req_url (call_api_request auth_token path query kw_headers)
     = "https://www.viu.com/api/" ++ path
  /\ req_query (call_api_request auth_token path query kw_headers) = query
  /\ req_data (call_api_request auth_token path query kw_headers) = None.
Proof.
  intro Hnd. unfold call_api_request. cbn [req_headers req_url req_query req_data].
  split; [|repeat split].
  rewrite (assoc_dict_update name kw_headers _ Hnd).
  destruct (assoc name kw_headers); [reflexivity|].
  rewrite assoc_dict_update by (repeat constructor; intros []).
  cbn [assoc]. destruct ("X-VIU-AUTH" =? name)%string; reflexivity.
Qed.

(** X1, witness: the caller passes a Referer and no token. *)
Lemma call_api_request_headers_witness :
  assoc "X-VIU-AUTH"
    (req_headers (@call_api_request (Demo.host [] (Demo.always JNull) (JArr []))
                    (JStr "token") "clip/load" [] [("Referer", JStr "https://www.viu.com/")]))
  = Some (JStr "token").
Proof.
  assert (Hnd : NoDup (map fst [("Referer", JStr "https://www.viu.com/")]))
    by (repeat constructor; intros []).
  exact (proj1 (call_api_request_headers (Demo.host [] (Demo.always JNull) (JArr []))
                  (JStr "token") "clip/load" [] [("Referer", JStr "https://www.viu.com/")]
                  "X-VIU-AUTH" Hnd)).
Defined.

(** X2.  What [_call_api] returns is an object whose status is
    'success', the one the envelope holds under response; a failure of
    the download is raised as it is, and an envelope without response
    raises KeyError. *)
Theorem call_api_returns_success (H : Host) (ie_name : string) (auth_token : json)
    (path : string) (query kw_headers : list (string * json)) :
  (forall response,
      call_api ie_name auth_token path query kw_headers = Ok response ->
      exists envelope fields,
        download_json (call_api_request auth_token path query kw_headers) = Ok envelope
        /\ getitem envelope "response" = Ok response
        /\ response = JObj fields
        /\ assoc "status" fields = Some (JStr "success"))
  /\ (forall e,
        download_json (call_api_request auth_token path query kw_headers) = Raise e ->
        call_api ie_name auth_token path query kw_headers = Raise e)
  /\ (forall fields,
        download_json (call_api_request auth_token path query kw_headers) = Ok (JObj fields) ->
        assoc "response" fields = None ->
        call_api ie_name auth_token path query kw_headers
        = Raise (KeyError (JStr "response"))).
Proof.
  unfold call_api. split; [|split].
  - intros response Hr.
    destruct (download_json _) as [envelope|] eqn:Ed; [|discriminate].
    cbn [bind] in Hr. unfold unwrap_envelope in Hr.
    destruct (getitem envelope "response") as [r|] eqn:Eg; [|discriminate].
    cbn [bind] in Hr.
    destruct r as [| | | | |fields]; try discriminate.
    cbn [dict_get bind] in Hr.
    destruct (str_is _ "success") eqn:Es; cbn [negb] in Hr.
    + inversion Hr; subst. exists envelope, fields.
      repeat split; try assumption.
      destruct (assoc "status" fields) as [st|]; [|discriminate].
      now rewrite (str_is_success_inv st Es).
    + destruct (getitem (JObj fields) "message"); discriminate.
  - intros e ->. reflexivity.
  - intros fields -> Hn. cbn [bind]. unfold unwrap_envelope. cbn [getitem].
    now rewrite Hn.
Qed.

(** ** ViuIE: what the subtitle dict keeps *)

Lemma setdefault_append_keys (k : string) (t : subtitle_track) (m : subtitle_map string)
    (k' : string) :
  In k' (map fst (setdefault_append String.eqb k t m)) -> k' = k \/ In k' (map fst m).
Proof.
  induction m as [|[k0 ts] m IH]; cbn [setdefault_append map fst In].
  - intros [E|[]]. now left.
  - destruct (k0 =? k)%string; cbn [map fst In].
    + intros [E|Hi]; right; [now left|now right].
    + intros [E|Hi]; [right; now left|].
      destruct (IH Hi) as [E|Hi']; [now left|right; now right].
Qed.

Lemma setdefault_append_nodup (k : string) (t : subtitle_track) (m : subtitle_map string) :
  NoDup (map fst m) -> NoDup (map fst (setdefault_append String.eqb k t m)).
Proof.
  induction m as [|[k0 ts] m IH]; cbn [setdefault_append map fst]; intro Hnd.
  - repeat constructor. intros [].
  - inversion Hnd as [|? ? Hnot Hrest]; subst.
    destruct (k0 =? k)%string eqn:E; cbn [map fst]; [now constructor|].
    constructor; [|now apply IH].
    intro Hi. apply setdefault_append_keys in Hi as [Ek|Hi]; [|contradiction].
    subst k0. now rewrite String.eqb_refl in E.
Qed.

Lemma setdefault_append_count (k : string) (t : subtitle_track) (m : subtitle_map string) :
  track_count (setdefault_append String.eqb k t m) = S (track_count m).
Proof.
  unfold track_count.
  induction m as [|[k0 ts] m IH]; cbn [setdefault_append map snd List.concat];
    [reflexivity|].
  destruct (k0 =? k)%string; cbn [map snd List.concat].
  - rewrite !length_app. cbn [List.length]. lia.
  - rewrite !length_app, IH. lia.
Qed.

Lemma setdefault_append_forall (P : subtitle_track -> Prop) (k : string)
    (t : subtitle_track) (m : subtitle_map string) :
  P t ->
  Forall (fun p => snd p <> [] /\ Forall P (snd p)) m ->
  Forall (fun p => snd p <> [] /\ Forall P (snd p)) (setdefault_append String.eqb k t m).
Proof.
  intros Ht. induction 1 as [|[k0 ts] m [Hne Hts] Hm IH]; cbn [setdefault_append].
  - repeat constructor; [discriminate|assumption].
  - destruct (k0 =? k)%string; constructor; cbn [snd] in *; try assumption.
    + split; [destruct ts; discriminate|].
      apply Forall_app. split; [assumption|now repeat constructor].
    + now split.
Qed.

Lemma match_subtitle_key_ext (key lang ext : string) :
  match_subtitle_key key = Some (lang, ext) -> ext = "vtt" \/ ext = "srt".
Proof.
  intro E. apply match_subtitle_key_iff in E as (tail & _ & _ & _ & Hext). exact Hext.
Qed.

Lemma ViuIE_subtitles_keep (fields : list (string * json)) (m : subtitle_map string) :
  NoDup (map fst m) ->
  Forall (fun p => snd p <> [] /\ Forall vtt_or_srt (snd p)) m ->
  let m' := fold_left ViuIE_subtitle_step fields m in
  NoDup (map fst m')
  /\ Forall (fun p => snd p <> [] /\ Forall vtt_or_srt (snd p)) m'
  /\ track_count m'
     = (track_count m + List.length (filter is_subtitle_field fields))%nat.
Proof.
  revert m; induction fields as [|[key value] fields IH]; intros m Hnd Hall; cbn zeta.
  - cbn [fold_left filter List.length]. repeat split; try assumption. lia.
  - cbn [fold_left filter]. unfold ViuIE_subtitle_step at 2 4 6, is_subtitle_field at 1.
    cbn [fst snd].
    destruct (match_subtitle_key key) as [[lang ext]|] eqn:Ek.
    + destruct (IH (setdefault_append String.eqb lang
                      {| sub_url := value; sub_ext := ext |} m)) as (H1 & H2 & H3).
      * now apply setdefault_append_nodup.
      * apply setdefault_append_forall; [|assumption].
        exact (match_subtitle_key_ext key lang ext Ek).
      * repeat split; try assumption.
        rewrite H3, setdefault_append_count. cbn [List.length]. lia.
    + destruct (IH m Hnd Hall) as (H1 & H2 & H3). repeat split; assumption.
Qed.

(** X3.  The subtitle dict of ViuIE never names a language twice, never
    holds a language without track, holds only tracks whose extension
    is vtt or srt, and holds as many tracks as the item has fields whose
    key the pattern accepts. *)
Theorem ViuIE_subtitles_invariant (fields : list (string * json)) :
  NoDup (map fst (ViuIE_subtitles fields))
  /\ Forall (fun p => snd p <> [] /\ Forall vtt_or_srt (snd p)) (ViuIE_subtitles fields)
  /\ track_count (ViuIE_subtitles fields)
     = List.length (filter is_subtitle_field fields).
Proof.
  unfold ViuIE_subtitles.
  destruct (ViuIE_subtitles_keep fields [] (NoDup_nil _) (Forall_nil _)) as (H1 & H2 & H3).
  repeat split; assumption.
Qed.

(** ** ViuIE: what a result holds *)

(** X4.  A result of ViuIE is never a playlist: it is the info dict of
    the first item of the payload, with the id of the URL, the title of
    the item as title and as episode, no thumbnail, and the formats the
    host sorted after finding them in the manifest the item names. *)
Theorem ViuIE_video_result (H : Host) (video_id : string) (response : json)
    (r : extraction string) :
  ViuIE_video video_id response = Ok r ->
  exists info fields rest manifest found,
    r = Video info
    /\ getitem response "item" = Ok (JArr (JObj fields :: rest))
    /\ id info = JStr video_id
    /\ assoc "title" fields = Some (title info)
    /\ @episode _ info = title info
    /\ @thumbnail _ info = None
    /\ ViuIE_m3u8_url (JObj fields) = Ok manifest
    /\ extract_m3u8_formats manifest (JStr video_id) "mp4" None None = Ok found
    /\ sort_formats found = Ok (formats info)
    /\ subtitles info = ViuIE_subtitles fields.
Proof.
  unfold ViuIE_video. intro Hr.
  destruct (getitem response "item") as [item|] eqn:Ei; [|discriminate].
  cbn [bind] in Hr.
  destruct (getitem0 item) as [video_data|] eqn:E0; [|discriminate].
  cbn [bind] in Hr.
  destruct (getitem video_data "title") as [t|] eqn:Et; [|discriminate].
  cbn [bind] in Hr.
  destruct video_data as [| | | | |fields]; try discriminate.
  destruct item as [| | |s|l|]; try discriminate.
  { destruct s; discriminate. }
  destruct l as [|x rest]; [discriminate|]. inversion E0; subst x.
  destruct (ViuIE_m3u8_url (JObj fields)) as [manifest|] eqn:Em; [|discriminate].
  cbn [bind] in Hr.
  destruct (extract_m3u8_formats _ _ _ _ _) as [found|] eqn:Ef; [|discriminate].
  cbn [bind] in Hr.
  destruct (sort_formats found) as [sorted|] eqn:Es; [|discriminate].
  cbn [bind items dict_get] in Hr. inversion Hr; subst r.
  exists {| id := JStr video_id; title := t;
            description := match assoc "description" fields with Some v => v | None => JNull end;
            series := match assoc "moviealbumshowname" fields with Some v => v | None => JNull end;
            episode := t;
            episode_number := int_or_none (match assoc "episodeno" fields with Some v => v | None => JNull end);
            duration := int_or_none (match assoc "duration" fields with Some v => v | None => JNull end);
            thumbnail := None; formats := sorted;
            subtitles := ViuIE_subtitles fields; extra := [] |},
    fields, rest, manifest, found.
  cbn [id title episode thumbnail formats subtitles].
  cbn [getitem] in Et. destruct (assoc "title" fields) as [t'|] eqn:Et'; [|discriminate].
  inversion Et; subst t'.
  repeat split; assumption.
Qed.

(** X4, witness: the payload of one item, on the demo host. *)
Lemma ViuIE_video_result_witness :
  exists info,
    @ViuIE_video (Demo.host [] (Demo.always JNull) (JArr [some_format]))
      "1116705532" clip_payload = Ok (Video info)
    /\ id info = JStr "1116705532"
    /\ formats info = JArr [some_format].
Proof.
  destruct (ViuIE_video_result (Demo.host [] (Demo.always JNull) (JArr [some_format]))
              "1116705532" clip_payload _ eq_refl)
    as (info & fields & rest & manifest & found & Hr & _ & Hid & _ & _ & _ & _ & Hf & Hs & _).
  exists info. split; [|split].
  - now inversion Hr.
  - exact Hid.
  - cbn in Hf, Hs. inversion Hf; subst found. now inversion Hs.
Defined.

(** ** ViuPlaylistIE: the references and ViuIE *)

Lemma for_each_inv {A S : Type} (P : S -> Prop) (step : S -> A -> result S)
    (xs : list A) :
  (forall s x s', P s -> step s x = Ok s' -> P s') ->
  forall s r, P s -> for_each step xs s = Ok r -> P r.
Proof.
  intro Hstep. induction xs as [|x xs IH]; intros s r Hs Hr; cbn [for_each] in Hr.
  - now inversion Hr; subst.
  - destruct (step s x) as [s'|] eqn:Es; [|discriminate]. cbn [bind] in Hr.
    exact (IH s' r (Hstep s x s' Hs Es) Hr).
Qed.

Lemma span_all (cls : ascii -> bool) (s : string) :
  all_chars cls s = true -> Str.span cls s = (s, EmptyString).
Proof.
  induction s as [|c s IH]; simpl; intro E; [reflexivity|].
  apply andb_true_iff in E as [Ec Es]. now rewrite Ec, (IH Es).
Qed.

Lemma leading_digits_all (d : string) :
  d <> EmptyString -> all_chars Str.is_digit d = true -> leading_digits d = Some d.
Proof.
  intros Hne Hd. unfold leading_digits, Str.span1. rewrite (span_all _ d Hd).
  destruct d; [contradiction|reflexivity].
Qed.

(** the scheme viu: followed by digits is a URL of ViuIE, of that id *)
Lemma ViuIE_match_id_scheme (d : string) :
  d <> EmptyString -> all_chars Str.is_digit d = true ->
  ViuIE_match_id ("viu:" ++ d) = Some d.
Proof.
  intros Hne Hd. unfold ViuIE_match_id. rewrite drop_prefix_app.
  now apply leading_digits_all.
Qed.

Lemma ViuPlaylistIE_ref_is_reference (H : Host) (item_id : json) :
  viu_reference (ViuPlaylistIE_ref item_id).
Proof.
  unfold viu_reference, ViuPlaylistIE_ref. cbn.
  repeat split. exists (py_str item_id). repeat split.
  apply ViuIE_match_id_scheme.
Qed.

Lemma for_each_length {A B : Type} (step : list B -> A -> result (list B))
    (xs : list A) :
  (forall s x s', step s x = Ok s' -> (List.length s' <= S (List.length s))%nat) ->
  forall s r, for_each step xs s = Ok r ->
    (List.length r <= List.length s + List.length xs)%nat.
Proof.
  intro Hstep. induction xs as [|x xs IH]; intros s r Hr; cbn [for_each] in Hr.
  - inversion Hr; subst. lia.
  - destruct (step s x) as [s'|] eqn:Es; [|discriminate]. cbn [bind] in Hr.
    specialize (IH s' r Hr). specialize (Hstep s x s' Es). cbn [List.length]. lia.
Qed.

Lemma ViuPlaylistIE_entry_step_inv (H : Host) (acc : list url_result) (item : json)
    (acc' : list url_result) :
  ViuPlaylistIE_entry_step acc item = Ok acc' ->
  acc' = acc \/ exists item_id, acc' = (acc ++ [ViuPlaylistIE_ref item_id])%list.
Proof.
  unfold ViuPlaylistIE_entry_step. destruct item; try discriminate.
  cbn [dict_get bind]. destruct (truthy _); cbn [negb]; intro E; inversion E.
  - right. eexists. reflexivity.
  - now left.
Qed.

(** X5.  A result of ViuPlaylistIE is never a single video: it is a
    playlist of the id of the URL, without description, with the title
    of the container when that is truthy and without title otherwise,
    of at most as many entries as the reply has items; every entry
    refers to ViuIE by a URL viu:<id> that carries <id> as its video id
    and nothing smuggled, and ViuIE accepts that URL and reads <id> back
    whenever <id> is made of digits. *)
Theorem ViuPlaylistIE_result (H : Host) (pid : string) (response : json)
    (r : extraction string) :
  ViuPlaylistIE_playlist pid response = Ok r ->
  exists p its,
    r = Playlist p
    /\ playlist_id p = if_truthy (JStr pid)
    /\ (pid <> EmptyString -> playlist_id p = Some (JStr pid))
    /\ playlist_description p = None
    /\ playlist_title p = if_truthy (field "title" (field "container" response))
    /\ (truthy (field "title" (field "container" response)) = false ->
        playlist_title p = None)
    /\ iterate (match field "container" response with
                | JObj c => match assoc "item" c with Some v => v | None => JArr [] end
                | _ => JNull
                end) = Ok its
    /\ (List.length (entries p) <= List.length its)%nat
    /\ Forall viu_reference (entries p).
Proof.
  unfold ViuPlaylistIE_playlist. intro Hr.
  destruct response as [| | | | |fields]; try discriminate.
  cbn [getitem field] in *.
  destruct (assoc "container" fields) as [pd|]; [|discriminate]. cbn [bind] in Hr.
  destruct pd as [| | | | |c]; try discriminate. cbn [dict_get bind] in Hr.
  destruct (iterate _) as [its|] eqn:Ei; [|discriminate]. cbn [bind] in Hr.
  destruct (for_each ViuPlaylistIE_entry_step its []) as [es|] eqn:Ee; [|discriminate].
  cbn [bind] in Hr. inversion Hr; subst r.
  eexists. exists its.
  split; [reflexivity|].
  cbn [playlist_id playlist_description playlist_title entries playlist_result].
  split; [reflexivity|].
  split; [intro Hne; destruct pid; [contradiction|reflexivity]|].
  split; [reflexivity|]. split; [reflexivity|].
  split; [intro Ht; cbn [field] in Ht; unfold if_truthy; now rewrite Ht|].
  split; [reflexivity|]. split.
  - apply (for_each_length ViuPlaylistIE_entry_step its) with (s := []) (r := es);
      [|exact Ee].
    intros s x s' Es. apply ViuPlaylistIE_entry_step_inv in Es as [->|(i & ->)].
    + lia.
    + rewrite length_app. cbn [List.length]. lia.
  - apply (for_each_inv (Forall viu_reference) ViuPlaylistIE_entry_step its)
      with (s := []) (r := es); [|constructor|exact Ee].
    intros s x s' Hs Es. apply ViuPlaylistIE_entry_step_inv in Es as [->|(i & ->)].
    + exact Hs.
    + apply Forall_app. split; [exact Hs|].
      constructor; [apply ViuPlaylistIE_ref_is_reference|constructor].
Qed.

(** X5, witness: the playlist of five items. *)
Lemma ViuPlaylistIE_result_witness :
  exists p,
    @ViuPlaylistIE_playlist (Demo.host [] (Demo.always JNull) (JArr []))
      "22461380" playlist_of_five = Ok (Playlist p)
    /\ Forall viu_reference (entries p).
Proof.
  destruct (ViuPlaylistIE_result (Demo.host [] (Demo.always JNull) (JArr []))
              "22461380" playlist_of_five _ eq_refl)
    as (p & its & Hr & _ & _ & _ & _ & _ & _ & _ & Hall).
  exists p. split; [now inversion Hr|exact Hall].
Defined.

Lemma uint_digits (d : Decimal.uint) :
  all_chars Str.is_digit (NilEmpty.string_of_uint d) = true.
Proof. induction d; simpl; try reflexivity; assumption. Qed.

Lemma of_Z_digits (z : Z) :
  0 <= z -> Str.of_Z z <> EmptyString /\ all_chars Str.is_digit (Str.of_Z z) = true.
Proof.
  intro Hz. unfold Str.of_Z. destruct z as [|p|p]; [| |lia].
  - split; [discriminate|reflexivity].
  - cbn [Z.to_int NilZero.string_of_int]. unfold NilZero.string_of_uint.
    pose proof (uint_digits (Pos.to_uint p)) as Hd.
    destruct (Pos.to_uint p); (split; [discriminate|first [reflexivity|exact Hd]]).
Qed.

(** X6.  An item whose id is a positive integer is kept, and its
    reference is a URL of ViuIE whose id is the decimal text of the
    integer: what [compat_str] writes, the pattern of ViuIE reads back. *)
Theorem ViuPlaylistIE_integer_id (H : Host) (acc : list url_result)
    (fields : list (string * json)) (z : Z) :
  assoc "id" fields = Some (JNum z) ->
  0 < z ->
  exists e,
    ViuPlaylistIE_entry_step acc (JObj fields) = Ok (acc ++ [e])%list
    /\ ref_video_id e = JStr (Str.of_Z z)
    /\ ViuIE_match_id (url_text (ref_url e)) = Some (Str.of_Z z).
Proof.
  intros Hid Hz. unfold ViuPlaylistIE_entry_step. cbn [dict_get bind]. rewrite Hid.
  assert (Et : truthy (JNum z) = true).
  { cbn [truthy]. destruct (z =? 0) eqn:E; [|reflexivity]. apply Z.eqb_eq in E. lia. }
  rewrite Et. cbn [negb]. eexists. split; [reflexivity|].
  cbn [ref_video_id ref_url plain_url url_text py_str]. split; [reflexivity|].
  destruct (of_Z_digits z) as [Hne Hd]; [lia|].
  now apply ViuIE_match_id_scheme.
Qed.

(** X6, witness: the id 13. *)
Lemma ViuPlaylistIE_integer_id_witness :
  exists e,
    @ViuPlaylistIE_entry_step (Demo.host [] (Demo.always JNull) (JArr []))
      [] (JObj [("id", JNum 13)]) = Ok [e]
    /\ ViuIE_match_id (url_text (ref_url e)) = Some "13".
Proof.
  destruct (ViuPlaylistIE_integer_id (Demo.host [] (Demo.always JNull) (JArr []))
              [] [("id", JNum 13)] 13 eq_refl eq_refl) as (e & He & _ & Hm).
  exists e. split; [exact He|exact Hm].
Defined.

(** ** ViuOTTIE: the branches of _real_extract *)

Lemma unsmuggle_url_text (u : url) (default : json) :
  fst (unsmuggle_url u default) = url_text u.
Proof. unfold unsmuggle_url. destruct (url_smuggled u); reflexivity. Qed.

Lemma ViuOTTIE_real_extract_unfold (H : Host) (u : url)
    (country_code lang_code video_id : string) (reply : json)
    (product_data : list (string * json)) :
  ViuOTTIE_match_url (url_text u) = Some (country_code, lang_code, video_id) ->
  download_json (ViuOTTIE_detail_request country_code video_id) = Ok reply ->
  getitem reply "data" = Ok (JObj product_data) ->
  ViuOTTIE_real_extract u
  = let video_data := field "current_product" (JObj product_data) in
    if negb (truthy video_data) then
      Raise (ExtractorError "This video is not available in your region." true JNull)
    else
      suppressed <- ViuOTTIE_suppressed (snd (unsmuggle_url u (JObj []))) ;;
      if negb suppressed then
        expanded <- ViuOTTIE_series country_code lang_code (JObj product_data) video_data ;;
        match expanded with
        | Some p => Ok (Playlist p)
        | None =>
            ViuOTTIE_single (url_text u) country_code video_id (JObj product_data) video_data
        end
      else ViuOTTIE_single (url_text u) country_code video_id (JObj product_data) video_data.
Proof.
  intros Hu Hd Hg. unfold ViuOTTIE_real_extract.
  assert (Eu : unsmuggle_url u (JObj [])
               = (url_text u, snd (unsmuggle_url u (JObj [])))).
  { unfold unsmuggle_url. destruct (url_smuggled u); reflexivity. }
  rewrite Eu, Hu, Hd. cbn [bind]. rewrite Hg. reflexivity.
Qed.

(** X7.  When the reply of index.php has no current product (missing,
    null or empty), ViuOTTIE raises the expected ExtractorError 'This
    video is not available in your region.', whatever the options, the
    smuggled data and the series of the reply. *)
Theorem ViuOTTIE_not_in_region (H : Host) (u : url)
    (country_code lang_code video_id : string) (reply : json)
    (product_data : list (string * json)) :
  ViuOTTIE_match_url (url_text u) = Some (country_code, lang_code, video_id) ->
  download_json (ViuOTTIE_detail_request country_code video_id) = Ok reply ->
  getitem reply "data" = Ok (JObj product_data) ->
  truthy (field "current_product" (JObj product_data)) = false ->
  ViuOTTIE_real_extract u
  = Raise (ExtractorError "This video is not available in your region." true JNull).
Proof.
  intros Hu Hd Hg Hc.
  rewrite (ViuOTTIE_real_extract_unfold H u _ _ _ _ _ Hu Hd Hg). cbn zeta.
  now rewrite Hc.
Qed.

(** X7, witness: a reply with a series and no current product. *)
Lemma ViuOTTIE_not_in_region_witness :
  @ViuOTTIE_real_extract (Demo.host [] (Demo.always region_reply) (JArr [])) series_url
  = Raise (ExtractorError "This video is not available in your region." true JNull).
Proof.
  exact (ViuOTTIE_not_in_region (Demo.host [] (Demo.always region_reply) (JArr []))
           series_url "hk" "zh-hk" "68776" region_reply [("series", JObj [])]
           eq_refl eq_refl eq_refl eq_refl).
Defined.

(** X8.  With the option noplaylist set, ViuOTTIE never returns a
    playlist, whatever the URL and the replies. *)
Theorem ViuOTTIE_noplaylist_honoured (H : Host) (u : url) :
  truthy noplaylist = true ->
  is_playlist (ViuOTTIE_real_extract u) = false.
Proof.
  intro Hn. unfold ViuOTTIE_real_extract.
  destruct (unsmuggle_url u (JObj [])) as [url_s idata].
  destruct (ViuOTTIE_match_url url_s) as [[[cc lc] vid]|]; [|reflexivity].
  apply is_playlist_bind; intro reply.
  apply is_playlist_bind; intro product_data.
  apply is_playlist_bind; intro video_data.
  destruct (negb (truthy video_data)); [reflexivity|].
  unfold ViuOTTIE_suppressed. rewrite Hn. cbn [bind negb].
  apply ViuOTTIE_single_is_video.
Qed.

(** X8, witness: a product of a series of two, with --no-playlist. *)
Lemma ViuOTTIE_noplaylist_honoured_witness :
  is_playlist (@ViuOTTIE_real_extract (noplaylist_host siblings_two) series_url) = false.
Proof.
  exact (ViuOTTIE_noplaylist_honoured (noplaylist_host siblings_two) series_url eq_refl).
Defined.

(** X9.  A product that is in no series (the reply has no series, or a
    series whose product list is missing, null or empty) is resolved as
    a single video even with expansion enabled: the result is the one
    of lines 273-324 and never a playlist. *)
Theorem ViuOTTIE_without_siblings (H : Host) (u : url)
    (country_code lang_code video_id : string) (reply : json)
    (product_data series : list (string * json)) :
  ViuOTTIE_match_url (url_text u) = Some (country_code, lang_code, video_id) ->
  download_json (ViuOTTIE_detail_request country_code video_id) = Ok reply ->
  getitem reply "data" = Ok (JObj product_data) ->
  truthy (field "current_product" (JObj product_data)) = true ->
  ViuOTTIE_suppressed (snd (unsmuggle_url u (JObj []))) = Ok false ->
  match assoc "series" product_data with Some v => v | None => JObj [] end = JObj series ->
  truthy (field "product" (JObj series)) = false ->
  ViuOTTIE_real_extract u
  = ViuOTTIE_single (url_text u) country_code video_id (JObj product_data)
      (field "current_product" (JObj product_data))
  /\ is_playlist (ViuOTTIE_real_extract u) = false.
Proof.
  intros Hu Hd Hg Hc Hs Hser Hp.
  assert (E : ViuOTTIE_real_extract u
              = ViuOTTIE_single (url_text u) country_code video_id (JObj product_data)
                  (field "current_product" (JObj product_data))).
  { rewrite (ViuOTTIE_real_extract_unfold H u _ _ _ _ _ Hu Hd Hg). cbn zeta.
    rewrite Hc, Hs. cbn [negb bind]. unfold ViuOTTIE_series. cbn [dict_get bind].
    rewrite Hser. cbn [dict_get bind]. cbn [field] in Hp. rewrite Hp. reflexivity. }
  split; [exact E|]. rewrite E. apply ViuOTTIE_single_is_video.
Qed.

(** X9, witness: a reply without series. *)
Lemma ViuOTTIE_without_siblings_witness :
  is_playlist (@ViuOTTIE_real_extract (Demo.host [] (Demo.always lonely_reply) (JArr []))
                 series_url) = false.
Proof.
  exact (proj2 (ViuOTTIE_without_siblings
                  (Demo.host [] (Demo.always lonely_reply) (JArr []))
                  series_url "hk" "zh-hk" "68776" lonely_reply lonely_data []
                  eq_refl eq_refl eq_refl eq_refl eq_refl eq_refl eq_refl)).
Defined.

(** ** ViuOTTIE: the URL of a sibling is a URL of ViuOTTIE *)

Lemma take_class_app (cls : ascii -> bool) (m r : string) :
  all_chars cls m = true ->
  Str.take_class cls (String.length m) (m ++ r) = Some (m, r).
Proof.
  induction m as [|c m IH]; simpl; intro E; [reflexivity|].
  apply andb_true_iff in E as [Ec Em]. now rewrite Ec, (IH Em).
Qed.

(** the groups of a URL of ViuOTTIE: two lower-case letters, and two
    pairs of lower-case letters around a dash *)
Lemma ViuOTTIE_match_url_groups (u country_code lang_code video_id : string) :
  ViuOTTIE_match_url u = Some (country_code, lang_code, video_id) ->
  all_chars Str.is_lower country_code = true
  /\ String.length country_code = 2%nat
  /\ (exists l1 l2,
        lang_code = l1 ++ "-" ++ l2
        /\ all_chars Str.is_lower l1 = true /\ String.length l1 = 2%nat
        /\ all_chars Str.is_lower l2 = true /\ String.length l2 = 2%nat)
  /\ video_id <> EmptyString
  /\ all_chars Str.is_digit video_id = true.
Proof.
  unfold ViuOTTIE_match_url. intro E.
  destruct (Str.drop_prefix "http" u) as [r0|]; [|discriminate].
  destruct (Str.drop_prefix "://" _) as [r1|]; [|discriminate].
  destruct (Str.drop_prefix "viu.com/ott/" _) as [r2|]; [|discriminate].
  destruct (Str.take_class Str.is_lower 2 r2) as [[cc r3]|] eqn:Ec; [|discriminate].
  destruct (Str.drop_prefix "/" r3) as [r4|]; [|discriminate].
  destruct (Str.take_class Str.is_lower 2 r4) as [[l1 r5]|] eqn:E1; [|discriminate].
  destruct (Str.drop_prefix "-" r5) as [r6|]; [|discriminate].
  destruct (Str.take_class Str.is_lower 2 r6) as [[l2 r7]|] eqn:E2; [|discriminate].
  destruct (Str.drop_prefix "/vod/" r7) as [r8|]; [|discriminate].
  destruct (Str.span1 Str.is_digit r8) as [[vid r9]|] eqn:Ed; [|discriminate].
  inversion E; subst.
  destruct (take_class_inv _ _ _ _ _ Ec) as (Ha & Hl & _).
  destruct (take_class_inv _ _ _ _ _ E1) as (Ha1 & Hl1 & _).
  destruct (take_class_inv _ _ _ _ _ E2) as (Ha2 & Hl2 & _).
  destruct (span1_inv _ _ _ _ Ed) as (_ & Hd & _ & Hne).
  repeat split; try assumption.
  exists l1, l2. repeat split; assumption.
Qed.

Lemma leading_digits_slash (d : string) :
  d <> EmptyString -> all_chars Str.is_digit d = true ->
  Str.span1 Str.is_digit (d ++ "/") = Some (d, "/").
Proof. intros Hne Hd. now apply span1_app. Qed.

Lemma ViuOTTIE_sibling_url_matches (country_code lang_code item_id : string) (l1 l2 : string) :
  all_chars Str.is_lower country_code = true -> String.length country_code = 2%nat ->
  lang_code = l1 ++ "-" ++ l2 ->
  all_chars Str.is_lower l1 = true -> String.length l1 = 2%nat ->
  all_chars Str.is_lower l2 = true -> String.length l2 = 2%nat ->
  ViuOTTIE_match_url (ViuOTTIE_sibling_url country_code lang_code item_id)
  = match Str.span1 Str.is_digit (item_id ++ "/") with
    | Some (d, _) => Some (country_code, lang_code, d)
    | None => None
    end.
Proof.
  intros Hc Hcl -> H1 H1l H2 H2l.
  change (ViuOTTIE_match_url (ViuOTTIE_sibling_url country_code (l1 ++ "-" ++ l2) item_id))
    with (ViuOTTIE_match_path
            (country_code ++ "/" ++ (l1 ++ "-" ++ l2) ++ "/vod/" ++ item_id ++ "/")).
  unfold ViuOTTIE_match_path.
  rewrite <- Hcl at 1. rewrite (take_class_app _ country_code _ Hc).
  rewrite drop_prefix_app, !append_assoc3.
  rewrite <- H1l at 1. rewrite (take_class_app _ l1 _ H1).
  rewrite drop_prefix_app.
  rewrite <- H2l at 1. rewrite (take_class_app _ l2 _ H2).
  rewrite drop_prefix_app.
  destruct (Str.span1 Str.is_digit (item_id ++ "/")) as [[d r]|]; reflexivity.
Qed.

(** X10.  The reference to a sibling is a URL of ViuOTTIE again: for
    the country and language of a URL ViuOTTIE accepted, and an id that
    is ASCII text, the URL of line 260 is accepted with the same country
    and language, and with the leading digits of the sibling's id as id
    (it is refused when the id does not start with a digit); for an id
    made of the digits 0 to 9 the id read back is the sibling's, and the
    smuggled data is the suppress flag. *)
Theorem ViuOTTIE_sibling_roundtrip (u : url) (country_code lang_code video_id : string)
    (item_id : string) (video_title : json) :
  ViuOTTIE_match_url (url_text u) = Some (country_code, lang_code, video_id) ->
  let e := ViuOTTIE_sibling_ref country_code lang_code item_id video_title in
  unsmuggle_url (ref_url e) (JObj [])
  = (ViuOTTIE_sibling_url country_code lang_code item_id, suppress_data)
  /\ (ascii_text item_id ->
      ViuOTTIE_match_url (ViuOTTIE_sibling_url country_code lang_code item_id)
      = match Str.span1 Str.is_digit (item_id ++ "/") with
        | Some (d, _) => Some (country_code, lang_code, d)
        | None => None
        end)
  /\ (item_id <> EmptyString -> all_chars Str.is_digit item_id = true ->
      ViuOTTIE_match_url (ViuOTTIE_sibling_url country_code lang_code item_id)
      = Some (country_code, lang_code, item_id)).
Proof.
  intros Hu e.
  destruct (ViuOTTIE_match_url_groups _ _ _ _ Hu)
    as (Hc & Hcl & (l1 & l2 & Hl & H1 & H1l & H2 & H2l) & _).
  pose proof (ViuOTTIE_sibling_url_matches country_code lang_code item_id l1 l2
                Hc Hcl Hl H1 H1l H2 H2l) as Hm.
  split; [reflexivity|]. split; [intros _; exact Hm|].
  intros Hne Hd. rewrite Hm, (leading_digits_slash item_id Hne Hd). reflexivity.
Qed.

(** X10, witness: the sibling 68777 of the series resolved at series_url. *)
Lemma ViuOTTIE_sibling_roundtrip_witness :
  ViuOTTIE_match_url (ViuOTTIE_sibling_url "hk" "zh-hk" "68777")
  = Some ("hk", "zh-hk", "68777").
Proof.
  refine (proj2 (proj2 (ViuOTTIE_sibling_roundtrip series_url "hk" "zh-hk" "68776"
                          "68777" JNull eq_refl)) _ eq_refl).
  discriminate.
Defined.

(** X11.  A sibling whose product id is ASCII text that does not start
    with a digit gets a reference that ViuOTTIE cannot resolve: the URL
    does not match the pattern and _real_extract raises AttributeError,
    before any request. *)
Theorem ViuOTTIE_sibling_not_numeric (H : Host) (u : url)
    (country_code lang_code video_id : string) (item_id : string) (video_title : json) :
  ViuOTTIE_match_url (url_text u) = Some (country_code, lang_code, video_id) ->
  ascii_text item_id ->
  Str.span1 Str.is_digit (item_id ++ "/") = None ->
  ViuOTTIE_real_extract
    (ref_url (ViuOTTIE_sibling_ref country_code lang_code item_id video_title))
  = Raise AttributeError.
Proof.
  intros Hu _ Hd.
  destruct (ViuOTTIE_match_url_groups _ _ _ _ Hu)
    as (Hc & Hcl & (l1 & l2 & Hl & H1 & H1l & H2 & H2l) & _).
  pose proof (ViuOTTIE_sibling_url_matches country_code lang_code item_id l1 l2
                Hc Hcl Hl H1 H1l H2 H2l) as Hm.
  rewrite Hd in Hm.
  unfold ViuOTTIE_real_extract, ViuOTTIE_sibling_ref, smuggle_url, unsmuggle_url.
  cbn [ref_url url_smuggled url_text].
  change ("http://www.viu.com/ott/" ++ country_code ++ "/" ++ lang_code
            ++ "/vod/" ++ item_id ++ "/")
    with (ViuOTTIE_sibling_url country_code lang_code item_id).
  now rewrite Hm.
Qed.

(** X11, witness: the product id 'abc'. *)
Lemma ViuOTTIE_sibling_not_numeric_witness :
  @ViuOTTIE_real_extract (series_host siblings_two)
    (ref_url (ViuOTTIE_sibling_ref "hk" "zh-hk" "abc" JNull))
  = Raise AttributeError.
Proof.
  exact (ViuOTTIE_sibling_not_numeric (series_host siblings_two) series_url
           "hk" "zh-hk" "68776" "abc" JNull eq_refl eq_refl eq_refl).
Defined.

(** ** ViuOTTIE: the Origin header *)

Lemma ViuOTTIE_match_url_prefix (u : string) (g : string * string * string) :
  ViuOTTIE_match_url u = Some g ->
  exists o path,
    viu_origin o /\ u = o ++ "/ott/" ++ path /\ ViuOTTIE_match_path path = Some g.
Proof.
  unfold ViuOTTIE_match_url. intro E.
  destruct (Str.drop_prefix "http" u) as [r0|] eqn:E0; [|discriminate].
  apply drop_prefix_inv in E0; subst u.
  unfold Str.drop_optional in E.
  destruct (Str.drop_prefix "s" r0) as [r0'|] eqn:Es;
    [apply drop_prefix_inv in Es; subst r0|];
    (destruct (Str.drop_prefix "://" _) as [r1|] eqn:E1; [|discriminate]);
    apply drop_prefix_inv in E1; subst;
    (destruct (Str.drop_prefix "www." r1) as [r1'|] eqn:Ew;
     [apply drop_prefix_inv in Ew; subst r1|]);
    (destruct (Str.drop_prefix "viu.com/ott/" _) as [r2|] eqn:E2; [|discriminate]);
    apply drop_prefix_inv in E2; subst;
    fold (ViuOTTIE_match_path r2) in E.
  - exists "https://www.viu.com", r2. unfold viu_origin. repeat split; auto.
  - exists "https://viu.com", r2. unfold viu_origin. repeat split; auto.
  - exists "http://www.viu.com", r2. unfold viu_origin. repeat split; auto.
  - exists "http://viu.com", r2. unfold viu_origin. repeat split; auto.
Qed.

(** X12.  For every URL ViuOTTIE accepts, [re.search] at line 284 finds
    an origin, so that [.group(0)] cannot fail there, and the Origin
    sent to the stream endpoint is the scheme and host of the URL: one
    of http(s)://viu.com and http(s)://www.viu.com. *)
Theorem ViuOTTIE_origin (u : string) (g : string * string * string) :
  ViuOTTIE_match_url u = Some g ->
  exists o path,
    search_origin u = Some o
    /\ viu_origin o
    /\ u = o ++ "/ott/" ++ path.
Proof.
  intro E. destruct (ViuOTTIE_match_url_prefix u g E) as (o & path & Ho & -> & _).
  exists o, path. split; [|split; [exact Ho|reflexivity]].
  destruct Ho as [-> | [-> | [-> | ->]]]; reflexivity.
Qed.

(** X12, witness: the URL of the first test of ViuOTTIE. *)
Lemma ViuOTTIE_origin_witness :
  exists o,
    search_origin "http://www.viu.com/ott/sg/en-us/vod/3421/The%20Prime%20Minister%20and%20I"
    = Some o
    /\ viu_origin o.
Proof.
  destruct (ViuOTTIE_origin
              "http://www.viu.com/ott/sg/en-us/vod/3421/The%20Prime%20Minister%20and%20I"
              ("sg", "en-us", "3421") eq_refl) as (o & path & Ho & Hv & _).
  exists o. split; [exact Ho|exact Hv].
Defined.

(** ** ViuOTTIE: heights and formats *)

Lemma height_at_inv (s d : string) :
  height_at s = Some d ->
  exists post,
    s = "s" ++ d ++ "p" ++ post /\ d <> EmptyString /\ all_chars Str.is_digit d = true.
Proof.
  unfold height_at. intro E.
  destruct (Str.drop_prefix "s" s) as [r|] eqn:E1; [|discriminate].
  destruct (Str.span1 Str.is_digit r) as [[digits r']|] eqn:E2; [|discriminate].
  destruct (Str.drop_prefix "p" r') as [post|] eqn:E3; [|discriminate].
  inversion E; subst digits.
  apply drop_prefix_inv in E1, E3. apply span1_inv in E2 as (E2 & Hd & _ & Hne).
  subst. exists post. repeat split; assumption.
Qed.

Lemma height_at_here (d post : string) :
  d <> EmptyString -> all_chars Str.is_digit d = true ->
  height_at ("s" ++ d ++ "p" ++ post) = Some d.
Proof.
  intros Hne Hd. unfold height_at. rewrite drop_prefix_app.
  rewrite (span1_app _ d ("p" ++ post) Hne Hd eq_refl).
  now rewrite drop_prefix_app.
Qed.

Lemma search_height_unfold (s : string) :
  search_height s
  = match height_at s with
    | Some d => Some d
    | None => match s with
              | EmptyString => None
              | String _ rest => search_height rest
              end
    end.
Proof. destruct s; reflexivity. Qed.

(** X13.  The height of a quality label: in a label that is ASCII text,
    [re.search(r's(\d+)p', label)] finds digits only between an s and a
    p of the label; in any label it finds some whenever the label holds
    an s, digits 0 to 9 and a p in a row, and finds the digits of a
    label that starts that way (s720p gives 720, hd gives nothing). *)
Theorem search_height_spec :
  (forall s d,
      ascii_text s ->
      search_height s = Some d ->
      exists pre post,
        s = pre ++ "s" ++ d ++ "p" ++ post
        /\ d <> EmptyString /\ all_chars Str.is_digit d = true)
  /\ (forall pre d post,
        d <> EmptyString -> all_chars Str.is_digit d = true ->
        search_height (pre ++ "s" ++ d ++ "p" ++ post) <> None)
  /\ (forall d post,
        d <> EmptyString -> all_chars Str.is_digit d = true ->
        search_height ("s" ++ d ++ "p" ++ post) = Some d)
  /\ search_height "hd" = None.
Proof.
  split; [|split; [|split]].
  - intros s d _. revert d. induction s as [|c s IH]; intros d E.
    + cbn in E. discriminate E.
    + cbn [search_height] in E.
      destruct (height_at (String c s)) as [d'|] eqn:Eh.
      * inversion E; subst d'. apply height_at_inv in Eh as (post & Es & Hne & Hd).
        exists EmptyString, post. repeat split; assumption.
      * destruct (IH d E) as (pre & post & -> & Hne & Hd).
        exists (String c pre), post. repeat split; assumption.
  - intros pre d post Hne Hd. induction pre as [|c pre IH].
    + change (EmptyString ++ "s" ++ d ++ "p" ++ post) with ("s" ++ d ++ "p" ++ post).
      rewrite search_height_unfold, (height_at_here d post Hne Hd). discriminate.
    + change (String c pre ++ "s" ++ d ++ "p" ++ post)
        with (String c (pre ++ "s" ++ d ++ "p" ++ post)).
      rewrite search_height_unfold.
      destruct (height_at (String c (pre ++ "s" ++ d ++ "p" ++ post)));
        [discriminate|exact IH].
  - intros d post Hne Hd.
    now rewrite search_height_unfold, (height_at_here d post Hne Hd).
  - reflexivity.
Qed.

Lemma ViuOTTIE_format_step_inv (H : Host) (sizes : json) (acc : list json)
    (kv : string * json) (acc' : list json) :
  ViuOTTIE_format_step sizes acc kv = Ok acc' ->
  exists f,
    acc' = (acc ++ [f])%list
    /\ field "format_id" f = JStr (fst kv)
    /\ field "url" f = snd kv
    /\ field "ext" f = JStr "mp4"
    /\ field "height" f = ViuOTTIE_height (fst kv)
    /\ field "filesize" f = of_opt_int (int_or_none (field (fst kv) sizes)).
Proof.
  unfold ViuOTTIE_format_step. destruct kv as [label stream_url].
  destruct sizes; try discriminate. cbn [dict_get bind].
  intro E; inversion E. eexists. split; [reflexivity|].
  repeat split.
Qed.

Lemma ViuOTTIE_formats_fold (H : Host) (sizes : json) (urls : list (string * json)) :
  forall acc fs,
    for_each (ViuOTTIE_format_step sizes) urls acc = Ok fs ->
    exists new,
      fs = (acc ++ new)%list
      /\ fields_of "format_id" new = map (fun kv => JStr (fst kv)) urls
      /\ fields_of "url" new = map snd urls
      /\ fields_of "height" new = map (fun kv => ViuOTTIE_height (fst kv)) urls
      /\ Forall (fun f => field "ext" f = JStr "mp4") new.
Proof.
  induction urls as [|kv urls IH]; intros acc fs E; cbn [for_each] in E.
  - inversion E; subst. exists []. rewrite app_nil_r. repeat split. constructor.
  - destruct (ViuOTTIE_format_step sizes acc kv) as [acc'|] eqn:Es; [|discriminate].
    cbn [bind] in E.
    apply ViuOTTIE_format_step_inv in Es as (f & -> & Hid & Hurl & Hext & Hh & _).
    destruct (IH _ _ E) as (new & -> & H1 & H2 & H3 & H4).
    exists (f :: new). rewrite <- app_assoc. split; [reflexivity|].
    unfold fields_of in *. cbn [map]. rewrite Hid, Hurl, Hh, H1, H2, H3.
    repeat split. now constructor.
Qed.

(** X14.  ViuOTTIE makes one format per quality label of the stream
    reply, in the order of the reply: the format ids are the labels,
    the urls are the values under the labels, every ext is mp4 and the
    height is the one read from the label. *)
Theorem ViuOTTIE_formats_per_label (H : Host) (sizes : json)
    (urls : list (string * json)) (fs : list json) :
  for_each (ViuOTTIE_format_step sizes) urls [] = Ok fs ->
  List.length fs = List.length urls
  /\ fields_of "format_id" fs = map (fun kv => JStr (fst kv)) urls
  /\ fields_of "url" fs = map snd urls
  /\ fields_of "height" fs = map (fun kv => ViuOTTIE_height (fst kv)) urls
  /\ Forall (fun f => field "ext" f = JStr "mp4") fs.
Proof.
  intro E. destruct (ViuOTTIE_formats_fold H sizes urls [] fs E)
    as (new & -> & H1 & H2 & H3 & H4).
  cbn [app]. repeat split; try assumption.
  unfold fields_of in H1.
  rewrite <- (length_map (field "format_id") new), H1. apply length_map.
Qed.

(** X14, witness: two qualities, no sizes. *)
Lemma ViuOTTIE_formats_per_label_witness :
  exists fs,
    for_each (@ViuOTTIE_format_step (Demo.host [] (Demo.always JNull) (JArr [])) (JObj []))
      stream_urls [] = Ok fs
    /\ fields_of "format_id" fs = [JStr "s240p"; JStr "s720p"].
Proof.
  eexists. split; [reflexivity|].
  exact (proj1 (proj2 (ViuOTTIE_formats_per_label
                         (Demo.host [] (Demo.always JNull) (JArr [])) (JObj [])
                         stream_urls _ eq_refl))).
Defined.

(** ** ViuTVIE: the programme as a playlist *)

Lemma ViuTVIE_ordered_perm (H : Host) (episodes : list json) :
  Permutation episodes (ViuTVIE_ordered episodes).
Proof.
  unfold ViuTVIE_ordered.
  rewrite <- (map_snd_keyed ViuTVIE_number episodes) at 1.
  apply Permutation_map, stable_sort_perm.
Qed.

Lemma ViuTVIE_ordered_sorted (H : Host) (episodes : list json) :
  StronglySorted (fun a b => ViuTVIE_number a <= ViuTVIE_number b)
    (ViuTVIE_ordered episodes).
Proof.
  unfold ViuTVIE_ordered. apply (keyed_sorted_fst ViuTVIE_number).
  - eapply Permutation_Forall; [apply stable_sort_perm|apply keyed_fst].
  - apply stable_sort_sorted.
Qed.

Lemma ViuTVIE_sort_key_ok (H : Host) (x : json) :
  listed_episode_ok x -> ViuTVIE_sort_key x = Ok (Some (ViuTVIE_number x)).
Proof.
  intros (Hobj & (z & Hz) & _). destruct x; try discriminate.
  unfold ViuTVIE_sort_key, ViuTVIE_number. cbn [dict_get bind].
  change (match assoc "episodeNum" fields with Some v => v | None => JNum 0 end)
    with (episode_num_or_0 (JObj fields)).
  now rewrite Hz.
Qed.

Lemma ViuTVIE_title_eq (meta ep : list (string * json)) :
  ViuTVIE_title (JObj meta) (JObj ep)
  = Ok (py_or (field "title" (JObj meta))
          (py_or (field "episodeNameU3" (JObj ep)) (field "ga_title" (JObj ep)))).
Proof.
  unfold ViuTVIE_title, py_or. cbn [dict_get bind field].
  destruct (truthy _); [reflexivity|]. destruct (truthy _); reflexivity.
Qed.

Lemma ViuTVIE_entry_step_ok (H : Host) (program_slug : string)
    (acc : list url_result) (x : json) :
  listed_episode_ok x ->
  ViuTVIE_entry_step program_slug acc x
  = Ok (if truthy (field "productId" x)
        then acc ++ [ViuTVIE_ref_of program_slug x]
        else acc)%list.
Proof.
  intros (Hobj & _ & Hmeta). destruct x as [| | | | |kv]; try discriminate.
  unfold ViuTVIE_entry_step. cbn [dict_get bind field] in *.
  destruct (truthy (match assoc "productId" kv with Some v => v | None => JNull end))
    eqn:Et; cbn [negb]; [|reflexivity].
  specialize (Hmeta eq_refl). unfold video_meta_of in Hmeta.
  destruct (match assoc "videoMeta" kv with Some v => v | None => JObj [] end)
    as [| | | | |meta] eqn:Em; try discriminate Hmeta.
  rewrite ViuTVIE_title_eq. cbn [bind].
  unfold ViuTVIE_ref_of, ViuTVIE_title_of, ViuTVIE_episode_url, video_meta_of.
  cbn [field]. rewrite Em. reflexivity.
Qed.

(** X15.  A URL of ViuTVIE without episode gives the programme as a
    playlist: one reference per episode that has a (truthy) productId,
    in non-decreasing order of [int_or_none(episodeNum, default 0)],
    episodes of equal number in the order of the reply; the playlist
    has the programmeId as id, the series title (or else the title) of
    the programme as title, and its synopsis as description, each of
    them only when it is truthy: a missing or empty one is left out. *)
Theorem ViuTVIE_programme_playlist (H : Host) (u program_slug : string) (reply : json)
    (programme meta : list (string * json)) (episodes : list json) :
  ViuTVIE_match_url u = Some (program_slug, None) ->
  download_json (ViuTVIE_programme_request program_slug) = Ok reply ->
  getitem reply "programme" = Ok (JObj programme) ->
  assoc "episodes" programme = Some (JArr episodes) ->
  match assoc "programmeMeta" programme with Some v => v | None => JObj [] end
  = JObj meta ->
  Forall listed_episode_ok episodes ->
  ViuTVIE_real_extract u
  = Ok (Playlist
          {| entries :=
               map (ViuTVIE_ref_of program_slug)
                 (filter (fun x => truthy (field "productId" x)) (ViuTVIE_ordered episodes));
             playlist_id := if_truthy (field "programmeId" (JObj programme));
             playlist_title := if_truthy (py_or (field "seriesTitle" (JObj meta))
                                            (field "title" (JObj programme)));
             playlist_description := if_truthy (field "synopsis" (JObj programme)) |})
  /\ Permutation episodes (ViuTVIE_ordered episodes)
  /\ StronglySorted (fun a b => ViuTVIE_number a <= ViuTVIE_number b)
       (ViuTVIE_ordered episodes).
Proof.
  intros Hu Hd Hp He Hm Hall.
  split; [|split; [apply ViuTVIE_ordered_perm|apply ViuTVIE_ordered_sorted]].
  unfold ViuTVIE_real_extract. rewrite Hu.
  change (download_json _) with (download_json (ViuTVIE_programme_request program_slug)).
  rewrite Hd. cbn [bind]. rewrite Hp. cbn [bind getitem]. rewrite He.
  cbn [bind dict_get]. rewrite Hm. cbn [dict_get bind].
  unfold ViuTVIE_programme. cbn [iterate bind].
  rewrite (sorted_by_numeric ViuTVIE_sort_key ViuTVIE_number episodes).
  - cbn [bind]. fold (ViuTVIE_ordered episodes).
    rewrite (for_each_collect (ViuTVIE_entry_step program_slug)
               (fun x => truthy (field "productId" x))
               (ViuTVIE_ref_of program_slug)).
    + reflexivity.
    + intros acc x Hx. apply ViuTVIE_entry_step_ok.
      rewrite Forall_forall in Hall. apply Hall.
      eapply Permutation_in; [apply Permutation_sym, ViuTVIE_ordered_perm|exact Hx].
  - intros x Hx. apply ViuTVIE_sort_key_ok.
    rewrite Forall_forall in Hall. now apply Hall.
Qed.

Lemma two_episodes_ok : Forall (@listed_episode_ok two_episodes_host) two_episodes.
Proof.
  repeat (constructor;
          [split; [reflexivity|split; [eexists; reflexivity|intros _; reflexivity]]|]).
  constructor.
Defined.

(** X15, witness: two episodes given as 2, 1 are listed as 1, 2. *)
Lemma ViuTVIE_programme_playlist_witness :
  exists p,
    @ViuTVIE_real_extract two_episodes_host "https://viu.tv/encore/leap-day"
    = Ok (Playlist p)
    /\ map ref_video_id (entries p)
       = [JStr "202002211024763"; JStr "202002281024764"].
Proof.
  eexists. split.
  - exact (proj1 (ViuTVIE_programme_playlist two_episodes_host
                    "https://viu.tv/encore/leap-day" "leap-day"
                    (JObj [("programme", JObj two_episodes_programme)])
                    two_episodes_programme [] two_episodes
                    eq_refl eq_refl eq_refl eq_refl eq_refl two_episodes_ok)).
  - reflexivity.
Defined.

(** ** ViuTVIE: the two branches *)

Lemma is_video_bind {A K : Type} (c : result A) (k : A -> result (extraction K)) :
  (forall a, is_video (k a) = false) -> is_video (bind c k) = false.
Proof. intro Hk. destruct c; [apply Hk|reflexivity]. Qed.

Lemma ViuTVIE_stream_is_video (H : Host)
    (product_data ep_data product_id program_title get_vod_data : json) :
  is_playlist
    (ViuTVIE_stream product_data ep_data product_id program_title get_vod_data) = false.
Proof.
  unfold ViuTVIE_stream.
  repeat first
    [ reflexivity
    | apply is_playlist_bind; intro
    | match goal with
      | |- is_playlist (if ?b then _ else _) = false => destruct b
      end ].
Qed.

Lemma ViuTVIE_episode_is_video (H : Host) (program_slug episode_slug : string)
    (product_data episodes program_title : json) :
  is_playlist
    (ViuTVIE_episode program_slug episode_slug product_data episodes program_title) = false.
Proof.
  unfold ViuTVIE_episode.
  apply is_playlist_bind; intro eps.
  apply is_playlist_bind; intro ep_data.
  apply is_playlist_bind; intro product_id.
  destruct (negb (truthy product_id)); [reflexivity|].
  apply is_playlist_bind; intro vod. apply ViuTVIE_stream_is_video.
Qed.

Lemma ViuTVIE_programme_is_playlist (H : Host) (program_slug : string)
    (product_data episodes program_title : json) :
  is_video (ViuTVIE_programme program_slug product_data episodes program_title) = false.
Proof.
  unfold ViuTVIE_programme. repeat first [reflexivity|apply is_video_bind; intro].
Qed.

(** X16.  The recursion of ViuTVIE has a base case: a URL with an
    episode slug is never resolved to a playlist, and a URL without one
    is never resolved to a single video, whatever the host replies. *)
Theorem ViuTVIE_branch_by_url (H : Host) (u program_slug : string)
    (episode_slug : option string) :
  ViuTVIE_match_url u = Some (program_slug, episode_slug) ->
  match episode_slug with
  | Some _ => is_playlist (ViuTVIE_real_extract u) = false
  | None => is_video (ViuTVIE_real_extract u) = false
  end.
Proof.
  intro Hu. unfold ViuTVIE_real_extract. rewrite Hu.
  destruct episode_slug as [e|].
  - do 6 (apply is_playlist_bind; intro). apply ViuTVIE_episode_is_video.
  - do 6 (apply is_video_bind; intro). apply ViuTVIE_programme_is_playlist.
Qed.

(** X16, witness: the URL of the test of ViuTVIE names an episode. *)
Lemma ViuTVIE_branch_by_url_witness :
  is_playlist (@ViuTVIE_real_extract (tv_host (episode_with []) vod_plain (JArr [some_format]))
                 tv_url) = false.
Proof.
  exact (ViuTVIE_branch_by_url (tv_host (episode_with []) vod_plain (JArr [some_format]))
           tv_url "leap-day" (Some "leap-daye2si-hung-long-yan") eq_refl).
Defined.

(** ** ViuTVIE: the URL of an episode is a URL of ViuTVIE *)

Lemma ViuTVIE_match_url_slug (u program_slug : string) (episode_slug : option string) :
  ViuTVIE_match_url u = Some (program_slug, episode_slug) ->
  program_slug <> EmptyString
  /\ all_chars (Str.not_char "/"%char) program_slug = true.
Proof.
  unfold ViuTVIE_match_url. intro E.
  destruct (Str.drop_prefix "http" u) as [r0|]; [|discriminate].
  destruct (Str.drop_prefix "://" _) as [r1|]; [|discriminate].
  destruct (Str.drop_prefix "viu.tv/encore/" _) as [r2|]; [|discriminate].
  destruct (Str.span1 (Str.not_char "/"%char) r2) as [[p r3]|] eqn:Ep; [|discriminate].
  apply span1_inv in Ep as (_ & Hall & _ & Hne).
  destruct (Str.drop_prefix "/" r3) as [r4|].
  - destruct (Str.span1 _ r4) as [[e r5]|]; inversion E; subst; now split.
  - inversion E; subst; now split.
Qed.

(** X17.  The URL of the reference to an episode (line 382) is a URL of
    ViuTVIE for the same programme, whose episode slug is the longest
    prefix of the slug text without slash and question mark: the slug
    itself when it is not empty and holds neither; no episode at all -
    the URL of the programme again - when the slug text is empty or
    starts with one of the two. *)
Theorem ViuTVIE_episode_url_roundtrip (u program_slug : string)
    (episode_slug : option string) (item_slug : string) :
  ViuTVIE_match_url u = Some (program_slug, episode_slug) ->
  ViuTVIE_match_url (ViuTVIE_episode_url program_slug item_slug)
  = Some (program_slug,
          match Str.span1 slug_char item_slug with
          | Some (e, _) => Some e
          | None => None
          end)
  /\ (item_slug <> EmptyString -> all_chars slug_char item_slug = true ->
      ViuTVIE_match_url (ViuTVIE_episode_url program_slug item_slug)
      = Some (program_slug, Some item_slug))
  /\ ViuTVIE_match_url (ViuTVIE_episode_url program_slug EmptyString)
     = Some (program_slug, None).
Proof.
  intro Hu. destruct (ViuTVIE_match_url_slug _ _ _ Hu) as [Hne Hall].
  assert (Hm : forall slug,
    ViuTVIE_match_url (ViuTVIE_episode_url program_slug slug)
    = Some (program_slug,
            match Str.span1 slug_char slug with
            | Some (e, _) => Some e
            | None => None
            end)).
  { intro slug.
    change (ViuTVIE_match_url (ViuTVIE_episode_url program_slug slug))
      with (ViuTVIE_match_path (program_slug ++ "/" ++ slug)).
    unfold ViuTVIE_match_path.
    rewrite (span1_app _ program_slug ("/" ++ slug) Hne Hall eq_refl).
    rewrite drop_prefix_app.
    destruct (Str.span1 slug_char slug) as [[e r]|]; reflexivity. }
  split; [apply Hm|]. split.
  - intros Hn Hs. rewrite Hm. unfold Str.span1. rewrite (span_all _ _ Hs).
    destruct item_slug; [contradiction|reflexivity].
  - rewrite Hm. reflexivity.
Qed.

(** X17, witness: the episode ep-1 of the programme leap-day. *)
Lemma ViuTVIE_episode_url_roundtrip_witness :
  ViuTVIE_match_url (ViuTVIE_episode_url "leap-day" "ep-1") = Some ("leap-day", Some "ep-1").
Proof.
  refine (proj1 (proj2 (ViuTVIE_episode_url_roundtrip "https://viu.tv/encore/leap-day"
                          "leap-day" None "ep-1" eq_refl)) _ eq_refl).
  discriminate.
Defined.

(** ** ViuTVIE: finding the episode *)

(** X18.  The episode of a URL is the first one of the list whose slug
    is the slug of the URL, whatever comes after it. *)
Theorem ViuTVIE_find_episode_first (episode_slug : string) (before after : list json)
    (x : json) :
  Forall (fun y => is_object y = true /\ str_is (field "slug" y) episode_slug = false)
    before ->
  is_object x = true ->
  str_is (field "slug" x) episode_slug = true ->
  ViuTVIE_find_episode episode_slug (before ++ x :: after) = Ok x.
Proof.
  intros Hb Hx Hs. induction Hb as [|y before [Hy Hn] _ IH]; cbn [app ViuTVIE_find_episode].
  - destruct x; try discriminate. cbn [dict_get bind]. cbn [field] in Hs. now rewrite Hs.
  - destruct y; try discriminate. cbn [dict_get bind]. cbn [field] in Hn. now rewrite Hn.
Qed.

(** X18, witness: the second of two episodes. *)
Lemma ViuTVIE_find_episode_first_witness :
  ViuTVIE_find_episode "ep-1" two_episodes
  = Ok (JObj [("slug", JStr "ep-1"); ("productId", JStr "202002211024763");
              ("episodeNum", JNum 1); ("videoMeta", JObj [("title", JStr "One")])]).
Proof.
  refine (ViuTVIE_find_episode_first "ep-1"
            [JObj [("slug", JStr "ep-2"); ("productId", JStr "202002281024764");
                   ("episodeNum", JNum 2)]] []
            (JObj [("slug", JStr "ep-1"); ("productId", JStr "202002211024763");
                   ("episodeNum", JNum 1); ("videoMeta", JObj [("title", JStr "One")])])
            _ eq_refl eq_refl).
  repeat constructor.
Defined.

Lemma ViuTVIE_find_episode_none (episode_slug : string) (eps : list json) :
  Forall (fun x => is_object x = true
                   /\ (str_is (field "slug" x) episode_slug = true ->
                       truthy (field "productId" x) = false)) eps ->
  exists ep,
    ViuTVIE_find_episode episode_slug eps = Ok (JObj ep)
    /\ truthy (field "productId" (JObj ep)) = false.
Proof.
  induction 1 as [|x eps [Hx Hp] _ IH]; cbn [ViuTVIE_find_episode].
  - exists []. split; reflexivity.
  - destruct x as [| | | | |kv]; try discriminate. cbn [dict_get bind].
    cbn [field] in Hp.
    destruct (str_is (match assoc "slug" kv with Some v => v | None => JNull end)
                episode_slug) eqn:Es.
    + exists kv. split; [reflexivity|]. now apply Hp.
    + exact IH.
Qed.

(** X19.  When no episode of the programme that bears the slug of the
    URL has a productId - no episode bears it, for one - ViuTVIE raises
    the expected ExtractorError 'Video <programme slug> does not
    exist', before any request for a stream. *)
Theorem ViuTVIE_episode_not_found (H : Host) (u program_slug episode_slug : string)
    (reply : json) (programme meta : list (string * json)) (episodes : list json) :
  ViuTVIE_match_url u = Some (program_slug, Some episode_slug) ->
  download_json (ViuTVIE_programme_request program_slug) = Ok reply ->
  getitem reply "programme" = Ok (JObj programme) ->
  assoc "episodes" programme = Some (JArr episodes) ->
  match assoc "programmeMeta" programme with Some v => v | None => JObj [] end
  = JObj meta ->
  Forall (fun x => is_object x = true
                   /\ (str_is (field "slug" x) episode_slug = true ->
                       truthy (field "productId" x) = false)) episodes ->
  ViuTVIE_real_extract u
  = Raise (ExtractorError ("Video " ++ program_slug ++ " does not exist") true JNull).
Proof.
  intros Hu Hd Hp He Hm Hall.
  unfold ViuTVIE_real_extract. rewrite Hu.
  change (download_json _) with (download_json (ViuTVIE_programme_request program_slug)).
  rewrite Hd. cbn [bind]. rewrite Hp. cbn [bind getitem]. rewrite He.
  cbn [bind dict_get]. rewrite Hm. cbn [dict_get bind].
  unfold ViuTVIE_episode. cbn [iterate bind].
  destruct (ViuTVIE_find_episode_none episode_slug episodes Hall) as (ep & Ef & Ht).
  rewrite Ef. cbn [bind dict_get]. cbn [field] in Ht. now rewrite Ht.
Qed.

(** X19, witness: the programme of two episodes has no ep-3. *)
Lemma ViuTVIE_episode_not_found_witness :
  @ViuTVIE_real_extract two_episodes_host "https://viu.tv/encore/leap-day/ep-3"
  = Raise (ExtractorError "Video leap-day does not exist" true JNull).
Proof.
  refine (ViuTVIE_episode_not_found two_episodes_host
            "https://viu.tv/encore/leap-day/ep-3" "leap-day" "ep-3"
            (JObj [("programme", JObj two_episodes_programme)])
            two_episodes_programme [] two_episodes
            eq_refl eq_refl eq_refl eq_refl eq_refl _).
  repeat (constructor; [split; [reflexivity|intro E; discriminate E]|]).
  constructor.
Defined.

(** X20.  When the reply of getVodURL names no manifest (asset missing,
    empty, or with a falsy first element), ViuTVIE extracts nothing and
    raises: for a productId that is text, the expected ExtractorError
    'Cannot get stream info' with the productId as video id; for a
    productId that is not text (a number, say), TypeError, since the
    message of the error is built as productId + ': ' + message. *)
Theorem ViuTVIE_no_manifest (H : Host)
    (product_data ep_data product_id program_title : json)
    (vod : list (string * json)) (assets : list json) :
  iterate (match assoc "asset" vod with Some v => v | None => JArr [] end) = Ok assets ->
  truthy (match assets with a :: _ => a | [] => JNull end) = false ->
  truthy product_id = true ->
  (forall s,
      product_id = JStr s ->
      ViuTVIE_stream product_data ep_data product_id program_title (JObj vod)
      = Raise (ExtractorError "Cannot get stream info" true (JStr s)))
  /\ ((forall s, product_id <> JStr s) ->
      ViuTVIE_stream product_data ep_data product_id program_title (JObj vod)
      = Raise TypeError).
Proof.
  intros Hi Ht Hp. unfold ViuTVIE_stream. cbn [dict_get bind]. rewrite Hi. cbn [bind].
  rewrite Ht. cbn [negb]. split.
  - intros s ->. reflexivity.
  - intro Hn. destruct product_id as [| | |s| |]; try reflexivity.
    + discriminate Hp.
    + now elim (Hn s).
Qed.

(** X20, witness: an empty list of assets, for a productId that is text. *)
Lemma ViuTVIE_no_manifest_witness :
  @ViuTVIE_real_extract (tv_host (episode_with []) vod_empty (JArr [some_format])) tv_url
  = Raise (ExtractorError "Cannot get stream info" true (JStr "202002281024764")).
Proof.
  exact (proj1 (ViuTVIE_no_manifest (tv_host (episode_with []) vod_empty (JArr [some_format]))
                  (JObj [("programmeId", JStr "201912050000001");
                         ("title", JStr "Leap Day");
                         ("slug", JStr "leap-day");
                         ("episodes", JArr [episode_with []])])
                  (episode_with []) (JStr "202002281024764") (JStr "Leap Day")
                  [("asset", JArr [])] [] eq_refl eq_refl eq_refl)
           "202002281024764" eq_refl).
Defined.

(** the same reply for an episode whose productId is the number 7 *)
Example ViuTVIE_no_manifest_number :
  @ViuTVIE_real_extract
    (tv_host (JObj [("slug", JStr "leap-daye2si-hung-long-yan"); ("productId", JNum 7)])
       vod_empty (JArr [some_format]))
    tv_url
  = Raise TypeError.
Proof. reflexivity. Qed.

(** ** ViuTVIE: the tags, in full *)

Lemma ViuTVIE_tags_fold (l : list json) :
  forall acc,
    for_each ViuTVIE_tag_step l acc
    = if forallb is_object l then Ok (acc ++ tag_names l)%list else Raise AttributeError.
Proof.
  induction l as [|x l IH]; intro acc; cbn [for_each forallb].
  - unfold tag_names. cbn. now rewrite app_nil_r.
  - destruct x as [| | | | |kv]; try reflexivity.
    rewrite (ViuTVIE_tag_step_ok acc (JObj kv) eq_refl). cbn [bind is_object andb].
    rewrite IH. destruct (forallb is_object l); [|reflexivity].
    unfold tag_names. cbn [filter].
    destruct (truthy (field "name" (JObj kv))); [|reflexivity].
    cbn [map]. now rewrite <- app_assoc.
Qed.

(** X21.  What lines 452-459 make of the tags, for every value: None
    when it is not a list; the names of the elements that have a
    (truthy) name, in order, when it is a list of objects; and
    AttributeError, uncaught, when it is a list that holds anything
    else than objects. *)
Theorem ViuTVIE_tags_outcome (tags : json) :
  ViuTVIE_tags tags
  = match tags with
    | JArr l =>
        if forallb is_object l then Ok (JArr (tag_names l)) else Raise AttributeError
    | _ => Ok JNull
    end.
Proof.
  destruct tags as [| | | |l|]; try reflexivity.
  unfold ViuTVIE_tags. rewrite ViuTVIE_tags_fold.
  destruct (forallb is_object l); reflexivity.
Qed.

(** ** ViuTVIE: the subtitles *)

Lemma ViuTVIE_SUBTITLE_LANG_codes (name code : string) :
  assoc name ViuTVIE_SUBTITLE_LANG = Some code -> (code =? EmptyString)%string = false.
Proof.
  unfold ViuTVIE_SUBTITLE_LANG. cbn [assoc].
  repeat match goal with
         | |- context [(?a =? name)%string] => destruct (a =? name)%string
         end;
    intro E; inversion E; reflexivity.
Qed.

Lemma ViuTVIE_subtitles_fold (H : Host) (product_id : json) (langs : list string)
    (lang : string) (m : subtitle_map string) :
  sub_lookup String.eqb lang (fold_left (ViuTVIE_subtitle_step product_id) langs m)
  = match sub_lookup String.eqb lang m, ViuTVIE_tracks product_id lang langs with
    | None, [] => None
    | None, ts => Some ts
    | Some old, ts => Some (old ++ ts)%list
    end.
Proof.
  revert m; induction langs as [|l langs IH]; intro m.
  - simpl. destruct (sub_lookup String.eqb lang m); [now rewrite app_nil_r|reflexivity].
  - cbn [fold_left]. rewrite IH. unfold ViuTVIE_subtitle_step, ViuTVIE_tracks.
    cbn [flat_map].
    destruct (assoc (Str.lower l) ViuTVIE_SUBTITLE_LANG) as [code|] eqn:Ea.
    + rewrite (ViuTVIE_SUBTITLE_LANG_codes _ _ Ea), sub_lookup_setdefault.
      destruct (l =? lang)%string; [|reflexivity].
      destruct (sub_lookup String.eqb lang m) as [old|]; cbn [app].
      * now rewrite <- app_assoc.
      * reflexivity.
    + destruct (l =? lang)%string; reflexivity.
Qed.

Lemma ViuTVIE_tracks_unknown (H : Host) (product_id : json) (lang : string)
    (langs : list string) :
  assoc (Str.lower lang) ViuTVIE_SUBTITLE_LANG = None ->
  ViuTVIE_tracks product_id lang langs = [].
Proof.
  intro Hn. unfold ViuTVIE_tracks. induction langs as [|l ls IH]; [reflexivity|].
  cbn [flat_map]. rewrite IH, app_nil_r.
  destruct (l =? lang)%string eqn:El; [|reflexivity].
  apply String.eqb_eq in El; subst l. now rewrite Hn.
Qed.

(** X22.  The subtitles of an episode whose productSubtitle is a string
    (or missing): for every name between the commas that the table of
    languages knows, whatever its case, one srt track per occurrence
    under that name as it is written, at
    https://static.viu.tv/subtitle/<id>/<id>-<CODE>.srt; a name the
    table does not know gets no entry. *)
Theorem ViuTVIE_subtitles_by_language (H : Host) (ep : list (string * json))
    (product_id : json) (names : string) :
  match assoc "productSubtitle" ep with Some v => v | None => JStr EmptyString end
  = JStr names ->
  exists subs,
    ViuTVIE_subtitles (JObj ep) product_id = Ok subs
    /\ (forall lang,
          sub_lookup String.eqb lang subs
          = match ViuTVIE_tracks product_id lang (Str.split_on ","%char names) with
            | [] => None
            | ts => Some ts
            end)
    /\ (forall lang,
          assoc (Str.lower lang) ViuTVIE_SUBTITLE_LANG = None ->
          sub_lookup String.eqb lang subs = None).
Proof.
  intro Hs. unfold ViuTVIE_subtitles. cbn [dict_get bind]. rewrite Hs.
  eexists. split; [reflexivity|].
  assert (Hl : forall lang,
    sub_lookup String.eqb lang
      (fold_left (ViuTVIE_subtitle_step product_id) (Str.split_on ","%char names) [])
    = match ViuTVIE_tracks product_id lang (Str.split_on ","%char names) with
      | [] => None
      | ts => Some ts
      end).
  { intro lang. rewrite ViuTVIE_subtitles_fold. reflexivity. }
  split; [exact Hl|].
  intros lang Hn. rewrite Hl.
  assert (Et : ViuTVIE_tracks product_id lang (Str.split_on ","%char names) = [])
    by now apply ViuTVIE_tracks_unknown.
  now rewrite Et.
Qed.

(** X22, witness: Chinese and English are known, Klingon is not. *)
Lemma ViuTVIE_subtitles_by_language_witness :
  exists subs,
    @ViuTVIE_subtitles (Demo.host [] (Demo.always JNull) (JArr []))
      (JObj [("productSubtitle", JStr "Chinese,Klingon,English")]) (JStr "2020") = Ok subs
    /\ sub_lookup String.eqb "Klingon" subs = None
    /\ sub_lookup String.eqb "English" subs
       = Some [ {| sub_url := JStr "https://static.viu.tv/subtitle/2020/2020-GBR.srt";
                   sub_ext := "srt" |} ].
Proof.
  destruct (ViuTVIE_subtitles_by_language (Demo.host [] (Demo.always JNull) (JArr []))
              [("productSubtitle", JStr "Chinese,Klingon,English")] (JStr "2020")
              "Chinese,Klingon,English" eq_refl) as (subs & Hs & Hl & Hn).
  exists subs. split; [exact Hs|]. split.
  - apply Hn. reflexivity.
  - rewrite Hl. reflexivity.
Defined.

(** ** What the replies must hold *)

(** X23.  ViuTVIE reads the programme before it looks at the episode
    slug: a reply without programme raises KeyError 'programme' and a
    programme without episodes KeyError 'episodes', on both branches,
    and a failure of the download is raised as it is. *)
Theorem ViuTVIE_needs_programme (H : Host) (u program_slug : string)
    (episode_slug : option string) :
  ViuTVIE_match_url u = Some (program_slug, episode_slug) ->
  (forall e,
      download_json (ViuTVIE_programme_request program_slug) = Raise e ->
      ViuTVIE_real_extract u = Raise e)
  /\ (forall reply,
        download_json (ViuTVIE_programme_request program_slug) = Ok (JObj reply) ->
        (assoc "programme" reply = None ->
         ViuTVIE_real_extract u = Raise (KeyError (JStr "programme")))
        /\ (forall programme,
              assoc "programme" reply = Some (JObj programme) ->
              assoc "episodes" programme = None ->
              ViuTVIE_real_extract u = Raise (KeyError (JStr "episodes")))).
Proof.
  intro Hu. unfold ViuTVIE_real_extract. rewrite Hu.
  change (download_json
            {| req_url := "https://api.viu.tv/production/programmes/" ++ program_slug;
               req_query := []; req_headers := []; req_data := None |})
    with (download_json (ViuTVIE_programme_request program_slug)).
  split.
  - intros e ->. reflexivity.
  - intros reply ->. cbn [bind getitem]. split.
    + intros ->. reflexivity.
    + intros programme -> Hn. cbn [bind getitem]. now rewrite Hn.
Qed.

(** X23, witness: an empty reply, for a URL with an episode. *)
Lemma ViuTVIE_needs_programme_witness :
  @ViuTVIE_real_extract (Demo.host [] (Demo.always (JObj [])) (JArr [])) tv_url
  = Raise (KeyError (JStr "programme")).
Proof.
  exact (proj1 (proj2 (ViuTVIE_needs_programme
                         (Demo.host [] (Demo.always (JObj [])) (JArr [])) tv_url
                         "leap-day" (Some "leap-daye2si-hung-long-yan") eq_refl)
                  [] eq_refl) eq_refl).
Defined.

(** X24.  The single video of ViuOTTIE needs the ccs_product_id of the
    current product: without it KeyError is raised before the stream
    endpoint is asked; and the reply of that endpoint must hold data
    and, under it, stream, or KeyError is raised. *)
Theorem ViuOTTIE_single_needs (H : Host) (url_s country_code video_id : string)
    (product_data : json) (video_data : list (string * json)) :
  (assoc "ccs_product_id" video_data = None ->
   ViuOTTIE_single url_s country_code video_id product_data (JObj video_data)
   = Raise (KeyError (JStr "ccs_product_id")))
  /\ (forall ccs origin reply,
        assoc "ccs_product_id" video_data = Some ccs ->
        search_origin url_s = Some origin ->
        download_json
          {| req_url := "https://d1k2us671qcoau.cloudfront.net/distribute_web_"
                          ++ country_code ++ ".php";
             req_query := [("ccs_product_id", ccs)];
             req_headers := [("Referer", JStr url_s); ("Origin", JStr origin)];
             req_data := None |} = Ok (JObj reply) ->
        (assoc "data" reply = None ->
         ViuOTTIE_single url_s country_code video_id product_data (JObj video_data)
         = Raise (KeyError (JStr "data")))
        /\ (forall data,
              assoc "data" reply = Some (JObj data) ->
              assoc "stream" data = None ->
              ViuOTTIE_single url_s country_code video_id product_data (JObj video_data)
              = Raise (KeyError (JStr "stream")))).
Proof.
  assert (Ea : ViuOTTIE_announce (JObj video_data) = Ok tt).
  { unfold ViuOTTIE_announce. destruct (truthy noplaylist); reflexivity. }
  unfold ViuOTTIE_single. rewrite Ea. cbn [bind getitem]. split.
  - intros ->. reflexivity.
  - intros ccs origin reply -> -> Hd. cbn [bind]. rewrite Hd. cbn [bind getitem]. split.
    + intros ->. reflexivity.
    + intros data -> Hn. cbn [bind getitem]. now rewrite Hn.
Qed.

(** ** ViuOTTIE: the subtitles *)

Lemma setdefault_append_named (k : json) (t : subtitle_track) (m : subtitle_map json) :
  hashable k = true -> srt_track t ->
  Forall named_srt_tracks m ->
  Forall named_srt_tracks (setdefault_append key_eqb k t m).
Proof.
  intros Hk Ht. induction 1 as [|[k0 ts] m (Hh & Hne & Hts) Hm IH]; cbn [setdefault_append].
  - constructor; [|constructor].
    split; [exact Hk|]. split; [discriminate|]. constructor; [exact Ht|constructor].
  - destruct (key_eqb k0 k); constructor; try assumption.
    + split; [exact Hh|]. cbn [snd] in *. split; [destruct ts; discriminate|].
      apply Forall_app. split; [assumption|].
      constructor; [exact Ht|constructor].
    + split; [exact Hh|]. split; assumption.
Qed.

Lemma setdefault_append_count_json (k : json) (t : subtitle_track) (m : subtitle_map json) :
  track_count (setdefault_append key_eqb k t m) = S (track_count m).
Proof.
  unfold track_count.
  induction m as [|[k0 ts] m IH]; cbn [setdefault_append map snd List.concat];
    [reflexivity|].
  destruct (key_eqb k0 k); cbn [map snd List.concat].
  - rewrite !length_app. cbn [List.length]. lia.
  - rewrite !length_app, IH. lia.
Qed.

Lemma ViuOTTIE_subtitle_step_inv (m : subtitle_map json) (sub : json)
    (m' : subtitle_map json) :
  ViuOTTIE_subtitle_step m sub = Ok m' ->
  (m' = m /\ truthy (field "url" sub) = false)
  \/ (exists k t,
        m' = setdefault_append key_eqb k t m
        /\ hashable k = true /\ srt_track t /\ truthy (field "url" sub) = true).
Proof.
  unfold ViuOTTIE_subtitle_step. destruct sub as [| | | | |kv]; try discriminate.
  cbn [dict_get bind field].
  destruct (truthy (match assoc "url" kv with Some v => v | None => JNull end)) eqn:Et;
    cbn [negb].
  - destruct (hashable _) eqn:Eh; [|discriminate].
    intro E; inversion E. right. do 2 eexists. split; [reflexivity|].
    split; [exact Eh|]. split; [split; [reflexivity|exact Et]|reflexivity].
  - intro E; inversion E. now left.
Qed.

(** X25.  The subtitle dict ViuOTTIE builds from the subtitle entries
    of the product: an entry without (truthy) url gives no track, every
    other entry gives one, so the dict holds as many tracks as there
    are entries with a url; every track is srt, and no name is left
    without track. *)
Theorem ViuOTTIE_subtitles_srt (subs : list json) (m : subtitle_map json) :
  for_each ViuOTTIE_subtitle_step subs [] = Ok m ->
  Forall named_srt_tracks m
  /\ track_count m = List.length (filter (fun sub => truthy (field "url" sub)) subs).
Proof.
  assert (Hgen : forall subs acc m,
    Forall named_srt_tracks acc ->
    for_each ViuOTTIE_subtitle_step subs acc = Ok m ->
    Forall named_srt_tracks m
    /\ track_count m
       = (track_count acc
          + List.length (filter (fun sub => truthy (field "url" sub)) subs))%nat).
  { clear. induction subs as [|sub subs IH]; intros acc m Hacc E; cbn [for_each] in E.
    - inversion E; subst. split; [exact Hacc|]. cbn [filter List.length]. lia.
    - destruct (ViuOTTIE_subtitle_step acc sub) as [acc'|] eqn:Es; [|discriminate].
      cbn [bind] in E. cbn [filter].
      apply ViuOTTIE_subtitle_step_inv in Es
        as [[-> Hf] | (k & t & -> & Hk & Ht & Hu)].
      + rewrite Hf. now apply IH.
      + rewrite Hu. destruct (IH _ _ (setdefault_append_named k t acc Hk Ht Hacc) E)
          as [H1 H2].
        split; [exact H1|]. rewrite H2, setdefault_append_count_json.
        cbn [List.length]. lia. }
  intro E. destruct (Hgen subs [] m (Forall_nil _) E) as [H1 H2].
  split; [exact H1|exact H2].
Qed.

(** X25, witness: three entries, one without url. *)
Lemma ViuOTTIE_subtitles_srt_witness :
  exists m,
    for_each ViuOTTIE_subtitle_step three_subtitles [] = Ok m
    /\ track_count m = 2%nat.
Proof.
  eexists. split; [reflexivity|].
  exact (proj2 (ViuOTTIE_subtitles_srt three_subtitles _ eq_refl)).
Defined.

(** ** ViuIE: the URLs of the tests *)

Example ViuIE_match_id_test :
  ViuIE_match_id "https://www.viu.com/en/media/1116705532?containerId=playlist-22168059"
  = Some "1116705532".
Proof. reflexivity. Qed.

Example ViuIE_match_id_india :
  ViuIE_match_id "https://india.viu.com/en/media/1126286865" = Some "1126286865".
Proof. reflexivity. Qed.

Example ViuIE_match_id_bare_host :
  ViuIE_match_id "https://viu.com/en/media/1126286865" = None.
Proof. reflexivity. Qed.

Example ViuIE_match_id_listing :
  ViuIE_match_id "https://www.viu.com/en/listing/playlist-22461380" = None.
Proof. reflexivity. Qed.

(** ** ViuIE: the media URLs *)

Lemma length_append (a b : string) :
  String.length (a ++ b) = (String.length a + String.length b)%nat.
Proof. induction a as [|c a IH]; simpl; [reflexivity|now rewrite IH]. Qed.

Lemma drop_suffix_app (x suf : string) : drop_suffix suf (x ++ suf) = Some x.
Proof.
  induction x as [|c x IH].
  - cbn [append]. destruct suf; cbn [drop_suffix]; now rewrite String.eqb_refl.
  - cbn [append drop_suffix].
    destruct (String c (x ++ suf) =? suf)%string eqn:E.
    + apply String.eqb_eq in E. apply (f_equal String.length) in E.
      cbn [String.length] in E. rewrite length_append in E. lia.
    + now rewrite IH.
Qed.

Lemma all_chars_app (cls : ascii -> bool) (a b : string) :
  all_chars cls a = true -> all_chars cls b = true -> all_chars cls (a ++ b) = true.
Proof.
  induction a as [|c a IH]; simpl; intros Ha Hb; [exact Hb|].
  apply andb_true_iff in Ha as [Hc Ha]. now rewrite Hc, IH.
Qed.

(** X26.  The pattern of ViuIE accepts the media URL of every
    subdomain of viu.com, over http and https, whatever the two-letter
    language, and reads as id the digits 0 to 9 that follow /media/, up
    to the first character that is not a digit, the rest of the URL
    being ASCII text. *)
Theorem ViuIE_match_id_media (subdomain lang id rest : string) :
  subdomain <> EmptyString ->
  all_chars (Str.not_char "/"%char) subdomain = true ->
  all_chars Str.is_lower lang = true -> String.length lang = 2%nat ->
  id <> EmptyString -> all_chars Str.is_digit id = true ->
  ascii_text rest ->
  stops Str.is_digit rest ->
  ViuIE_match_id ("https://" ++ subdomain ++ ".viu.com/" ++ lang ++ "/media/" ++ id ++ rest)
  = Some id
  /\ ViuIE_match_id ("http://" ++ subdomain ++ ".viu.com/" ++ lang ++ "/media/" ++ id ++ rest)
     = Some id.
Proof.
  intros Hne Hsub Hlang Hlen Hid Hd _ Hrest.
  assert (Hhost : Str.span (Str.not_char "/"%char)
                    (subdomain ++ ".viu.com/" ++ lang ++ "/media/" ++ id ++ rest)
                  = (subdomain ++ ".viu.com", "/" ++ lang ++ "/media/" ++ id ++ rest)).
  { change (subdomain ++ ".viu.com/" ++ lang ++ "/media/" ++ id ++ rest)
      with (subdomain ++ ".viu.com" ++ "/" ++ lang ++ "/media/" ++ id ++ rest).
    rewrite <- append_assoc3. apply span_app; [|reflexivity].
    now apply all_chars_app. }
  assert (Htail :
    match drop_suffix ".viu.com" (subdomain ++ ".viu.com") with
    | None => None
    | Some EmptyString => None
    | Some _ =>
        match Str.drop_prefix "/" ("/" ++ lang ++ "/media/" ++ id ++ rest) with
        | None => None
        | Some r =>
            match Str.take_class Str.is_lower 2 r with
            | None => None
            | Some (_, r) =>
                match Str.drop_prefix "/media/" r with
                | None => None
                | Some r => leading_digits r
                end
            end
        end
    end = Some id).
  { rewrite drop_suffix_app. destruct subdomain as [|c sub]; [contradiction|].
    rewrite drop_prefix_app. rewrite <- Hlen at 1.
    rewrite (take_class_app _ lang _ Hlang), drop_prefix_app.
    unfold leading_digits. now rewrite (span1_app _ id rest Hid Hd Hrest). }
  split.
  - change (ViuIE_match_id ("https://" ++ subdomain ++ ".viu.com/" ++ lang
                              ++ "/media/" ++ id ++ rest))
      with (let (host, r) := Str.span (Str.not_char "/"%char)
                               (subdomain ++ ".viu.com/" ++ lang ++ "/media/" ++ id ++ rest) in
            match drop_suffix ".viu.com" host with
            | None => None
            | Some EmptyString => None
            | Some _ =>
                match Str.drop_prefix "/" r with
                | None => None
                | Some r =>
                    match Str.take_class Str.is_lower 2 r with
                    | None => None
                    | Some (_, r) =>
                        match Str.drop_prefix "/media/" r with
                        | None => None
                        | Some r => leading_digits r
                        end
                    end
                end
            end).
    rewrite Hhost. exact Htail.
  - change (ViuIE_match_id ("http://" ++ subdomain ++ ".viu.com/" ++ lang
                              ++ "/media/" ++ id ++ rest))
      with (let (host, r) := Str.span (Str.not_char "/"%char)
                               (subdomain ++ ".viu.com/" ++ lang ++ "/media/" ++ id ++ rest) in
            match drop_suffix ".viu.com" host with
            | None => None
            | Some EmptyString => None
            | Some _ =>
                match Str.drop_prefix "/" r with
                | None => None
                | Some r =>
                    match Str.take_class Str.is_lower 2 r with
                    | None => None
                    | Some (_, r) =>
                        match Str.drop_prefix "/media/" r with
                        | None => None
                        | Some r => leading_digits r
                        end
                    end
                end
            end).
    rewrite Hhost. exact Htail.
Qed.

(** X26, witness: the URL of the third test of ViuIE. *)
Lemma ViuIE_match_id_media_witness :
  ViuIE_match_id "https://india.viu.com/en/media/1126286865" = Some "1126286865".
Proof.
  refine (proj1 (ViuIE_match_id_media "india" "en" "1126286865" EmptyString
                   _ eq_refl eq_refl eq_refl _ eq_refl eq_refl I)); discriminate.
Defined.
